(** * Driver onboarding orchestration

    A shallow embedding of the onboarding workflow of the driver-onboarding
    backend: the background-check service, the insurance-verification
    service and the integration service that sequences them with payment,
    document storage and the database update, together with the per-step
    retry, the health report and the routes that expose them.

    JavaScript values are embedded as follows.
    - An object used as a map ([steps], [checks], [verifications]) is an
      association list in insertion order with unique keys ([Obj]): this is
      the order in which [Object.keys], [Object.values] and [Object.entries]
      enumerate string keys.
    - A property that may be [undefined] or [null] is an [option]; optional
      chaining [a?.b] is a [match] on it.  Where the code tells the two
      apart, as [<] does, they are kept apart.
    - An [async] function returns a promise, embedded by the way it settles
      ([Js.Settled]); a thrown [Error] is kept as its message.
    - A database row is a finite map from column names to cells, and the
      storage bucket is the list of the paths of its files.
    - The external providers (HTTP APIs, Stripe, Firebase) are functions
      collected in an environment record, one per provider call. *)

From Stdlib Require Import String List ZArith Bool Lia DecimalString.
From stdpp Require Import base strings gmap.
Import ListNotations.
Open Scope string_scope.
Open Scope list_scope.

(** ** JavaScript basics *)

Module Js.

(** How a call finishes: it returns a value or throws [new Error(message)]. *)
Inductive Completion (A : Type) : Type :=
| Normal (a : A)
| Throw (message : string).
Arguments Normal {A} a.
Arguments Throw {A} message.

(** A promise, seen through [Promise.allSettled]: fulfilled with a value or
    rejected with an [Error], of which the message is kept. *)
Inductive Settled (A : Type) : Type :=
| Fulfilled (value : A)
| Rejected (reason : string).
Arguments Fulfilled {A} value.
Arguments Rejected {A} reason.

(** The promise of an [async] function: a [return] fulfils it, a [throw]
    rejects it. *)
Definition async {A} (c : Completion A) : Settled A :=
  match c with
  | Normal a => Fulfilled a
  | Throw m => Rejected m
  end.

(** [p.then(f)] for a handler that does not throw. *)
Definition then_ {A B} (p : Settled A) (f : A -> B) : Settled B :=
  match p with
  | Fulfilled v => Fulfilled (f v)
  | Rejected e => Rejected e
  end.

(** [p.catch(h)] for a handler [error => ...] that reads [error.message]
    and does not throw. *)
Definition catch_ {A} (p : Settled A) (h : string -> A) : Settled A :=
  match p with
  | Fulfilled v => Fulfilled v
  | Rejected e => Fulfilled (h e)
  end.

(** Truthiness of a string-valued property: [undefined], [null] and the
    empty string are falsy. *)
Definition truthy (s : option string) : bool :=
  match s with
  | Some s => negb (String.eqb s "")
  | None => false
  end.

(** [a || b] on string-valued properties. *)
Definition or_else (a : option string) (b : string) : string :=
  match a with
  | Some s => if String.eqb s "" then b else s
  | None => b
  end.

(** [try { body } catch (error) { throw new Error(prefix + error.message) }] *)
Definition rethrow_as {A} (prefix : string) (c : Completion A)
  : Completion A :=
  match c with
  | Normal a => Normal a
  | Throw m => Throw (prefix +:+ m)
  end.

End Js.
Export Js.

(** ** Objects used as maps *)

Module Obj.

Definition t (V : Type) : Type := list (string * V).

Definition empty {V} : t V := [].

(** [o[k]] *)
Fixpoint get {V} (k : string) (o : t V) : option V :=
  match o with
  | [] => None
  | (k', v) :: rest => if String.eqb k' k then Some v else get k rest
  end.

(** [o[k] = v]: an existing key keeps its place, a new key goes last. *)
Fixpoint set {V} (k : string) (v : V) (o : t V) : t V :=
  match o with
  | [] => [(k, v)]
  | (k', v') :: rest =>
      if String.eqb k' k then (k', v) :: rest else (k', v') :: set k v rest
  end.

Definition keys {V} (o : t V) : list string := map fst o.
Definition values {V} (o : t V) : list V := map snd o.
Definition entries {V} (o : t V) : list (string * V) := o.

End Obj.

(** ** Statuses and step outcomes *)

Inductive Status : Type := Pending | Completed | Partial | Failed.

Definition status_name (s : Status) : string :=
  match s with
  | Pending => "pending"
  | Completed => "completed"
  | Partial => "partial"
  | Failed => "failed"
  end.

Definition is_completed (s : Status) : bool :=
  match s with Completed => true | _ => false end.

Definition is_failed (s : Status) : bool :=
  match s with Failed => true | _ => false end.

(** [{ status, result, error, completedAt }]; the sub-workflows leave
    [completedAt] out. *)
Record Outcome (R : Type) : Type := mkOutcome {
  status : Status;
  result : option R;
  error : option string;
  completedAt : option nat
}.
Arguments mkOutcome {R} _ _ _ _.
Arguments status {R} _.
Arguments result {R} _.
Arguments error {R} _.
Arguments completedAt {R} _.

(** The block "Determine overall status", which the three workflows share
    word for word:
    [completed = Object.values(steps).filter(s => s.status === 'completed').length],
    [total = Object.keys(steps).length]. *)
Definition completedCount {R} (steps : Obj.t (Outcome R)) : nat :=
  length (List.filter (fun step => is_completed (status step))
                      (Obj.values steps)).

Definition totalCount {R} (steps : Obj.t (Outcome R)) : nat :=
  length (Obj.keys steps).

Definition deriveOverallStatus {R} (steps : Obj.t (Outcome R)) : Status :=
  let completedSteps := completedCount steps in
  let totalSteps := totalCount steps in
  if Nat.eqb completedSteps totalSteps then Completed
  else if Nat.ltb 0 completedSteps then Partial
  else Failed.

(** ** Fan-out: tagged promises and the processing of settled results *)

(** The value a wrapped step promise is fulfilled with: [{ type, result }]
    from [.then], [{ type, error }] from [.catch]. *)
Record Tagged (R : Type) : Type := mkTagged {
  type : string;
  tagged_result : option R;
  tagged_error : option string
}.
Arguments mkTagged {R} _ _ _.
Arguments type {R} _.
Arguments tagged_result {R} _.
Arguments tagged_error {R} _.

(** [promise.then(result => ({ type, result }))
           .catch(error => ({ type, error: error.message }))] *)
Definition wrap {R} (ty : string) (p : Settled R) : Settled (Tagged R) :=
  catch_ (then_ p (fun r => mkTagged ty (Some r) None))
         (fun message => mkTagged ty None (Some message)).

(** The body of [results.forEach((settled, index) => ...)]: a fulfilled
    entry is stored under its own tag, a rejected entry under the name found
    at its position in [types]. *)
Definition recordSettled {R} (types : list string)
    (acc : Obj.t (Outcome R)) (index : nat) (settled : Settled (Tagged R))
  : Obj.t (Outcome R) :=
  match settled with
  | Fulfilled v =>
      if truthy (tagged_error v)
      then Obj.set (type v) (mkOutcome Failed None (tagged_error v) None) acc
      else Obj.set (type v) (mkOutcome Completed (tagged_result v) None None) acc
  | Rejected reason =>
      (* [types[index]] is [undefined] past the end, and the key is then the
         string "undefined" *)
      let ty := nth index types "undefined" in
      Obj.set ty (mkOutcome Failed None (Some (or_else (Some reason) "Unknown error")) None) acc
  end.

Fixpoint processFrom {R} (types : list string) (index : nat)
    (settled : list (Settled (Tagged R))) (acc : Obj.t (Outcome R))
  : Obj.t (Outcome R) :=
  match settled with
  | [] => acc
  | s :: rest => processFrom types (S index) rest (recordSettled types acc index s)
  end.

Definition processResults {R} (types : list string)
    (settled : list (Settled (Tagged R))) : Obj.t (Outcome R) :=
  processFrom types 0 settled Obj.empty.


(** ** The world: clock, database tables and the log of adapter calls *)

Inductive Cell : Type :=
| Null
| Text (s : string)
| Timestamp (t : nat)
| Serial (n : nat).

(** A row maps column names to cells. *)
Abbreviation Row := (gmap string Cell).

(** One row of the result of [SELECT u.*, dp.*, v.*, bc.* ...] of
    [getDriverData], as the client hands it over: an object with one
    property per column name.  Where several of the four tables have a
    column of the same name the object keeps the last one, so [row.id] is
    [background_checks.id], [NULL] when no background check is joined, and
    not [users.id]; the latter, which the [WHERE] clause tests, is kept
    here as [users_id].  Likewise [row.date_of_birth] is that of
    [background_checks].  A column that none of the tables has reads as
    [undefined]. *)
Record JoinedRow : Type := mkJoinedRow {
  users_id : string;                 (* [u.id] *)
  row_id : option string;            (* [row.id] *)
  row_email : option string;
  first_name : option string;
  last_name : option string;
  date_of_birth : option string;
  row_ssn : option string;
  driver_license_number : option string;
  row_state : option string;
  row_vin : option string;
  row_make : option string;
  row_model : option string;
  business_name : option string;
  business_type : option string;
  row_ein : option string;
  insurance_policy_number : option string;
  insurance_company : option string;
  subscription_plan : option string;
  stripe_customer_id : option string
}.

Record World : Type := mkWorld {
  clock : nat;                       (* what [new Date()] reads *)
  next_id : nat;                     (* the next generated row id *)
  db_fault : option string;          (* [Some m]: every query fails with [m] *)
  joined_rows : list JoinedRow;      (* the join read by [getDriverData] *)
  driver_profiles : list Row;
  onboarding_records : list Row;
  trace : list string;               (* step adapters entered so far *)
  bucket : list string               (* paths of the files in the storage bucket *)
}.

(** Computations that read and change the world and may throw. *)
Definition M (A : Type) : Type := World -> Completion A * World.

Definition ret {A} (a : A) : M A := fun w => (Normal a, w).

Definition throw {A} (message : string) : M A := fun w => (Throw message, w).

Definition bind {A B} (m : M A) (k : A -> M B) : M B :=
  fun w =>
    match m w with
    | (Normal a, w') => k a w'
    | (Throw e, w') => (Throw e, w')
    end.

Notation "'do' x <- m ; k" := (bind m (fun x => k))
  (at level 10, x name, m at level 100, k at level 200).
Notation "'do_' m ; k" := (bind m (fun _ => k))
  (at level 10, m at level 100, k at level 200).

(** [try { m } catch (error) { h(error.message) }] *)
Definition try_catch {A} (m : M A) (h : string -> M A) : M A :=
  fun w =>
    match m w with
    | (Normal a, w') => (Normal a, w')
    | (Throw e, w') => h e w'
    end.

(** [await p] *)
Definition await {A} (p : Settled A) : M A :=
  match p with
  | Fulfilled v => ret v
  | Rejected e => throw e
  end.

Definition lift {A} (c : Completion A) : M A :=
  match c with
  | Normal a => ret a
  | Throw e => throw e
  end.

(** [new Date().toISOString()]: reads the clock, and time moves on. *)
Definition now : M nat :=
  fun w => (Normal (clock w),
            mkWorld (S (clock w)) (next_id w) (db_fault w) (joined_rows w)
                    (driver_profiles w) (onboarding_records w) (trace w)
                    (bucket w)).

(** Records that the step adapter [name] has been entered. *)
Definition enter (name : string) : M unit :=
  fun w => (Normal tt,
            mkWorld (clock w) (next_id w) (db_fault w) (joined_rows w)
                    (driver_profiles w) (onboarding_records w)
                    (trace w ++ [name]) (bucket w)).

(** A file has been written to the bucket at [path]. *)
Definition put_file (path : string) : M unit :=
  fun w => (Normal tt,
            mkWorld (clock w) (next_id w) (db_fault w) (joined_rows w)
                    (driver_profiles w) (onboarding_records w)
                    (trace w) (bucket w ++ [path])).

(** ** The subject *)

Record PersonalInfo : Type := mkPersonalInfo {
  firstName : option string;
  lastName : option string;
  dateOfBirth : option string;
  ssn : option string
}.

Record DriverInfo : Type := mkDriverInfo {
  driverLicenseNumber : option string;
  licenseState : option string
}.

Record EmploymentInfo : Type := mkEmploymentInfo {
  employerName : option string
}.

Record VehicleInfo : Type := mkVehicleInfo {
  vin : option string;
  make : option string;
  model : option string
}.

Record BusinessInfo : Type := mkBusinessInfo {
  businessName : option string;
  businessType : option string;
  ein : option string
}.

Record InsuranceInfo : Type := mkInsuranceInfo {
  policyNumber : option string;
  insuranceCompany : option string
}.

Record File : Type := mkFile {
  originalname : string;
  mimetype : string
}.

Record DriverData : Type := mkDriverData {
  id : option string;                (* [None]: [null] *)
  email : option string;
  personalInfo : option PersonalInfo;
  driverInfo : option DriverInfo;
  employmentInfo : option EmploymentInfo;
  vehicleInfo : option VehicleInfo;
  businessInfo : option BusinessInfo;
  insuranceInfo : option InsuranceInfo;
  subscriptionPlan : option string;
  stripeCustomerId : option string;
  profilePhoto : option File;
  driverLicense : option File;
  insuranceCertificate : option File;
  additionalDocuments : option (list File)
}.

(** ** Strings of digits *)

(** [\d]: one of the characters [0] to [9]. *)
Definition isDigit (c : Ascii.ascii) : bool :=
  let n := Ascii.nat_of_ascii c in
  Nat.leb 48 n && Nat.leb n 57.

(** [s.replace(/\D/g, '')]: the digits of [s], in order. *)
Fixpoint digitsOf (s : string) : string :=
  match s with
  | EmptyString => EmptyString
  | String c rest =>
      if isDigit c then String c (digitsOf rest) else digitsOf rest
  end.

(** [s.slice(-4)]: the last four characters, or all of [s] when it is
    shorter. *)
Definition lastFour (s : string) : string :=
  String.substring (String.length s - 4) 4 s.

(** [names.join(', ')] *)
Definition joinNames (names : list string) : string :=
  String.concat ", " names.

(** A number inside a template literal: its decimal digits. *)
Definition decimal (n : nat) : string :=
  NilZero.string_of_uint (Nat.to_uint n).

(** A string-valued property inside a template literal; [null] is
    printed as its name. *)
Definition template (o : option string) : string :=
  match o with
  | Some s => s
  | None => "null"
  end.

(** ** The background-check service *)

Module BackgroundCheckService.

(** What the providers answer ([response.data]), reduced to the fields the
    adapters read for the summaries. *)
Record CriminalData : Type := mkCriminalData {
  criminal_checkId : option string;
  criminal_results : option (list string)     (* the [type] of each record *)
}.

Record DrivingData : Type := mkDrivingData {
  driving_checkId : option string;
  driving_violations : option (list string)   (* [results?.violations] *)
}.

Record EmploymentData : Type := mkEmploymentData {
  employment_checkId : option string;
  employment_verified : option bool           (* [results?.verified] *)
}.

Record CreditData : Type := mkCreditData {
  credit_checkId : option string
}.

(** The body of each adapter's [try] from the API-key test to the
    provider's answer: the key test, the request built from the argument
    and the HTTP call. *)
Record Apis : Type := mkApis {
  criminal_api : PersonalInfo -> Completion CriminalData;
  driving_api : DriverInfo -> Completion DrivingData;
  employment_api : EmploymentInfo -> Completion EmploymentData;
  credit_api : PersonalInfo -> Completion CreditData;
  enable_credit_check : bool    (* [process.env.ENABLE_CREDIT_CHECK === 'true'] *)
}.

(** [const { firstName, ... } = argument], the first statement of each
    adapter's [try]: it throws a [TypeError] when the argument is
    [undefined]. *)
Definition destructure {A} (name : string) (argument : option A)
  : Completion A :=
  match argument with
  | Some a => Normal a
  | None =>
      Throw ("Cannot destructure property 'firstName' of '" +:+ name
             +:+ "' as it is undefined.")
  end.

(** [result.summary] of a check; each adapter fills its own fields and the
    others are [undefined]. *)
Record CheckSummary : Type := mkCheckSummary {
  hasCriminalHistory : option bool;
  totalViolations : option Z;
  verified : option bool
}.

Record CheckResult : Type := mkCheckResult {
  checkId : option string;
  summary : option CheckSummary
}.

Definition performCriminalBackgroundCheck (apis : Apis)
    (personalInfo : option PersonalInfo) : Settled CheckResult :=
  async (rethrow_as "Criminal background check failed: "
    match destructure "personalInfo" personalInfo with
    | Throw m => Throw m
    | Normal info =>
    match criminal_api apis info with
    | Normal data =>
        Normal (mkCheckResult (criminal_checkId data)
          (Some (mkCheckSummary
            (Some match criminal_results data with
                  | Some records => existsb (String.eqb "conviction") records
                  | None => false
                  end)
            None None)))
    | Throw m => Throw m
    end
    end).

Definition performDrivingRecordCheck (apis : Apis)
    (driverInfo : option DriverInfo) : Settled CheckResult :=
  async (rethrow_as "Driving record check failed: "
    match destructure "driverInfo" driverInfo with
    | Throw m => Throw m
    | Normal info =>
    match driving_api apis info with
    | Normal data =>
        Normal (mkCheckResult (driving_checkId data)
          (Some (mkCheckSummary None
            (Some match driving_violations data with
                  | Some violations => Z.of_nat (length violations)
                  | None => 0%Z
                  end)
            None)))
    | Throw m => Throw m
    end
    end).

Definition performEmploymentVerification (apis : Apis)
    (employmentInfo : option EmploymentInfo) : Settled CheckResult :=
  async (rethrow_as "Employment verification failed: "
    match destructure "employmentInfo" employmentInfo with
    | Throw m => Throw m
    | Normal info =>
    match employment_api apis info with
    | Normal data =>
        Normal (mkCheckResult (employment_checkId data)
          (Some (mkCheckSummary None None
            (Some match employment_verified data with
                  | Some b => b
                  | None => false
                  end))))
    | Throw m => Throw m
    end
    end).

Definition performCreditCheck (apis : Apis)
    (personalInfo : option PersonalInfo) : Settled CheckResult :=
  async (rethrow_as "Credit check failed: "
    match destructure "personalInfo" personalInfo with
    | Throw m => Throw m
    | Normal info =>
    match credit_api apis info with
    | Normal data =>
        Normal (mkCheckResult (credit_checkId data)
          (Some (mkCheckSummary None None None)))
    | Throw m => Throw m
    end
    end).

Inductive RiskLevel : Type := Low | Medium | High.

Record Summary : Type := mkSummary {
  totalChecks : nat;
  completedChecks : nat;
  failedChecks : nat;
  riskLevel : RiskLevel;
  flags : list string;
  recommendations : list string
}.

(** [check.result?.summary] *)
Definition summary_of (check : Outcome CheckResult) : option CheckSummary :=
  match result check with
  | Some r => summary r
  | None => None
  end.

(** [check.result?.summary?.hasCriminalHistory], as a condition *)
Definition reportsCriminalHistory (check : Outcome CheckResult) : bool :=
  match summary_of check with
  | Some s => match hasCriminalHistory s with Some b => b | None => false end
  | None => false
  end.

(** [check.result?.summary?.totalViolations > 3]; [undefined > 3] is false *)
Definition manyViolations (check : Outcome CheckResult) : bool :=
  match summary_of check with
  | Some s => match totalViolations s with Some n => Z.ltb 3 n | None => false end
  | None => false
  end.

(** [!check.result?.summary?.verified] *)
Definition notVerified (check : Outcome CheckResult) : bool :=
  match summary_of check with
  | Some s => match verified s with Some b => negb b | None => true end
  | None => true
  end.

Definition flag (f : string) (level : RiskLevel) (s : Summary) : Summary :=
  mkSummary (totalChecks s) (completedChecks s) (failedChecks s)
            level (flags s ++ [f]) (recommendations s).

(** The body of [Object.entries(checks).forEach(([type, check]) => ...)]. *)
Definition analyse (s : Summary) (entry : string * Outcome CheckResult)
  : Summary :=
  let (ty, check) := entry in
  if is_completed (status check) then
    let s1 := mkSummary (totalChecks s) (S (completedChecks s)) (failedChecks s)
                        (riskLevel s) (flags s) (recommendations s) in
    let s2 := if String.eqb ty "criminal" && reportsCriminalHistory check
              then flag "Criminal history detected" High s1 else s1 in
    let s3 := if String.eqb ty "driving" && manyViolations check
              then flag "Multiple driving violations" Medium s2 else s2 in
    if String.eqb ty "employment" && notVerified check
    then flag "Employment verification failed" Medium s3 else s3
  else
    mkSummary (totalChecks s) (completedChecks s) (S (failedChecks s))
              (riskLevel s) (flags s) (recommendations s).

Definition recommend (s : Summary) : Summary :=
  mkSummary (totalChecks s) (completedChecks s) (failedChecks s)
            (riskLevel s) (flags s)
            (recommendations s ++
             match riskLevel s with
             | High => ["Manual review required";
                        "Additional documentation may be needed"]
             | Medium => ["Review specific flagged items";
                          "Consider additional verification"]
             | Low => ["Standard onboarding process"]
             end).

Definition generateSummary (checks : Obj.t (Outcome CheckResult)) : Summary :=
  recommend
    (fold_left analyse (Obj.entries checks)
       (mkSummary (length (Obj.keys checks)) 0 0 Low [] [])).

Record Run : Type := mkRun {
  driverId : option string;
  startedAt : nat;
  checks : Obj.t (Outcome CheckResult);
  overallStatus : Status;
  run_summary : Summary;
  run_completedAt : nat
}.

Definition checkTypes : list string :=
  ["criminal"; "driving"; "employment"; "credit"].

(** The promises handed to [Promise.allSettled]. *)
Definition checkPromises (apis : Apis) (driverData : DriverData)
  : list (Settled (Tagged CheckResult)) :=
  [ wrap "criminal"
      (performCriminalBackgroundCheck apis (personalInfo driverData));
    wrap "driving"
      (performDrivingRecordCheck apis (driverInfo driverData));
    wrap "employment"
      (performEmploymentVerification apis (employmentInfo driverData)) ]
  ++ (if enable_credit_check apis
      then [wrap "credit"
              (performCreditCheck apis (personalInfo driverData))]
      else []).

(** [performComprehensiveBackgroundCheck(driverData)]; its outer [catch]
    logs the error and throws it again. *)
Definition performComprehensiveBackgroundCheck (apis : Apis)
    (driverData : DriverData) : M Run :=
  do_ enter "backgroundCheck";
  do started <- now;
  let checkResults := checkPromises apis driverData in
  let checks := processResults checkTypes checkResults in
  let overall := deriveOverallStatus checks in
  do completed <- now;
  ret (mkRun (id driverData) started checks overall
             (generateSummary checks) completed).

(** [maskSSN(ssn)]: [null] for a missing or empty number; a number with
    nine digits keeps its last four; any other text is returned as it is. *)
Definition maskSSN (ssn : option string) : option string :=
  match ssn with
  | None => None
  | Some s =>
      if String.eqb s "" then None
      else
        let cleaned := digitsOf s in
        if Nat.eqb (String.length cleaned) 9
        then Some ("***-**-" +:+ lastFour cleaned)
        else Some s
  end.

(** Reads [n] digits from the front of [s] and returns the rest. *)
Fixpoint digitsThen (n : nat) (s : string) : option string :=
  match n with
  | O => Some s
  | S n' =>
      match s with
      | String c rest => if isDigit c then digitsThen n' rest else None
      | EmptyString => None
      end
  end.

(** [-?]; the dash is character 45. *)
Definition dashThen (s : string) : string :=
  match s with
  | String c rest => if Ascii.eqb c (Ascii.ascii_of_nat 45) then rest else s
  | EmptyString => s
  end.

(** [/^\d{3}-?\d{2}-?\d{4}$/.test(s)] *)
Definition ssnRegexTest (s : string) : bool :=
  match digitsThen 3 s with
  | Some s1 =>
      match digitsThen 2 (dashThen s1) with
      | Some s2 =>
          match digitsThen 4 (dashThen s2) with
          | Some EmptyString => true
          | _ => false
          end
      | None => false
      end
  | None => false
  end.

(** The names in [required] whose field is falsy. *)
Definition missingFields (fields : list (string * option string))
  : list string :=
  map fst (List.filter (fun f => negb (truthy (snd f))) fields).

(** Eighteen years of 365.25 days, in milliseconds.  The source divides
    the age by [1000 * 60 * 60 * 24 * 365.25 = 31557600000] and compares
    the quotient with 18; on whole milliseconds this is the comparison of
    the age with [18 * 31557600000]. *)
Definition eighteenYears : Z := 568036800000.

(** [validatePersonalInfo(personalInfo)].  [parse] is
    [new Date(text).getTime()], with [None] for [NaN], and [today] is
    [Date.now()].  Past the test of the required fields, [ssn] and
    [dateOfBirth] are non-empty strings. *)
Definition validatePersonalInfo (parse : string -> option Z) (today : Z)
    (info : PersonalInfo) : Completion bool :=
  match missingFields [("firstName", firstName info);
                       ("lastName", lastName info);
                       ("dateOfBirth", dateOfBirth info);
                       ("ssn", ssn info)] with
  | (_ :: _) as missing =>
      Throw ("Missing required fields: " +:+ joinNames missing)
  | [] =>
      if negb (ssnRegexTest (or_else (ssn info) ""))
      then Throw "Invalid SSN format"
      else
        match parse (or_else (dateOfBirth info) "") with
        | None => Throw "Invalid date of birth"
        | Some born =>
            if Z.ltb (today - born) eighteenYears
            then Throw "Driver must be at least 18 years old"
            else Normal true
        end
  end.

End BackgroundCheckService.

(** ** The insurance-verification service *)

Module InsuranceVerificationService.

Record PolicyDetails : Type := mkPolicyDetails {
  policyStatus : option string                 (* [policyDetails.status] *)
}.

(** [coverage.liability] in the provider's answer: the property is
    missing, or it is [null], or it is a number, or it is a value of
    another type (a string, a boolean, an object), which is given with the
    number [<] converts it to, [None] for [NaN]. *)
Inductive Liability : Type :=
| NoLiability
| NullLiability
| Amount (amount : Z)
| Converted (number : option Z).

Record Coverage : Type := mkCoverage {
  liability : Liability
}.

(** The result of a verification, reduced to the fields the summary reads. *)
Record VerificationResult : Type := mkVerificationResult {
  verificationId : option string;
  policyDetails : option PolicyDetails;
  coverage : option Coverage
}.

(** The body of each adapter's [try]: the choice of the API, the API-key
    test, the HTTP call and the copy of the answer. *)
Record Apis : Type := mkApis {
  policy_api :
    InsuranceInfo -> option PersonalInfo -> Completion VerificationResult;
  driver_api :
    PersonalInfo -> DriverInfo -> option VehicleInfo ->
    Completion VerificationResult;
  vehicle_api : VehicleInfo -> Completion VerificationResult;
  commercial_api :
    BusinessInfo -> option PersonalInfo -> option VehicleInfo ->
    Completion VerificationResult
}.

Definition verifyPolicyByNumber (apis : Apis) (info : InsuranceInfo)
    (driver : option PersonalInfo) : Settled VerificationResult :=
  async (rethrow_as "Insurance verification failed: "
           (policy_api apis info driver)).

Definition verifyInsuranceByDriver (apis : Apis) (p : PersonalInfo)
    (d : DriverInfo) (v : option VehicleInfo) : Settled VerificationResult :=
  async (rethrow_as "Insurance verification failed: "
           (driver_api apis p d v)).

Definition verifyVehicleInsurance (apis : Apis) (v : VehicleInfo)
  : Settled VerificationResult :=
  async (rethrow_as "Vehicle insurance verification failed: "
           (vehicle_api apis v)).

Definition verifyCommercialInsurance (apis : Apis) (b : BusinessInfo)
    (driver : option PersonalInfo) (v : option VehicleInfo)
  : Settled VerificationResult :=
  async (rethrow_as "Commercial insurance verification failed: "
           (commercial_api apis b driver v)).

(** The three guards of the fan-out. *)
Definition hasPolicyNumber (driverData : DriverData) : bool :=
  match insuranceInfo driverData with        (* [insuranceInfo?.policyNumber] *)
  | Some info => truthy (policyNumber info)
  | None => false
  end.

Definition hasVin (driverData : DriverData) : bool :=
  match vehicleInfo driverData with          (* [vehicleInfo?.vin] *)
  | Some v => truthy (vin v)
  | None => false
  end.

Definition hasBusinessName (driverData : DriverData) : bool :=
  match businessInfo driverData with         (* [businessInfo?.businessName] *)
  | Some b => truthy (businessName b)
  | None => false
  end.

(** The array [verificationPromises] as it stands when it is handed to
    [Promise.allSettled].  Building the argument of the driver search reads
    [driverData.personalInfo.firstName] and
    [driverData.driverInfo.driverLicenseNumber], which throws a [TypeError]
    when the object is missing. *)
Definition verificationPromises (apis : Apis) (driverData : DriverData)
  : Completion (list (Settled (Tagged VerificationResult))) :=
  let policyPart :=
    match insuranceInfo driverData with
    | Some info =>
        if truthy (policyNumber info)
        then [wrap "policy"
                (verifyPolicyByNumber apis info (personalInfo driverData))]
        else []
    | None => []
    end in
  match personalInfo driverData with
  | None => Throw "Cannot read properties of undefined (reading 'firstName')"
  | Some p =>
    match driverInfo driverData with
    | None =>
        Throw "Cannot read properties of undefined (reading 'driverLicenseNumber')"
    | Some d =>
        let driverPart :=
          [wrap "driver"
             (verifyInsuranceByDriver apis p d (vehicleInfo driverData))] in
        let vehiclePart :=
          match vehicleInfo driverData with
          | Some v =>
              if truthy (vin v)
              then [wrap "vehicle" (verifyVehicleInsurance apis v)]
              else []
          | None => []
          end in
        let commercialPart :=
          match businessInfo driverData with
          | Some b =>
              if truthy (businessName b)
              then [wrap "commercial"
                      (verifyCommercialInsurance apis b
                         (personalInfo driverData) (vehicleInfo driverData))]
              else []
          | None => []
          end in
        Normal (policyPart ++ driverPart ++ vehiclePart ++ commercialPart)
    end
  end.

Inductive CoverageStatus : Type := Unknown | Adequate | Insufficient | Expired.

Record Summary : Type := mkSummary {
  totalVerifications : nat;
  completedVerifications : nat;
  failedVerifications : nat;
  coverageStatus : CoverageStatus;
  flags : list string;
  recommendations : list string
}.

(** The counters and the three local flags the [forEach] updates. *)
Record Scan : Type := mkScan {
  scan_completed : nat;
  scan_failed : nat;
  hasActiveInsurance : bool;
  hasExpiredInsurance : bool;
  hasInsufficientCoverage : bool
}.

(** [verification.result?.policyDetails?.status === s] *)
Definition policyStatusIs (s : string)
    (verification : Outcome VerificationResult) : bool :=
  match result verification with
  | Some r =>
      match policyDetails r with
      | Some details =>
          match policyStatus details with
          | Some s' => String.eqb s' s
          | None => false
          end
      | None => false
      end
  | None => false
  end.

(** [x < 50000] for [x] a liability or [undefined]: the operand is
    converted to a number.  [undefined] becomes [NaN], and the comparison
    is false; [null] becomes [0], and the comparison is true. *)
Definition toNumber (x : Liability) : option Z :=
  match x with
  | NoLiability => None
  | NullLiability => Some 0%Z
  | Amount amount => Some amount
  | Converted number => number
  end.

Definition lessThanFloor (x : Liability) : bool :=
  match toNumber x with
  | Some n => Z.ltb n 50000
  | None => false
  end.

(** [verification.result?.coverage?.liability < 50000] *)
Definition liabilityUnderFloor (verification : Outcome VerificationResult)
  : bool :=
  match result verification with
  | Some r =>
      match coverage r with
      | Some c => lessThanFloor (liability c)
      | None => lessThanFloor NoLiability
      end
  | None => lessThanFloor NoLiability
  end.

(** The body of
    [Object.entries(verifications).forEach(([type, verification]) => ...)]. *)
Definition inspect (s : Scan) (entry : string * Outcome VerificationResult)
  : Scan :=
  let (ty, verification) := entry in
  if is_completed (status verification) then
    mkScan (S (scan_completed s)) (scan_failed s)
      (if String.eqb ty "policy" && policyStatusIs "active" verification
       then true else hasActiveInsurance s)
      (if String.eqb ty "policy" && policyStatusIs "expired" verification
       then true else hasExpiredInsurance s)
      (if String.eqb ty "policy" && liabilityUnderFloor verification
       then true else hasInsufficientCoverage s)
  else
    mkScan (scan_completed s) (S (scan_failed s))
      (hasActiveInsurance s) (hasExpiredInsurance s)
      (hasInsufficientCoverage s).

Definition scan (verifications : Obj.t (Outcome VerificationResult)) : Scan :=
  fold_left inspect (Obj.entries verifications)
            (mkScan 0 0 false false false).

Definition classify (s : Scan) : CoverageStatus * list string :=
  if hasActiveInsurance s && negb (hasExpiredInsurance s)
     && negb (hasInsufficientCoverage s)
  then (Adequate, [])
  else if hasActiveInsurance s && hasInsufficientCoverage s
  then (Insufficient, ["Insufficient liability coverage"])
  else if hasExpiredInsurance s
  then (Expired, ["Insurance policy expired"])
  else (Unknown, ["Unable to verify insurance status"]).

Definition recommendationsFor (c : CoverageStatus) : list string :=
  match c with
  | Adequate => ["Insurance verification passed"; "Standard onboarding process"]
  | Insufficient => ["Increase liability coverage"; "Contact insurance provider"]
  | Expired => ["Renew insurance policy"; "Provide updated certificate"]
  | Unknown => ["Manual verification required";
                "Provide additional documentation"]
  end.

Definition generateVerificationSummary
    (verifications : Obj.t (Outcome VerificationResult)) : Summary :=
  let s := scan verifications in
  let (coverageStatus, flags) := classify s in
  mkSummary (length (Obj.keys verifications))
            (scan_completed s) (scan_failed s)
            coverageStatus flags (recommendationsFor coverageStatus).

Record Run : Type := mkRun {
  driverId : option string;
  startedAt : nat;
  verifications : Obj.t (Outcome VerificationResult);
  overallStatus : Status;
  run_summary : Summary;
  run_completedAt : nat
}.

Definition verificationTypes : list string :=
  ["policy"; "driver"; "vehicle"; "commercial"].

(** [performComprehensiveInsuranceVerification(driverData)]; its outer
    [catch] logs the error and throws it again. *)
Definition performComprehensiveInsuranceVerification (apis : Apis)
    (driverData : DriverData) : M Run :=
  do_ enter "insuranceVerification";
  do started <- now;
  do verificationResults <- lift (verificationPromises apis driverData);
  let verifications := processResults verificationTypes verificationResults in
  let overall := deriveOverallStatus verifications in
  do completed <- now;
  ret (mkRun (id driverData) started verifications overall
             (generateVerificationSummary verifications) completed).

(** [maskEIN(ein)]: [null] for a missing or empty number; a number with
    nine digits keeps its last four; any other text is returned as it is. *)
Definition maskEIN (ein : option string) : option string :=
  match ein with
  | None => None
  | Some s =>
      if String.eqb s "" then None
      else
        let cleaned := digitsOf s in
        if Nat.eqb (String.length cleaned) 9
        then Some ("**-****" +:+ lastFour cleaned)
        else Some s
  end.

End InsuranceVerificationService.

(** ** The integration service *)

Module IntegrationService.

(** *** Collaborators *)

Record PaymentIntent : Type := mkPaymentIntent {
  intentId : string;
  intentStatus : string
}.

(** [PaymentService]: each call returns or throws.  The fee
    [ONBOARDING_FEES[plan] * 100] is a floating-point product fixed by the
    plan, so the payment-intent call is given the plan. *)
Record Stripe : Type := mkStripe {
  getCustomer : option string -> Completion string;
  createCustomer : DriverData -> Completion string;
  createOnboardingPaymentIntent : string -> string -> Completion PaymentIntent
}.

(** Firebase, as [integration-service.js] and [firebase.js] see it: the
    flag [this.firebaseInitialized], whether [storage] of [firebase.js] is
    set, the two calls made on a file of the bucket, each of which returns
    or throws, and the name of the bucket. *)
Record Firebase : Type := mkFirebase {
  firebaseInitialized : bool;
  storage : bool;
  save : File -> string -> Completion unit;   (* [file.save(buffer, ...)] *)
  makePublic : string -> Completion unit;     (* [file.makePublic()] *)
  bucket_name : string
}.

(** What [uploadFile] returns, without the size. *)
Record StoredFile : Type := mkStoredFile {
  fileName : string;
  filePath : string;
  publicUrl : string;
  contentType : string
}.

(** The declarations of the tables [driver_profiles] (as migrated) and
    [onboarding_records] are not part of the sources, so they are
    parameters: the columns each table has and the defaults a new
    [onboarding_records] row gets at a given time with a given serial. *)
Record Schema : Type := mkSchema {
  profile_columns : list string;
  record_columns : list string;
  record_defaults : nat -> nat -> Row
}.

Record PaymentResult : Type := mkPaymentResult {
  customerId : string;
  paymentIntentId : string;
  paymentStatus : string;
  plan : string
}.

Record DocumentResult : Type := mkDocumentResult {
  totalDocuments : nat;
  documents : list (string * StoredFile)    (* [{ type, result }] *)
}.

Record DatabaseResult : Type := mkDatabaseResult {
  onboardingRecordId : option Cell;
  updated : bool
}.

(** What a step stores under [result]. *)
Inductive StepResult : Type :=
| BackgroundCheck (r : BackgroundCheckService.Run)
| InsuranceVerification (r : InsuranceVerificationService.Run)
| Payment (r : PaymentResult)
| DocumentStorage (r : DocumentResult)
| DatabaseUpdate (r : DatabaseResult).

Record Summary : Type := mkSummary {
  totalSteps : nat;
  completedSteps : nat;
  failedSteps : nat;
  pendingSteps : nat;
  riskLevel : BackgroundCheckService.RiskLevel;
  flags : list string;
  estimatedCompletion : string
}.

(** [JSON.stringify] at the three places it is used. *)
Record Json : Type := mkJson {
  json_of_summary : option Summary -> string;
  json_of_recommendations : list string -> string;
  json_of_result : StepResult -> string
}.

Record Env : Type := mkEnv {
  backgroundCheckApis : BackgroundCheckService.Apis;
  insuranceApis : InsuranceVerificationService.Apis;
  stripe : Stripe;
  firebase : Firebase;
  schema : Schema;
  json : Json
}.

(** [onboardingResult]; [summary] starts as [{}] and [completedAt] is not
    set until the end. *)
Record OnboardingResult : Type := mkOnboardingResult {
  driverId : option string;
  startedAt : nat;
  steps : Obj.t (Outcome StepResult);
  overallStatus : Status;
  summary : option Summary;
  recommendations : list string;
  run_completedAt : option nat
}.

(** *** Database access *)

(** An unquoted SQL identifier is folded to lower case. *)
Definition fold_char (c : Ascii.ascii) : Ascii.ascii :=
  let n := Ascii.nat_of_ascii c in
  if Nat.leb 65 n && Nat.leb n 90 then Ascii.ascii_of_nat (n + 32) else c.

Fixpoint sql_ident (s : string) : string :=
  match s with
  | EmptyString => EmptyString
  | String c rest => String (fold_char c) (sql_ident rest)
  end.

Definition has_column (columns : list string) (c : string) : bool :=
  existsb (String.eqb c) columns.

(** A statement fails when the connection does, or when it names a column
    its table does not have. *)
Definition statement (table : string) (columns used : list string) : M unit :=
  fun w =>
    match db_fault w with
    | Some m => (Throw m, w)
    | None =>
        match List.filter (fun c => negb (has_column columns c)) used with
        | [] => (Normal tt, w)
        | c :: _ =>
            (Throw ("column " +:+ c +:+ " of relation " +:+ table
                    +:+ " does not exist"), w)
        end
    end.

Definition set_tables (profiles records : list Row) (serial : nat) : M unit :=
  fun w => (Normal tt,
            mkWorld (clock w) serial (db_fault w) (joined_rows w)
                    profiles records (trace w) (bucket w)).

Definition get_world : M World := fun w => (Normal w, w).

(** [transaction(callback)]: [BEGIN], the callback, [COMMIT]; when the
    callback throws, [ROLLBACK] restores the tables and the error is thrown
    again. *)
Definition transaction {A} (callback : M A) : M A :=
  fun w =>
    match db_fault w with
    | Some m => (Throw m, w)
    | None =>
        match callback w with
        | (Normal a, w') => (Normal a, w')
        | (Throw e, w') =>
            (Throw e,
             mkWorld (clock w') (next_id w') (db_fault w') (joined_rows w')
                     (driver_profiles w) (onboarding_records w) (trace w')
                     (bucket w'))
        end
    end.

(** [WHERE column = value] *)
Definition matches (column value : string) (row : Row) : bool :=
  match row !! column with
  | Some (Text s) => String.eqb s value
  | _ => false
  end.

(** [UPDATE ... SET c1 = v1, ... WHERE column = value] on the rows of a
    table. *)
Definition update_where (column value : string)
    (assignments : list (string * Cell)) (rows : list Row) : list Row :=
  map (fun row =>
         if matches column value row
         then fold_left (fun r a => <[fst a := snd a]> r) assignments row
         else row)
      rows.

Definition time_cell (t : option nat) : Cell :=
  match t with
  | Some t => Timestamp t
  | None => Null                 (* [undefined] is sent as [NULL] *)
  end.

(** A string-valued query parameter; [null] and [undefined] are sent as
    [NULL]. *)
Definition text_cell (s : option string) : Cell :=
  match s with
  | Some s => Text s
  | None => Null
  end.

(** [UPDATE ... WHERE column = $n] with a parameter that may be [NULL]:
    [column = NULL] holds for no row. *)
Definition update_where_param (column : string) (value : option string)
    (assignments : list (string * Cell)) (rows : list Row) : list Row :=
  match value with
  | Some v => update_where column v assignments rows
  | None => rows
  end.

(** [steps.name?.status || 'pending'] *)
Definition status_or_pending (name : string)
    (steps : Obj.t (Outcome StepResult)) : Cell :=
  match Obj.get name steps with
  | Some step => Text (status_name (status step))
  | None => Text "pending"
  end.

(** [updateOnboardingStatus(driverId, onboardingResult)] *)
Definition updateOnboardingStatus (env : Env) (driver : option string)
    (onboardingResult : OnboardingResult) : M DatabaseResult :=
  transaction
    (do_ statement "driver_profiles" (profile_columns (schema env))
           ["onboarding_status"; "onboarding_completed_at"; "updated_at";
            "user_id"];
     do w <- get_world;
     let profiles :=
       update_where_param "user_id" driver
         [("onboarding_status",
           Text (status_name (overallStatus onboardingResult)));
          ("onboarding_completed_at",
           time_cell (run_completedAt onboardingResult));
          ("updated_at", Timestamp (clock w))]
         (driver_profiles w) in
     do_ set_tables profiles (onboarding_records w) (next_id w);
     do_ statement "onboarding_records" (record_columns (schema env))
           ["driver_id"; "overall_status"; "background_check_status";
            "insurance_status"; "payment_status"; "document_status";
            "database_status"; "started_at"; "completed_at"; "summary_data";
            "recommendations"; "id"];
     let stored := steps onboardingResult in
     let record : Row :=
       <["driver_id" := text_cell driver]>
       (<["overall_status" :=
            Text (status_name (overallStatus onboardingResult))]>
       (<["background_check_status" :=
            status_or_pending "backgroundCheck" stored]>
       (<["insurance_status" :=
            status_or_pending "insuranceVerification" stored]>
       (<["payment_status" := status_or_pending "payment" stored]>
       (<["document_status" := status_or_pending "documentStorage" stored]>
       (<["database_status" := status_or_pending "databaseUpdate" stored]>
       (<["started_at" := Timestamp (startedAt onboardingResult)]>
       (<["completed_at" := time_cell (run_completedAt onboardingResult)]>
       (<["summary_data" :=
            Text (json_of_summary (json env) (summary onboardingResult))]>
       (<["recommendations" :=
            Text (json_of_recommendations (json env)
                    (recommendations onboardingResult))]>
       (record_defaults (schema env) (clock w) (next_id w)))))))))))) in
     do_ set_tables profiles (onboarding_records w ++ [record])
           (S (next_id w));
     ret (mkDatabaseResult (record !! "id") true)).

(** What [getOnboardingStatus] returns: the [not_started] object or the
    fields of the latest record. *)
Inductive StoredStatus : Type :=
| NotStarted (driver : string)
| Stored (record : Row).

(** [ORDER BY created_at DESC]: does [a] come before [b]?  [NULL] sorts
    first in descending order. *)
Definition before (a b : Row) : bool :=
  match a !! "created_at", b !! "created_at" with
  | Some (Timestamp ta), Some (Timestamp tb) => Nat.ltb tb ta
  | Some (Timestamp _), _ => false
  | _, Some (Timestamp _) => true
  | _, _ => false
  end.

(** [LIMIT 1] of the ordered rows. *)
Definition first_row (rows : list Row) : option Row :=
  fold_left (fun best row =>
               match best with
               | None => Some row
               | Some b => if before row b then Some row else Some b
               end)
            rows None.

Definition getOnboardingStatus (env : Env) (driver : string)
  : M StoredStatus :=
  do_ statement "onboarding_records" (record_columns (schema env))
        ["driver_id"; "created_at"];
  do w <- get_world;
  match first_row (List.filter (matches "driver_id" driver)
                          (onboarding_records w)) with
  | None => ret (NotStarted driver)
  | Some record => ret (Stored record)
  end.

(** [getDriverData(driverId)]: the first row of the join, turned into the
    subject.  Its [id] is [row.id].  Employment information and uploaded
    files are not part of what it builds. *)
Definition getDriverData (driver : string) : M DriverData :=
  do_ statement "users" [] [];
  do w <- get_world;
  match List.filter (fun row => String.eqb (users_id row) driver)
                    (joined_rows w) with
  | [] => throw "Driver not found"
  | row :: _ =>
      ret (mkDriverData (row_id row) (row_email row)
             (Some (mkPersonalInfo (first_name row) (last_name row)
                                   (date_of_birth row) (row_ssn row)))
             (Some (mkDriverInfo (driver_license_number row) (row_state row)))
             None
             (if truthy (row_vin row)
              then Some (mkVehicleInfo (row_vin row) (row_make row)
                                       (row_model row))
              else None)
             (if truthy (business_name row)
              then Some (mkBusinessInfo (business_name row)
                                        (business_type row) (row_ein row))
              else None)
             (if truthy (insurance_policy_number row)
              then Some (mkInsuranceInfo (insurance_policy_number row)
                                         (insurance_company row))
              else None)
             (Some (or_else (subscription_plan row) "BASIC"))
             (stripe_customer_id row)
             None None None None)
  end.

(** [updateOnboardingStepStatus(driverId, stepName, status, result)], for a
    step name that is an identifier. *)
Definition stepColumn (stepName : string) : string :=
  sql_ident (stepName +:+ "_status").

Definition resultColumn (stepName : string) : string :=
  sql_ident (stepName +:+ "_result").

Definition updateOnboardingStepStatus (env : Env) (driver stepName : string)
    (newStatus : string) (stepResult : option StepResult) : M unit :=
  do_ statement "onboarding_records" (record_columns (schema env))
        [stepColumn stepName; resultColumn stepName; "updated_at";
         "driver_id"];
  do w <- get_world;
  set_tables (driver_profiles w)
    (update_where "driver_id" driver
       [(stepColumn stepName, Text newStatus);
        (resultColumn stepName,
         match stepResult with
         | Some r => Text (json_of_result (json env) r)
         | None => Null
         end);
        ("updated_at", Timestamp (clock w))]
       (onboarding_records w))
    (next_id w).

(** *** The step adapters *)

(** [processOnboardingPayment(driverData)] *)
Definition processOnboardingPayment (env : Env) (driverData : DriverData)
  : M PaymentResult :=
  do_ enter "payment";
  do customer <-
    lift (match getCustomer (stripe env) (stripeCustomerId driverData) with
          | Normal c => Normal c
          | Throw _ => createCustomer (stripe env) driverData
          end);
  let plan := or_else (subscriptionPlan driverData) "BASIC" in
  do paymentIntent <-
    lift (createOnboardingPaymentIntent (stripe env) customer plan);
  ret (mkPaymentResult customer (intentId paymentIntent)
                       (intentStatus paymentIntent) plan).

(** The uploads [storeDriverDocuments] makes, in order: the profile photo,
    the licence, the insurance certificate, then each additional document. *)
Definition uploads (driverData : DriverData)
  : list (string * File * string) :=
  let folder := "drivers/" +:+ template (id driverData) in
  match profilePhoto driverData with
  | Some f => [("profile_photo", f, folder +:+ "/profile")]
  | None => []
  end ++
  match driverLicense driverData with
  | Some f => [("driver_license", f, folder +:+ "/documents")]
  | None => []
  end ++
  match insuranceCertificate driverData with
  | Some f => [("insurance_certificate", f, folder +:+ "/documents")]
  | None => []
  end ++
  match additionalDocuments driverData with
  | Some docs =>
      map (fun doc => ("additional_document", doc, folder +:+ "/documents"))
          docs
  | None => []
  end.

(** [FirebaseStorageService.uploadFile(buffer, name, mimetype, folder)] of
    [firebase.js].  Once [save] has returned the file is in the bucket,
    also when [makePublic] then throws. *)
Definition uploadFile (fb : Firebase) (f : File) (folder : string)
  : M StoredFile :=
  if negb (storage fb) then throw "Firebase not initialized"
  else
    do t <- now;                                      (* [Date.now()] *)
    let path := folder +:+ "/" +:+ decimal t +:+ "_" +:+ originalname f in
    do_ lift (save fb f path);
    do_ put_file path;
    do_ lift (makePublic fb path);
    ret (mkStoredFile (originalname f) path
           ("https://storage.googleapis.com/" +:+ bucket_name fb
            +:+ "/" +:+ path)
           (mimetype f)).

(** The uploads are awaited one after the other; the first that throws
    ends the sequence. *)
Fixpoint uploadAll (fb : Firebase) (todo : list (string * File * string))
  : M (list (string * StoredFile)) :=
  match todo with
  | [] => ret []
  | (ty, f, folder) :: rest =>
      do stored <- uploadFile fb f folder;
      do done <- uploadAll fb rest;
      ret ((ty, stored) :: done)
  end.

(** [storeDriverDocuments(driverData)] *)
Definition storeDriverDocuments (env : Env) (driverData : DriverData)
  : M DocumentResult :=
  do_ enter "documentStorage";
  if negb (firebaseInitialized (firebase env))
  then throw "Firebase not initialized"
  else
    do documentResults <- uploadAll (firebase env) (uploads driverData);
    ret (mkDocumentResult (length documentResults) documentResults).

(** *** The complete onboarding *)

(** One numbered step of [performCompleteOnboarding]:
    [try { result = await operation; steps[name] = { completed ... } }
     catch (error) { steps[name] = { failed, error.message ... } }]. *)
Definition attempt (name : string) (operation : M StepResult)
    (steps : Obj.t (Outcome StepResult)) : M (Obj.t (Outcome StepResult)) :=
  try_catch
    (do r <- operation;
     do t <- now;
     ret (Obj.set name (mkOutcome Completed (Some r) None (Some t)) steps))
    (fun message =>
     do t <- now;
     ret (Obj.set name (mkOutcome Failed None (Some message) (Some t)) steps)).

Definition count_if (p : Status -> bool)
    (steps : Obj.t (Outcome StepResult)) : nat :=
  length (List.filter (fun step => p (status step)) (Obj.values steps)).

(** [generateOnboardingSummary(steps)] *)
Definition generateOnboardingSummary (steps : Obj.t (Outcome StepResult))
  : Summary :=
  let completed := count_if is_completed steps in
  let failed := count_if is_failed steps in
  let pending :=
    count_if (fun s => negb (is_completed s) && negb (is_failed s)) steps in
  let (risk, flags) :=
    if Nat.ltb 2 failed
    then (BackgroundCheckService.High, ["Multiple critical steps failed"])
    else if Nat.ltb 0 failed
    then (BackgroundCheckService.Medium, ["Some steps require attention"])
    else (BackgroundCheckService.Low, []) in
  mkSummary (length (Obj.keys steps)) completed failed pending risk flags
    (if Nat.eqb pending 0 then "Immediate"
     else if Nat.leb pending 2 then "1-2 business days"
     else "3-5 business days").

(** [steps.name?.status === 'failed'] *)
Definition step_failed (name : string) (steps : Obj.t (Outcome StepResult))
  : bool :=
  match Obj.get name steps with
  | Some step => is_failed (status step)
  | None => false
  end.

(** [generateOnboardingRecommendations(steps)] *)
Definition generateOnboardingRecommendations
    (steps : Obj.t (Outcome StepResult)) : list string :=
  (if step_failed "backgroundCheck" steps
   then ["Review background check requirements";
         "Provide additional identification documents"]
   else []) ++
  (if step_failed "insuranceVerification" steps
   then ["Verify insurance policy information";
         "Ensure policy is active and not expired";
         "Check coverage limits meet requirements"]
   else []) ++
  (if step_failed "payment" steps
   then ["Verify payment method information";
         "Ensure sufficient funds are available";
         "Check for any payment restrictions"]
   else []) ++
  (if step_failed "documentStorage" steps
   then ["Ensure all required documents are provided";
         "Check document format and size requirements";
         "Verify document authenticity"]
   else []) ++
  let completed := completedCount steps in
  let total := totalCount steps in
  if Nat.eqb completed total
  then ["Onboarding completed successfully"; "Driver is ready for activation"]
  else if Nat.ltb total (2 * completed)       (* [completed > total / 2] *)
  then ["Onboarding is mostly complete"; "Address remaining issues to finish"]
  else ["Onboarding requires significant attention";
        "Manual review may be necessary"].

(** [performCompleteOnboarding(driverData)].  The database update is the
    fifth step: it is handed [onboardingResult] as it stands then, with four
    steps recorded, [overallStatus] still ['pending'], [summary] still [{}],
    no recommendations and no [completedAt]. *)
Definition performCompleteOnboarding (env : Env) (driverData : DriverData)
  : M OnboardingResult :=
  do started <- now;
  do steps1 <-
    attempt "backgroundCheck"
      (do r <- BackgroundCheckService.performComprehensiveBackgroundCheck
                 (backgroundCheckApis env) driverData;
       ret (BackgroundCheck r))
      Obj.empty;
  do steps2 <-
    attempt "insuranceVerification"
      (do r <- InsuranceVerificationService.performComprehensiveInsuranceVerification
                 (insuranceApis env) driverData;
       ret (InsuranceVerification r))
      steps1;
  do steps3 <-
    attempt "payment"
      (do r <- processOnboardingPayment env driverData; ret (Payment r))
      steps2;
  do steps4 <-
    attempt "documentStorage"
      (do r <- storeDriverDocuments env driverData; ret (DocumentStorage r))
      steps3;
  do steps5 <-
    attempt "databaseUpdate"
      (do r <- updateOnboardingStatus env (id driverData)
                 (mkOnboardingResult (id driverData) started steps4 Pending
                                     None [] None);
       ret (DatabaseUpdate r))
      steps4;
  let overall := deriveOverallStatus steps5 in
  do completed <- now;
  ret (mkOnboardingResult (id driverData) started steps5 overall
         (Some (generateOnboardingSummary steps5))
         (generateOnboardingRecommendations steps5)
         (Some completed)).

(** *** Retry of one step *)

Record RetryResult : Type := mkRetryResult {
  retry_stepName : string;
  retry_status : string;
  retry_result : StepResult;
  retryAt : nat
}.

(** The [switch (stepName)] of [retryOnboardingStep]. *)
Definition retryDispatch (env : Env) (stepName : string)
    (driverData : DriverData) : M StepResult :=
  if String.eqb stepName "backgroundCheck" then
    do r <- BackgroundCheckService.performComprehensiveBackgroundCheck
              (backgroundCheckApis env) driverData;
    ret (BackgroundCheck r)
  else if String.eqb stepName "insuranceVerification" then
    do r <- InsuranceVerificationService.performComprehensiveInsuranceVerification
              (insuranceApis env) driverData;
    ret (InsuranceVerification r)
  else if String.eqb stepName "payment" then
    do r <- processOnboardingPayment env driverData; ret (Payment r)
  else if String.eqb stepName "documentStorage" then
    do r <- storeDriverDocuments env driverData; ret (DocumentStorage r)
  else throw ("Unknown step: " +:+ stepName).

(** [retryOnboardingStep(driverId, stepName)]; its [catch] logs the error
    and throws it again. *)
Definition retryOnboardingStep (env : Env) (driver stepName : string)
  : M RetryResult :=
  do currentStatus <- getOnboardingStatus env driver;
  do driverData <- getDriverData driver;
  do stepResult <- retryDispatch env stepName driverData;
  do_ updateOnboardingStepStatus env driver stepName "completed"
        (Some stepResult);
  do t <- now;
  ret (mkRetryResult stepName "retried" stepResult t).

(** *** Health of the integrations *)

Inductive Health : Type := Healthy | Unavailable | Unhealthy | Degraded.

Record ServiceHealth : Type := mkServiceHealth {
  service_status : Health;
  service_message : string
}.

(** The credentials read from the environment: the Stripe key and the
    [apiKey] of each entry of the two [apis] objects. *)
Record Keys : Type := mkKeys {
  STRIPE_SECRET_KEY : option string;
  criminalKey : option string;
  drivingKey : option string;
  employmentKey : option string;
  creditKey : option string;
  progressiveKey : option string;
  geicoKey : option string;
  statefarmKey : option string;
  allstateKey : option string;
  veriskKey : option string;
  lexisnexisKey : option string
}.

Record IntegrationHealth : Type := mkIntegrationHealth {
  health_timestamp : nat;
  services : Obj.t ServiceHealth;
  overall : Health
}.

Definition is_unhealthy (s : ServiceHealth) : bool :=
  match service_status s with Unhealthy => true | _ => false end.

Definition is_unavailable (s : ServiceHealth) : bool :=
  match service_status s with Unavailable => true | _ => false end.

(** [getIntegrationHealth()].  Nothing in its four [try] blocks throws, so
    their [catch] branches, which would report [unhealthy], have no
    counterpart here. *)
Definition getIntegrationHealth (env : Env) (keys : Keys)
  : M IntegrationHealth :=
  do t <- now;
  let s1 :=
    Obj.set "firebase"
      (if firebaseInitialized (firebase env)
       then mkServiceHealth Healthy "Firebase integration active"
       else mkServiceHealth Unavailable "Firebase not configured")
      Obj.empty in
  let s2 :=
    Obj.set "payment"
      (if truthy (STRIPE_SECRET_KEY keys)
       then mkServiceHealth Healthy "Stripe payment service configured"
       else mkServiceHealth Unavailable "Stripe not configured")
      s1 in
  let s3 :=
    Obj.set "backgroundCheck"
      (if existsb truthy [criminalKey keys; drivingKey keys;
                          employmentKey keys; creditKey keys]
       then mkServiceHealth Healthy "Background check APIs configured"
       else mkServiceHealth Unavailable "No background check APIs configured")
      s2 in
  let s4 :=
    Obj.set "insuranceVerification"
      (if existsb truthy [progressiveKey keys; geicoKey keys;
                          statefarmKey keys; allstateKey keys;
                          veriskKey keys; lexisnexisKey keys]
       then mkServiceHealth Healthy "Insurance verification APIs configured"
       else mkServiceHealth Unavailable
              "No insurance verification APIs configured")
      s3 in
  let unhealthyServices := List.filter is_unhealthy (Obj.values s4) in
  let unavailableServices := List.filter is_unavailable (Obj.values s4) in
  ret (mkIntegrationHealth t s4
         (if Nat.ltb 0 (length unhealthyServices) then Unhealthy
          else if Nat.ltb 0 (length unavailableServices) then Degraded
          else Healthy)).

End IntegrationService.

(** ** The routes of the integration service *)

Module IntegrationRoutes.

Import IntegrationService.

(** What a handler answers: [res.status(code).json(body)], where the body
    is an error report or a message with data. *)
Inductive Body (A : Type) : Type :=
| Failure (error : string) (details : option string)
| Success (message : string) (data : A).
Arguments Failure {A} error details.
Arguments Success {A} message data.

Record Response (A : Type) : Type := mkResponse {
  code : nat;
  body : Body A
}.
Arguments mkResponse {A} _ _.
Arguments code {A} _.
Arguments body {A} _.

Definition Handler (A : Type) : Type := World -> Response A * World.


(** [try { data = await m; res.status(200).json({ message, ... }) }
     catch (error) { res.status(500).json({ error, details }) }] *)
Definition respond {A} (m : M A) (message error : string) : Handler A :=
  fun w =>
    match m w with
    | (Normal data, w') => (mkResponse 200 (Success message data), w')
    | (Throw e, w') => (mkResponse 500 (Failure error (Some e)), w')
    end.




(** [{ ..., result, timestamp: new Date().toISOString() }]: the result
    of [m] with the time at which the answer is built. *)
Definition stamped {A} (m : M A) : M (A * nat) :=
  do r <- m;
  do t <- now;
  ret (r, t).



(** [POST /payment/:driverId/onboarding] *)
Definition onboardingPayment (env : Env) (driverId : string)
  : Handler (PaymentResult * nat) :=
  respond
    (stamped
       (do driverData <- getDriverData driverId;
        processOnboardingPayment env driverData))
    "Payment processing completed successfully"
    "Payment processing failed".


(** [GET /health] *)
Definition health (env : Env) (keys : Keys)
  : Handler (IntegrationHealth * nat) :=
  respond (stamped (getIntegrationHealth env keys))
    "Integration health check completed"
    "Failed to get integration health".

(** *** Bulk operations *)

Inductive OperationResult : Type :=
| Ran (r : StepResult)
| UnknownOperation.                 (* [{ error: 'Unknown operation' }] *)

Record OperationEntry : Type := mkOperationEntry {
  operation : string;
  operation_status : Status;
  operation_result : option OperationResult;
  operation_error : option string
}.


(** The [switch (operation)] of the bulk route. *)
Definition bulkDispatch (env : Env) (operation : string)
    (driverData : DriverData) : M OperationResult :=
  if String.eqb operation "backgroundCheck" then
    do r <- BackgroundCheckService.performComprehensiveBackgroundCheck
              (backgroundCheckApis env) driverData;
    ret (Ran (BackgroundCheck r))
  else if String.eqb operation "insuranceVerification" then
    do r <- InsuranceVerificationService.performComprehensiveInsuranceVerification
              (insuranceApis env) driverData;
    ret (Ran (InsuranceVerification r))
  else if String.eqb operation "payment" then
    do r <- processOnboardingPayment env driverData; ret (Ran (Payment r))
  else if String.eqb operation "documentStorage" then
    do r <- storeDriverDocuments env driverData;
    ret (Ran (DocumentStorage r))
  else ret UnknownOperation.

(** The body of [for (const operation of operations)]: the entry pushed
    for one operation. *)
Definition runOperation (env : Env) (driverData : DriverData)
    (operation : string) (w : World) : OperationEntry * World :=
  match bulkDispatch env operation driverData w with
  | (Normal r, w') => (mkOperationEntry operation Completed (Some r) None, w')
  | (Throw e, w') => (mkOperationEntry operation Failed None (Some e), w')
  end.






End IntegrationRoutes.

(** ** Vocabulary of the statements *)

(** The number of steps of a map whose status is completed, counted step
    by step. *)
Fixpoint completedAmong {R} (steps : Obj.t (Outcome R)) : nat :=
  match steps with
  | [] => 0
  | (_, step) :: rest =>
      match status step with
      | Completed => S (completedAmong rest)
      | _ => completedAmong rest
      end
  end.

(** The rule of the overall status in the words of the specification,
    with [C] the number of steps with status completed and [T] the number
    of recorded steps: three cases that exclude each other, the first of
    which is that every step is completed. *)
Definition threeWay {R} (steps : Obj.t (Outcome R)) (overall : Status) : Prop :=
  let C := completedAmong steps in
  let T := length steps in
  (overall = Completed <-> C = T) /\
  (overall = Partial <-> 0 < C < T) /\
  (overall = Failed <-> C = 0) /\
  (overall = Completed
   <-> Forall (fun entry => status (snd entry) = Completed) steps).

Definition isFulfilled {A} (p : Settled A) : bool :=
  match p with
  | Fulfilled _ => true
  | Rejected _ => false
  end.

(** The tags carried by the fulfilled promises of a fan-out, in order. *)
Definition tagsOf {R} (promises : list (Settled (Tagged R))) : list string :=
  flat_map (fun p => match p with
                     | Fulfilled v => [type v]
                     | Rejected _ => []
                     end) promises.

(** The outcome recorded for a tagged value. *)
Definition outcomeOf {R} (v : Tagged R) : Outcome R :=
  if truthy (tagged_error v)
  then mkOutcome Failed None (tagged_error v) None
  else mkOutcome Completed (tagged_result v) None None.

(** Recording every fulfilled value under its own tag, with no table of
    positions. *)
Definition recordByTag {R} (promises : list (Settled (Tagged R)))
  : Obj.t (Outcome R) :=
  fold_left (fun acc p => match p with
                          | Fulfilled v => Obj.set (type v) (outcomeOf v) acc
                          | Rejected _ => acc
                          end)
            promises Obj.empty.

(** A completed [policy] entry of [verifications] that satisfies [p]. *)
Definition policyFound
    (p : Outcome InsuranceVerificationService.VerificationResult -> bool)
    (verifications :
       Obj.t (Outcome InsuranceVerificationService.VerificationResult))
  : Prop :=
  exists v, In ("policy", v) verifications /\ status v = Completed /\ p v = true.

(** The classification of the coverage in the words of the
    specification.  A policy is the result of a completed verification of
    type [policy]; [policyIs P] says that the verifications hold one that
    satisfies [P]. *)
Definition policyIs
    (P : InsuranceVerificationService.VerificationResult -> Prop)
    (verifications :
       Obj.t (Outcome InsuranceVerificationService.VerificationResult))
  : Prop :=
  exists v r,
    In ("policy", v) verifications /\ status v = Completed
    /\ result v = Some r /\ P r.

(** The policy has status [s]. *)
Definition withStatus (s : string)
    (r : InsuranceVerificationService.VerificationResult) : Prop :=
  exists details,
    InsuranceVerificationService.policyDetails r = Some details
    /\ InsuranceVerificationService.policyStatus details = Some s.

(** The liability of the policy is an amount under the floor of 50000. *)
Definition underTheFloor
    (r : InsuranceVerificationService.VerificationResult) : Prop :=
  exists c amount,
    InsuranceVerificationService.coverage r = Some c
    /\ InsuranceVerificationService.liability c
       = InsuranceVerificationService.Amount amount
    /\ (amount < 50000)%Z.

(** The liability of the policy is not an amount, and yet counts as one
    under the floor: it is [null], which counts as 0, or a value of
    another type that counts as a number under 50000, as a string of
    digits does. *)
Definition countsAsUnderTheFloor
    (r : InsuranceVerificationService.VerificationResult) : Prop :=
  exists c,
    InsuranceVerificationService.coverage r = Some c
    /\ (InsuranceVerificationService.liability c
        = InsuranceVerificationService.NullLiability
        \/ exists n,
             InsuranceVerificationService.liability c
             = InsuranceVerificationService.Converted (Some n)
             /\ (n < 50000)%Z).

(** The step names of the onboarding workflow, and those with a case in
    the [switch] of the retry (the route's [validSteps]). *)
Definition onboardingSteps : list string :=
  ["backgroundCheck"; "insuranceVerification"; "payment"; "documentStorage";
   "databaseUpdate"].

Definition retryableSteps : list string :=
  ["backgroundCheck"; "insuranceVerification"; "payment"; "documentStorage"].

(** The column in which [updateOnboardingStatus] stores the status of a
    step. *)
Definition recordColumn (stepName : string) : string :=
  if String.eqb stepName "backgroundCheck" then "background_check_status"
  else if String.eqb stepName "insuranceVerification" then "insurance_status"
  else if String.eqb stepName "payment" then "payment_status"
  else if String.eqb stepName "documentStorage" then "document_status"
  else "database_status".

(** Every column that holds the stored outcome of a step: the one written
    by the run and the two written by a retry. *)
Definition storedColumns (stepName : string) : list string :=
  [recordColumn stepName; IntegrationService.stepColumn stepName;
   IntegrationService.resultColumn stepName].

(** The row [row'] agrees with [row] on every column outside [written]. *)
Definition agreeOutside (written : list string) (row row' : Row) : Prop :=
  forall c : string, ~ In c written -> row' !! c = row !! c.

(** The outcome [attempt] stores for the way the operation finished. *)
Definition recorded (c : Completion IntegrationService.StepResult) (t : nat)
  : Outcome IntegrationService.StepResult :=
  match c with
  | Normal r => mkOutcome Completed (Some r) None (Some t)
  | Throw e => mkOutcome Failed None (Some e) (Some t)
  end.

(** The tables, and the serial of the next row, are the same in [w'] as
    in [w]. *)
Definition sameTables (w w' : World) : Prop :=
  driver_profiles w' = driver_profiles w /\
  onboarding_records w' = onboarding_records w /\
  next_id w' = next_id w.

(** The fifth step of the complete onboarding, started at [started] with
    the four outcomes [steps4] recorded so far. *)
Definition databaseStep (env : IntegrationService.Env) (d : DriverData)
    (started : nat) (steps4 : Obj.t (Outcome IntegrationService.StepResult))
  : M IntegrationService.StepResult :=
  do r <- IntegrationService.updateOnboardingStatus env (id d)
            (IntegrationService.mkOnboardingResult (id d) started steps4
               Pending None [] None);
  ret (IntegrationService.DatabaseUpdate r).

(** The columns that the two statements of [updateOnboardingStatus] name:
    those of the [UPDATE] of [driver_profiles] and those of the [INSERT]
    into [onboarding_records] with its [RETURNING id]. *)
Definition profileColumnsNamed : list string :=
  ["onboarding_status"; "onboarding_completed_at"; "updated_at"; "user_id"].

Definition recordColumnsNamed : list string :=
  ["driver_id"; "overall_status"; "background_check_status";
   "insurance_status"; "payment_status"; "document_status";
   "database_status"; "started_at"; "completed_at"; "summary_data";
   "recommendations"; "id"].

(** The store accepts the database update: the connection works and the
    two tables have the columns the statements name. *)
Definition storeAccepts (env : IntegrationService.Env) (w : World) : Prop :=
  db_fault w = None
  /\ (forall c, In c profileColumnsNamed ->
                In c (IntegrationService.profile_columns
                        (IntegrationService.schema env)))
  /\ (forall c, In c recordColumnsNamed ->
                In c (IntegrationService.record_columns
                        (IntegrationService.schema env))).



(** The test one of the three flags makes on an entry. *)
Definition hit
    (p : Outcome InsuranceVerificationService.VerificationResult -> bool)
    (entry : string * Outcome InsuranceVerificationService.VerificationResult)
  : bool :=
  is_completed (status (snd entry))
  && (String.eqb (fst entry) "policy" && p (snd entry)).

(** The keys after one more tag. *)
Definition addKey (ks : list string) (k : string) : list string :=
  if existsb (String.eqb k) ks then ks else ks ++ [k].

(** Every character of [s] is a digit. *)
Fixpoint allDigits (s : string) : bool :=
  match s with
  | EmptyString => true
  | String c rest => isDigit c && allDigits rest
  end.

(** The five outcomes a complete onboarding records, for the ways its
    five operations finished. *)
Definition fiveSteps
    (c1 c2 c3 c4 c5 : Completion IntegrationService.StepResult)
    (t1 t2 t3 t4 t5 : nat) : Obj.t (Outcome IntegrationService.StepResult) :=
  [("backgroundCheck", recorded c1 t1);
   ("insuranceVerification", recorded c2 t2);
   ("payment", recorded c3 t3);
   ("documentStorage", recorded c4 t4);
   ("databaseUpdate", recorded c5 t5)].

(** ** Sample data *)

Module Sample.

Import IntegrationService.

Definition person : PersonalInfo :=
  mkPersonalInfo (Some "Ada") (Some "Lee") (Some "1990-01-01")
                 (Some "123-45-6789").

(** A policy number, a VIN and no business information. *)
Definition driver : DriverData :=
  mkDriverData (Some "driver-1") (Some "ada@example.com")
    (Some person) (Some (mkDriverInfo (Some "D1234567") (Some "CA")))
    (Some (mkEmploymentInfo (Some "Acme Freight")))
    (Some (mkVehicleInfo (Some "1HGCM82633A004352") (Some "Honda")
                         (Some "Accord")))
    None
    (Some (mkInsuranceInfo (Some "POL-7") (Some "geico")))
    (Some "BASIC") None None None None None.

(** The row of the user [driver-1], joined with the background check
    [check-1]. *)
Definition joined : JoinedRow :=
  mkJoinedRow "driver-1" (Some "check-1")
    (Some "ada@example.com") (Some "Ada") (Some "Lee")
    (Some "1990-01-01") (Some "123-45-6789") (Some "D1234567") (Some "CA")
    (Some "1HGCM82633A004352") (Some "Honda") (Some "Accord")
    None None None (Some "POL-7") (Some "geico") (Some "BASIC") None.

(** Providers: a conviction on record, four driving violations, employment
    verified. *)
Definition backgroundApis : BackgroundCheckService.Apis :=
  BackgroundCheckService.mkApis
    (fun _ => Normal (BackgroundCheckService.mkCriminalData (Some "c-1")
                        (Some ["conviction"])))
    (fun _ => Normal (BackgroundCheckService.mkDrivingData (Some "d-1")
                        (Some ["speeding"; "speeding"; "red light";
                               "stop sign"])))
    (fun _ => Normal (BackgroundCheckService.mkEmploymentData
                        (Some "e-1") (Some true)))
    (fun _ => Throw "Credit check API not configured")
    false.

(** The checks these providers lead to: a criminal history, four
    violations, employment verified. *)
Definition riskyChecks : Obj.t (Outcome BackgroundCheckService.CheckResult) :=
  [("criminal",
    mkOutcome Completed
      (Some (BackgroundCheckService.mkCheckResult (Some "c-1")
               (Some (BackgroundCheckService.mkCheckSummary
                        (Some true) None None))))
      None None);
   ("driving",
    mkOutcome Completed
      (Some (BackgroundCheckService.mkCheckResult (Some "d-1")
               (Some (BackgroundCheckService.mkCheckSummary
                        None (Some 4%Z) None))))
      None None);
   ("employment",
    mkOutcome Completed
      (Some (BackgroundCheckService.mkCheckResult (Some "e-1")
               (Some (BackgroundCheckService.mkCheckSummary
                        None None (Some true)))))
      None None)].

(** An active policy with 30000 of liability coverage. *)
Definition underinsured : InsuranceVerificationService.VerificationResult :=
  InsuranceVerificationService.mkVerificationResult (Some "v-1")
    (Some (InsuranceVerificationService.mkPolicyDetails (Some "active")))
    (Some (InsuranceVerificationService.mkCoverage
             (InsuranceVerificationService.Amount 30000))).

(** An active policy whose liability is given as [null]. *)
Definition unstated : InsuranceVerificationService.VerificationResult :=
  InsuranceVerificationService.mkVerificationResult (Some "v-2")
    (Some (InsuranceVerificationService.mkPolicyDetails (Some "active")))
    (Some (InsuranceVerificationService.mkCoverage
             InsuranceVerificationService.NullLiability)).

Definition unstatedVerifications
  : Obj.t (Outcome InsuranceVerificationService.VerificationResult) :=
  [("policy", mkOutcome Completed (Some unstated) None None)].

(** The verifications of a run in which only the policy check completed. *)
Definition underinsuredVerifications
  : Obj.t (Outcome InsuranceVerificationService.VerificationResult) :=
  [("policy", mkOutcome Completed (Some underinsured) None None);
   ("driver",
    mkOutcome Failed None
      (Some "Insurance verification failed: Insurance verification API not configured")
      None)].

Definition insuranceApis : InsuranceVerificationService.Apis :=
  InsuranceVerificationService.mkApis
    (fun _ _ => Normal underinsured)
    (fun _ _ _ => Throw "Insurance verification API not configured")
    (fun _ => Throw "Vehicle insurance verification API not configured")
    (fun _ _ _ => Throw "Commercial insurance verification API not configured").

(** Stripe without a secret key: every call throws. *)
Definition notConfigured : string :=
  "Stripe is not configured. Please set STRIPE_SECRET_KEY in environment variables.".

Definition stripeDown : Stripe :=
  mkStripe (fun _ => Throw notConfigured) (fun _ => Throw notConfigured)
           (fun _ _ => Throw notConfigured).

Definition storage : Firebase :=
  mkFirebase true true (fun _ _ => Normal tt) (fun _ => Normal tt)
             "onboarding-files".


Definition tables : Schema :=
  mkSchema
    ["user_id"; "onboarding_status"; "onboarding_completed_at"; "updated_at"]
    ["id"; "driver_id"; "overall_status"; "background_check_status";
     "insurance_status"; "payment_status"; "document_status";
     "database_status"; "started_at"; "completed_at"; "summary_data";
     "recommendations"; "created_at"; "updated_at";
     "payment_result"; "documentstorage_status"; "documentstorage_result"]
    (fun t n => <["id" := Serial n]> (<["created_at" := Timestamp t]> ∅)).

Definition encoders : Json :=
  mkJson (fun _ => "{}") (fun _ => "[]") (fun _ => "{}").

Definition env : Env :=
  mkEnv backgroundApis insuranceApis stripeDown storage tables encoders.

(** A stored run of [driver-1], started at 3 and completed at 9. *)
Definition record : Row :=
  <["id" := Serial 0]>
  (<["driver_id" := Text "driver-1"]>
  (<["overall_status" := Text "partial"]>
  (<["background_check_status" := Text "completed"]>
  (<["insurance_status" := Text "completed"]>
  (<["payment_status" := Text "failed"]>
  (<["document_status" := Text "failed"]>
  (<["database_status" := Text "pending"]>
  (<["started_at" := Timestamp 3]>
  (<["completed_at" := Timestamp 9]>
  (<["created_at" := Timestamp 8]> ∅)))))))))).

Definition world : World :=
  mkWorld 20 1 None [joined] [] [record] [] [].

(** Stripe with a secret key and no customer on file: the lookup of the
    customer throws, the creation and the payment intent succeed. *)
Definition stripeUp : Stripe :=
  mkStripe (fun _ => Throw "No such customer")
           (fun d => Normal ("cus_" +:+ template (id d)))
           (fun customer _ =>
              Normal (mkPaymentIntent ("pi_" +:+ customer)
                                      "requires_payment_method")).

Definition paying : Env :=
  mkEnv backgroundApis insuranceApis stripeUp storage tables encoders.

(** The same driver with neither policy number nor vehicle. *)
Definition uninsured : DriverData :=
  mkDriverData (Some "driver-2") (Some "bo@example.com")
    (Some person) (Some (mkDriverInfo (Some "D7654321") (Some "NV")))
    None None None None (Some "BASIC") None None None None None.



End Sample.

(** * Properties *)

(** ** Objects *)

Lemma set_not_empty {V} (k : string) (v : V) (o : Obj.t V) :
  Obj.set k v o <> [].
Proof.
  destruct o as [|[k' v'] rest]; simpl; [discriminate|].
  destruct (String.eqb k' k); discriminate.
Qed.

Lemma get_set_same {V} (k : string) (v : V) (o : Obj.t V) :
  Obj.get k (Obj.set k v o) = Some v.
Proof.
  induction o as [|[k' v'] rest IH]; simpl.
  - now rewrite String.eqb_refl.
  - destruct (String.eqb k' k) eqn:E; simpl; rewrite E; auto.
Qed.

(** ** The overall status *)

Lemma completed_le_total {R} (steps : Obj.t (Outcome R)) :
  completedCount steps <= totalCount steps.
Proof.
  unfold completedCount, totalCount, Obj.values, Obj.keys.
  induction steps as [|[k v] rest IH]; simpl; [lia|].
  destruct (is_completed (status v)); simpl; lia.
Qed.

Lemma total_positive {R} (steps : Obj.t (Outcome R)) :
  steps <> [] -> 0 < totalCount steps.
Proof.
  destruct steps; [congruence|]. unfold totalCount, Obj.keys. simpl. lia.
Qed.

(** The counters of the code count what the rule speaks of. *)
Lemma completedCount_among {R} (steps : Obj.t (Outcome R)) :
  completedCount steps = completedAmong steps.
Proof.
  unfold completedCount, Obj.values.
  induction steps as [|[k v] rest IH]; simpl; [reflexivity|].
  destruct (status v); simpl; now rewrite IH.
Qed.

Lemma totalCount_length {R} (steps : Obj.t (Outcome R)) :
  totalCount steps = length steps.
Proof. unfold totalCount, Obj.keys. apply length_map. Qed.

Lemma completedAmong_le {R} (steps : Obj.t (Outcome R)) :
  completedAmong steps <= length steps.
Proof.
  induction steps as [|[k v] rest IH]; simpl; [lia|].
  destruct (status v); simpl; lia.
Qed.

Lemma all_completed {R} (steps : Obj.t (Outcome R)) :
  completedAmong steps = length steps
  <-> Forall (fun entry => status (snd entry) = Completed) steps.
Proof.
  induction steps as [|[k v] rest IH]; simpl.
  - split; [constructor|reflexivity].
  - pose proof (completedAmong_le rest) as Hle.
    destruct (status v) eqn:Hs; split; intros H;
      try lia;
      try (apply List.Forall_cons; [exact Hs|apply IH; lia]);
      try (inversion H as [|? ? H1 H2]; simpl in H1; congruence).
    f_equal. apply IH. now inversion H.
Qed.

Lemma derive_threeWay {R} (steps : Obj.t (Outcome R)) :
  steps <> [] -> threeWay steps (deriveOverallStatus steps).
Proof.
  intros Hne. pose proof (total_positive steps Hne) as Hpos.
  pose proof (completed_le_total steps) as Hle.
  unfold threeWay. cbv zeta. rewrite <- all_completed.
  rewrite <- completedCount_among, <- totalCount_length.
  unfold deriveOverallStatus.
  destruct (Nat.eqb_spec (completedCount steps) (totalCount steps)) as [E|E].
  - repeat split; intros; try discriminate; try lia.
  - destruct (Nat.ltb_spec 0 (completedCount steps)) as [L|L].
    + repeat split; intros; try discriminate; try lia.
    + repeat split; intros; try discriminate; try lia.
Qed.

Lemma derive_not_pending {R} (steps : Obj.t (Outcome R)) :
  deriveOverallStatus steps <> Pending.
Proof.
  unfold deriveOverallStatus.
  destruct (Nat.eqb _ _); [discriminate|].
  destruct (Nat.ltb _ _); discriminate.
Qed.

(** ** Processing settled promises *)

Lemma recordSettled_not_empty {R} types (acc : Obj.t (Outcome R)) i s :
  recordSettled types acc i s <> [].
Proof.
  unfold recordSettled. destruct s as [v|m].
  - destruct (truthy (tagged_error v)); apply set_not_empty.
  - apply set_not_empty.
Qed.

Lemma processFrom_not_empty {R} types
    (settled : list (Settled (Tagged R))) :
  forall i acc, acc <> [] \/ settled <> [] ->
                processFrom types i settled acc <> [].
Proof.
  induction settled as [|s rest IH]; intros i acc [H|H]; simpl; auto;
    try congruence.
  - apply IH. left. apply recordSettled_not_empty.
  - apply IH. left. apply recordSettled_not_empty.
Qed.

Lemma processResults_not_empty {R} types
    (settled : list (Settled (Tagged R))) :
  settled <> [] -> processResults types settled <> [].
Proof.
  intros H. apply processFrom_not_empty. now right.
Qed.

Lemma wrap_eq {R} (ty : string) (p : Settled R) :
  wrap ty p =
  Fulfilled (mkTagged ty
               match p with Fulfilled r => Some r | Rejected _ => None end
               match p with Fulfilled _ => None | Rejected m => Some m end).
Proof. destruct p; reflexivity. Qed.

Lemma processFrom_by_tag {R} types (settled : list (Settled (Tagged R))) :
  forallb isFulfilled settled = true ->
  forall i acc,
    processFrom types i settled acc =
    fold_left (fun acc p => match p with
                            | Fulfilled v => Obj.set (type v) (outcomeOf v) acc
                            | Rejected _ => acc
                            end) settled acc.
Proof.
  induction settled as [|s rest IH]; simpl; intros H i acc; [reflexivity|].
  apply andb_true_iff in H as [Hs Hrest].
  destruct s as [v|m]; [|discriminate].
  rewrite IH by assumption. f_equal.
  unfold recordSettled, outcomeOf. destruct (truthy (tagged_error v)); reflexivity.
Qed.

Lemma processResults_by_tag {R} types (settled : list (Settled (Tagged R))) :
  forallb isFulfilled settled = true ->
  processResults types settled = recordByTag settled.
Proof.
  intros H. unfold processResults, recordByTag. now apply processFrom_by_tag.
Qed.

(** ** Running the workflows *)

Lemma attempt_eq name operation steps w :
  IntegrationService.attempt name operation steps w =
  (Normal (Obj.set name (recorded (fst (operation w))
                                  (clock (snd (operation w)))) steps),
   snd (now (snd (operation w)))).
Proof.
  unfold IntegrationService.attempt, try_catch, bind, ret, now.
  destruct (operation w) as [[r|e] w1]; reflexivity.
Qed.

Lemma background_run_eq apis d w :
  exists started completed w',
    BackgroundCheckService.performComprehensiveBackgroundCheck apis d w =
    (Normal
       (let checks :=
          processResults BackgroundCheckService.checkTypes
            (BackgroundCheckService.checkPromises apis d) in
        BackgroundCheckService.mkRun (id d) started checks
          (deriveOverallStatus checks)
          (BackgroundCheckService.generateSummary checks) completed),
     w')
    /\ driver_profiles w' = driver_profiles w
    /\ onboarding_records w' = onboarding_records w
    /\ next_id w' = next_id w.
Proof.
  unfold BackgroundCheckService.performComprehensiveBackgroundCheck,
    bind, enter, now, ret; simpl.
  do 3 eexists. split; [reflexivity|]. simpl. auto.
Qed.

Lemma insurance_run_eq apis d w :
  match InsuranceVerificationService.verificationPromises apis d with
  | Normal promises =>
      exists started completed w',
        InsuranceVerificationService.performComprehensiveInsuranceVerification
          apis d w =
        (Normal
           (let verifications :=
              processResults InsuranceVerificationService.verificationTypes
                promises in
            InsuranceVerificationService.mkRun (id d) started verifications
              (deriveOverallStatus verifications)
              (InsuranceVerificationService.generateVerificationSummary
                 verifications)
              completed),
         w')
        /\ driver_profiles w' = driver_profiles w
        /\ onboarding_records w' = onboarding_records w
        /\ next_id w' = next_id w
  | Throw m =>
      exists w',
        InsuranceVerificationService.performComprehensiveInsuranceVerification
          apis d w = (Throw m, w')
        /\ driver_profiles w' = driver_profiles w
        /\ onboarding_records w' = onboarding_records w
        /\ next_id w' = next_id w
  end.
Proof.
  unfold InsuranceVerificationService.performComprehensiveInsuranceVerification,
    bind, enter, now, ret, lift, throw; simpl.
  destruct (InsuranceVerificationService.verificationPromises apis d)
    as [promises|m]; simpl.
  - do 3 eexists. split; [reflexivity|]. simpl. auto.
  - eexists. split; [reflexivity|]. simpl. auto.
Qed.

Lemma verificationPromises_shape apis d :
  match InsuranceVerificationService.verificationPromises apis d with
  | Normal promises =>
      personalInfo d <> None /\ driverInfo d <> None /\
      forallb isFulfilled promises = true /\
      tagsOf promises =
        (if InsuranceVerificationService.hasPolicyNumber d
         then ["policy"] else []) ++
        ["driver"] ++
        (if InsuranceVerificationService.hasVin d then ["vehicle"] else []) ++
        (if InsuranceVerificationService.hasBusinessName d
         then ["commercial"] else [])
  | Throw _ => personalInfo d = None \/ driverInfo d = None
  end.
Proof.
  unfold InsuranceVerificationService.verificationPromises,
    InsuranceVerificationService.hasPolicyNumber,
    InsuranceVerificationService.hasVin,
    InsuranceVerificationService.hasBusinessName.
  destruct (personalInfo d) as [p|]; [|now left].
  destruct (driverInfo d) as [di|]; [|now right].
  split; [discriminate|]. split; [discriminate|].
  destruct (insuranceInfo d) as [info|]; [destruct (truthy (policyNumber info))|];
    (destruct (vehicleInfo d) as [v|]; [destruct (truthy (vin v))|]);
    (destruct (businessInfo d) as [b|]; [destruct (truthy (businessName b))|]);
    rewrite ?wrap_eq; split; reflexivity.
Qed.

Lemma checkPromises_shape apis d :
  forallb isFulfilled (BackgroundCheckService.checkPromises apis d) = true /\
  tagsOf (BackgroundCheckService.checkPromises apis d) =
    ["criminal"; "driving"; "employment"] ++
    (if BackgroundCheckService.enable_credit_check apis then ["credit"] else []).
Proof.
  unfold BackgroundCheckService.checkPromises.
  destruct (BackgroundCheckService.enable_credit_check apis);
    rewrite ?wrap_eq; split; reflexivity.
Qed.

Lemma tagsOf_length {R} (promises : list (Settled (Tagged R))) :
  forallb isFulfilled promises = true ->
  length (tagsOf promises) = length promises.
Proof.
  induction promises as [|[v|m] rest IH]; simpl; intros H;
    [reflexivity| |discriminate].
  now rewrite IH.
Qed.

Lemma tags_not_empty {R} (promises : list (Settled (Tagged R))) :
  tagsOf promises <> [] -> promises <> [].
Proof. destruct promises; simpl; congruence. Qed.

(** ** The tables under the step adapters *)

Lemma sameTables_refl w : sameTables w w.
Proof. repeat split. Qed.

Lemma sameTables_trans w1 w2 w3 :
  sameTables w1 w2 -> sameTables w2 w3 -> sameTables w1 w3.
Proof.
  unfold sameTables. intros (A1 & A2 & A3) (B1 & B2 & B3).
  repeat split; congruence.
Qed.

Lemma sameTables_now w : sameTables w (snd (now w)).
Proof. repeat split. Qed.

Lemma sameTables_map {A B} (m : M A) (f : A -> B) w :
  sameTables w (snd (m w)) ->
  sameTables w (snd ((do r <- m; ret (f r)) w)).
Proof.
  unfold bind, ret. destruct (m w) as [[a|e] w1]; simpl; auto.
Qed.

Lemma background_tables apis d w :
  sameTables w
    (snd (BackgroundCheckService.performComprehensiveBackgroundCheck apis d w)).
Proof.
  destruct (background_run_eq apis d w) as (s & c & w' & E & H).
  rewrite E. exact H.
Qed.

Lemma insurance_tables apis d w :
  sameTables w
    (snd (InsuranceVerificationService.performComprehensiveInsuranceVerification
            apis d w)).
Proof.
  pose proof (insurance_run_eq apis d w) as H.
  destruct (InsuranceVerificationService.verificationPromises apis d).
  - destruct H as (s & c & w' & E & H). rewrite E. exact H.
  - destruct H as (w' & E & H). rewrite E. exact H.
Qed.

Lemma payment_tables env d w :
  sameTables w (snd (IntegrationService.processOnboardingPayment env d w)).
Proof.
  unfold IntegrationService.processOnboardingPayment, bind, enter, lift,
    ret, throw; simpl.
  destruct (IntegrationService.getCustomer _ _);
    [|destruct (IntegrationService.createCustomer _ _)]; simpl;
    try destruct (IntegrationService.createOnboardingPaymentIntent _ _ _);
    simpl; repeat split.
Qed.

(** An upload changes the clock and the bucket, nothing else. *)
Lemma uploadFile_frame fb f folder w :
  let w' := snd (IntegrationService.uploadFile fb f folder w) in
  sameTables w w' /\ trace w' = trace w
  /\ joined_rows w' = joined_rows w /\ db_fault w' = db_fault w.
Proof.
  unfold IntegrationService.uploadFile, bind, lift, ret, throw, now,
    put_file.
  destruct (IntegrationService.storage fb); cbn;
    [|repeat split].
  destruct (IntegrationService.save fb f _); cbn; [|repeat split].
  destruct (IntegrationService.makePublic fb _); cbn; repeat split.
Qed.

Lemma uploadAll_frame fb todo :
  forall w,
    let w' := snd (IntegrationService.uploadAll fb todo w) in
    sameTables w w' /\ trace w' = trace w
    /\ joined_rows w' = joined_rows w /\ db_fault w' = db_fault w.
Proof.
  induction todo as [|[[ty f] folder] rest IH]; intros w;
    cbn [IntegrationService.uploadAll].
  - repeat split.
  - unfold bind.
    destruct (uploadFile_frame fb f folder w) as (T & Tr & J & F).
    destruct (IntegrationService.uploadFile fb f folder w) as [[stored|e] w1];
      cbn [snd] in *; [|auto].
    destruct (IH w1) as (T' & Tr' & J' & F').
    destruct (IntegrationService.uploadAll fb rest w1) as [[done|e] w2];
      cbn [snd ret] in *;
      (split; [eapply sameTables_trans; eauto|]);
      repeat split; congruence.
Qed.

Lemma documents_frame env d w :
  let w' := snd (IntegrationService.storeDriverDocuments env d w) in
  sameTables w w' /\ trace w' = trace w ++ ["documentStorage"]
  /\ joined_rows w' = joined_rows w /\ db_fault w' = db_fault w.
Proof.
  unfold IntegrationService.storeDriverDocuments, bind, enter, ret, throw.
  cbv zeta.
  destruct (IntegrationService.firebaseInitialized _); cbn [negb];
    [|cbn; repeat split].
  match goal with
  | |- context [IntegrationService.uploadAll ?fb ?todo ?w0] =>
      destruct (uploadAll_frame fb todo w0) as (T & Tr & J & F);
      destruct (IntegrationService.uploadAll fb todo w0) as [[done|e] w2]
  end; cbn [snd] in *; auto.
Qed.

Lemma documents_tables env d w :
  sameTables w (snd (IntegrationService.storeDriverDocuments env d w)).
Proof. apply documents_frame. Qed.

Lemma dispatch_tables env x d w :
  sameTables w (snd (IntegrationService.retryDispatch env x d w)).
Proof.
  unfold IntegrationService.retryDispatch.
  repeat match goal with
         | |- context [if String.eqb ?a ?b then _ else _] =>
             destruct (String.eqb a b)
         end;
    try (apply sameTables_map;
         auto using background_tables, insurance_tables, payment_tables,
                    documents_tables).
  apply sameTables_refl.
Qed.

(** The complete onboarding always returns, and this is what it returns. *)
(** The four adapters leave the joined rows and the state of the
    connection as they are. *)
Lemma users_map {A B} (m : M A) (f : A -> B) w :
  joined_rows (snd (m w)) = joined_rows w /\ db_fault (snd (m w)) = db_fault w ->
  joined_rows (snd ((do r <- m; ret (f r)) w)) = joined_rows w
  /\ db_fault (snd ((do r <- m; ret (f r)) w)) = db_fault w.
Proof.
  unfold bind, ret. destruct (m w) as [[a|e] w1]; cbn; auto.
Qed.

Lemma background_users apis d w :
  let w' :=
    snd (BackgroundCheckService.performComprehensiveBackgroundCheck apis d w)
  in joined_rows w' = joined_rows w /\ db_fault w' = db_fault w.
Proof. split; reflexivity. Qed.

Lemma insurance_users apis d w :
  let w' :=
    snd (InsuranceVerificationService.performComprehensiveInsuranceVerification
           apis d w)
  in joined_rows w' = joined_rows w /\ db_fault w' = db_fault w.
Proof.
  unfold InsuranceVerificationService.performComprehensiveInsuranceVerification,
    bind, enter, now, ret, lift, throw; simpl.
  destruct (InsuranceVerificationService.verificationPromises apis d);
    split; reflexivity.
Qed.

Lemma payment_users env d w :
  let w' := snd (IntegrationService.processOnboardingPayment env d w) in
  joined_rows w' = joined_rows w /\ db_fault w' = db_fault w.
Proof.
  unfold IntegrationService.processOnboardingPayment, bind, enter, lift,
    ret, throw; simpl.
  destruct (IntegrationService.getCustomer _ _);
    [|destruct (IntegrationService.createCustomer _ _)]; simpl;
    try destruct (IntegrationService.createOnboardingPaymentIntent _ _ _);
    split; reflexivity.
Qed.

Lemma documents_users env d w :
  let w' := snd (IntegrationService.storeDriverDocuments env d w) in
  joined_rows w' = joined_rows w /\ db_fault w' = db_fault w.
Proof. split; apply documents_frame. Qed.

Lemma users_step {A B} (m : M A) (f : A -> B) w w0 :
  joined_rows w0 = joined_rows w /\ db_fault w0 = db_fault w ->
  joined_rows (snd (m w0)) = joined_rows w0
  /\ db_fault (snd (m w0)) = db_fault w0 ->
  joined_rows (snd (now (snd ((do r <- m; ret (f r)) w0)))) = joined_rows w
  /\ db_fault (snd (now (snd ((do r <- m; ret (f r)) w0)))) = db_fault w.
Proof.
  intros [J0 F0] H.
  destruct (users_map m f w0 H) as [J F].
  split; cbn; congruence.
Qed.

Lemma onboarding_run_store env d w :
  exists started steps4 w4 w',
    (joined_rows w4 = joined_rows w /\ db_fault w4 = db_fault w) /\
    sameTables w w4 /\
    Obj.keys steps4 =
      ["backgroundCheck"; "insuranceVerification"; "payment";
       "documentStorage"] /\
    let c5 := fst (databaseStep env d started steps4 w4) in
    let w5 := snd (databaseStep env d started steps4 w4) in
    let steps5 :=
      Obj.set "databaseUpdate" (recorded c5 (clock w5)) steps4 in
    onboarding_records w' = onboarding_records w5 /\
    IntegrationService.performCompleteOnboarding env d w =
    (Normal
       (IntegrationService.mkOnboardingResult (id d) started steps5
          (deriveOverallStatus steps5)
          (Some (IntegrationService.generateOnboardingSummary steps5))
          (IntegrationService.generateOnboardingRecommendations steps5)
          (Some (S (clock w5)))),
     w') /\
    db_fault w' = db_fault w5.
Proof.
  unfold IntegrationService.performCompleteOnboarding.
  unfold bind at 1.
  change (now w) with (Normal (clock w), snd (now w)).
  cbv beta iota.
  set (w0 := snd (now w)).
  assert (sameTables w w0) as H0 by (repeat split).
  assert (joined_rows w0 = joined_rows w /\ db_fault w0 = db_fault w) as F0
    by (split; reflexivity).
  unfold bind at 1. rewrite attempt_eq.
  match goal with
  | |- context [snd (now (snd (?op w0)))] =>
      set (w1 := snd (now (snd (op w0))));
      assert (sameTables w w1) as H1
        by (eapply sameTables_trans; [exact H0|];
            eapply sameTables_trans; [|apply sameTables_now];
            apply sameTables_map, background_tables)
  end.
  assert (joined_rows w1 = joined_rows w /\ db_fault w1 = db_fault w) as F1
    by (unfold w1; apply users_step; [exact F0|apply background_users]).
  match goal with
  | |- context [Obj.set "backgroundCheck" ?o Obj.empty] =>
      set (o1 := o)
  end.
  cbv beta iota.
  unfold bind at 1. rewrite attempt_eq.
  match goal with
  | |- context [snd (now (snd (?op w1)))] =>
      set (w2 := snd (now (snd (op w1))));
      assert (sameTables w w2) as H2
        by (eapply sameTables_trans; [exact H1|];
            eapply sameTables_trans; [|apply sameTables_now];
            apply sameTables_map, insurance_tables)
  end.
  assert (joined_rows w2 = joined_rows w /\ db_fault w2 = db_fault w) as F2
    by (unfold w2; apply users_step; [exact F1|apply insurance_users]).
  match goal with
  | |- context [Obj.set "insuranceVerification" ?o _] => set (o2 := o)
  end.
  cbv beta iota.
  unfold bind at 1. rewrite attempt_eq.
  match goal with
  | |- context [snd (now (snd (?op w2)))] =>
      set (w3 := snd (now (snd (op w2))));
      assert (sameTables w w3) as H3
        by (eapply sameTables_trans; [exact H2|];
            eapply sameTables_trans; [|apply sameTables_now];
            apply sameTables_map, payment_tables)
  end.
  assert (joined_rows w3 = joined_rows w /\ db_fault w3 = db_fault w) as F3
    by (unfold w3; apply users_step; [exact F2|apply payment_users]).
  match goal with
  | |- context [Obj.set "payment" ?o _] => set (o3 := o)
  end.
  cbv beta iota.
  unfold bind at 1. rewrite attempt_eq.
  match goal with
  | |- context [snd (now (snd (?op w3)))] =>
      set (w4 := snd (now (snd (op w3))));
      assert (sameTables w w4) as H4
        by (eapply sameTables_trans; [exact H3|];
            eapply sameTables_trans; [|apply sameTables_now];
            apply sameTables_map, documents_tables)
  end.
  assert (joined_rows w4 = joined_rows w /\ db_fault w4 = db_fault w) as F4
    by (unfold w4; apply users_step; [exact F3|apply documents_users]).
  match goal with
  | |- context [Obj.set "documentStorage" ?o _] => set (o4 := o)
  end.
  cbv beta iota.
  unfold bind at 1. rewrite attempt_eq.
  cbv beta iota.
  exists (clock w),
    (Obj.set "documentStorage" o4
       (Obj.set "payment" o3
          (Obj.set "insuranceVerification" o2
             (Obj.set "backgroundCheck" o1 Obj.empty)))),
    w4.
  eexists.
  split; [exact F4|].
  split; [exact H4|]. split; [reflexivity|].
  cbv zeta. split; [|split; [reflexivity|]]; reflexivity.
Qed.

Lemma onboarding_run env d w :
  exists started steps4 w4 w',
    sameTables w w4 /\
    Obj.keys steps4 =
      ["backgroundCheck"; "insuranceVerification"; "payment";
       "documentStorage"] /\
    let c5 := fst (databaseStep env d started steps4 w4) in
    let w5 := snd (databaseStep env d started steps4 w4) in
    let steps5 :=
      Obj.set "databaseUpdate" (recorded c5 (clock w5)) steps4 in
    onboarding_records w' = onboarding_records w5 /\
    IntegrationService.performCompleteOnboarding env d w =
    (Normal
       (IntegrationService.mkOnboardingResult (id d) started steps5
          (deriveOverallStatus steps5)
          (Some (IntegrationService.generateOnboardingSummary steps5))
          (IntegrationService.generateOnboardingRecommendations steps5)
          (Some (S (clock w5)))),
     w').
Proof.
  destruct (onboarding_run_store env d w)
    as (started & steps4 & w4 & w' & _ & T & K & R & E & _).
  exists started, steps4, w4, w'. auto.
Qed.


(** ** The keys of the recorded outcomes *)

Lemma keys_set {V} (k : string) (v : V) (o : Obj.t V) :
  Obj.keys (Obj.set k v o) =
  if existsb (String.eqb k) (Obj.keys o) then Obj.keys o
  else Obj.keys o ++ [k].
Proof.
  unfold Obj.keys. induction o as [|[k' v'] rest IH]; simpl; [reflexivity|].
  rewrite (String.eqb_sym k k').
  destruct (String.eqb k' k) eqn:E; simpl; [reflexivity|].
  rewrite IH. destruct (existsb _ _); reflexivity.
Qed.

Lemma keys_fold_by_tag {R} (promises : list (Settled (Tagged R))) :
  forall acc,
    Obj.keys (fold_left (fun acc p =>
                           match p with
                           | Fulfilled v => Obj.set (type v) (outcomeOf v) acc
                           | Rejected _ => acc
                           end) promises acc) =
    fold_left addKey (tagsOf promises) (Obj.keys acc).
Proof.
  induction promises as [|[v|m] rest IH]; intros acc; simpl;
    [reflexivity| |apply IH].
  rewrite IH, keys_set. reflexivity.
Qed.

Lemma keys_recordByTag {R} (promises : list (Settled (Tagged R))) :
  Obj.keys (recordByTag promises) = fold_left addKey (tagsOf promises) [].
Proof. apply keys_fold_by_tag. Qed.

(** ** The overall status of a run *)

(** C1.  Whatever the providers answer, the step-outcome map of a run of
    the complete onboarding, of the background check or of the insurance
    verification gets its overall status by the three-way rule: with [C]
    the number of steps of the map whose status is completed and [T] the
    number of steps it records, the status is completed exactly when
    [C = T], that is when every step is completed, partial exactly when
    [0 < C < T] and failed exactly when [C = 0].  The first two workflows
    always return; the insurance verification returns unless the subject
    lacks its personal or driver information. *)
Theorem overall_status_three_way :
  forall (env : IntegrationService.Env)
         (checkApis : BackgroundCheckService.Apis)
         (policyApis : InsuranceVerificationService.Apis)
         (d : DriverData) (w : World),
    (exists r w',
        IntegrationService.performCompleteOnboarding env d w = (Normal r, w')
        /\ threeWay (IntegrationService.steps r)
                    (IntegrationService.overallStatus r))
    /\
    (exists r w',
        BackgroundCheckService.performComprehensiveBackgroundCheck
          checkApis d w = (Normal r, w')
        /\ threeWay (BackgroundCheckService.checks r)
                    (BackgroundCheckService.overallStatus r))
    /\
    match fst (InsuranceVerificationService.performComprehensiveInsuranceVerification
                 policyApis d w) with
    | Normal r =>
        threeWay (InsuranceVerificationService.verifications r)
                 (InsuranceVerificationService.overallStatus r)
    | Throw _ => personalInfo d = None \/ driverInfo d = None
    end.
Proof.
  intros env checkApis policyApis d w. split; [|split].
  - destruct (onboarding_run env d w)
      as (started & steps4 & w4 & w' & _ & _ & _ & E).
    eexists. eexists. split; [exact E|]. simpl.
    apply derive_threeWay, set_not_empty.
  - destruct (background_run_eq checkApis d w) as (s & c & w' & E & _).
    eexists. eexists. split; [exact E|]. simpl.
    apply derive_threeWay, processResults_not_empty, tags_not_empty.
    rewrite (proj2 (checkPromises_shape checkApis d)). discriminate.
  - pose proof (insurance_run_eq policyApis d w) as H.
    pose proof (verificationPromises_shape policyApis d) as S.
    destruct (InsuranceVerificationService.verificationPromises policyApis d)
      as [promises|m].
    + destruct H as (s & c & w' & E & _). rewrite E. simpl.
      apply derive_threeWay, processResults_not_empty, tags_not_empty.
      destruct S as (_ & _ & _ & T). rewrite T.
      destruct (InsuranceVerificationService.hasPolicyNumber d); discriminate.
    + destruct H as (w' & E & _). rewrite E. simpl. exact S.
Qed.

(** C5, as the code has it.  On a step-outcome map with no entry the first
    test [completedSteps === totalSteps] holds with [0 = 0], so the derived
    overall status is completed. *)
Theorem empty_step_set_is_completed :
  forall (R : Type) (steps : Obj.t (Outcome R)),
    totalCount steps = 0 -> deriveOverallStatus steps = Completed.
Proof.
  intros R steps H. pose proof (completed_le_total steps) as L.
  unfold deriveOverallStatus.
  replace (completedCount steps) with 0 by lia. rewrite H. reflexivity.
Qed.

Lemma empty_step_set_is_completed_witness :
  totalCount (@Obj.empty (Outcome IntegrationService.StepResult)) = 0 /\
  deriveOverallStatus (@Obj.empty (Outcome IntegrationService.StepResult))
  = Completed.
Proof.
  split; [reflexivity|].
  apply (empty_step_set_is_completed IntegrationService.StepResult Obj.empty).
  reflexivity.
Defined.

(** C5, as stated, fails: the empty map has [T = 0] and its derived overall
    status is not failed. *)
Lemma empty_step_set_not_failed :
  totalCount (@Obj.empty (Outcome IntegrationService.StepResult)) = 0 /\
  deriveOverallStatus (@Obj.empty (Outcome IntegrationService.StepResult))
  <> Failed.
Proof. split; [reflexivity|]. vm_compute. discriminate. Qed.

(** C10.  The handlers put on each step promise turn a result into
    [{ type, result }] and a rejection into [{ type, error }], a fulfilled
    value in both cases.  So in both fan-outs every promise handed to
    [Promise.allSettled] is fulfilled, whatever the providers do, and the
    branch for a rejected promise is never taken: the outcomes a run records are those obtained
    by storing each value under its own tag, and their keys are the tags of
    the scheduled steps.  The table of positions used by that branch would
    name another step: a rejected promise at position 0 would be stored as
    [policy], although the first scheduled step of a subject without a
    policy number is [driver]. *)
Theorem rejected_branch_unreachable :
  forall (checkApis : BackgroundCheckService.Apis)
         (policyApis : InsuranceVerificationService.Apis)
         (d : DriverData) (w : World),
    (forall (R : Type) (ty : string) (r : R) (m : string),
        wrap ty (Fulfilled r) = Fulfilled (mkTagged ty (Some r) None)
        /\ wrap ty (@Rejected R m) = Fulfilled (mkTagged ty None (Some m)))
    /\
    (forallb isFulfilled (BackgroundCheckService.checkPromises checkApis d)
     = true
     /\ exists r w',
         BackgroundCheckService.performComprehensiveBackgroundCheck
           checkApis d w = (Normal r, w')
         /\ BackgroundCheckService.checks r =
            recordByTag (BackgroundCheckService.checkPromises checkApis d)
         /\ Obj.keys (BackgroundCheckService.checks r) =
            tagsOf (BackgroundCheckService.checkPromises checkApis d))
    /\
    match InsuranceVerificationService.verificationPromises policyApis d with
    | Normal promises =>
        forallb isFulfilled promises = true
        /\ hd_error (tagsOf promises) =
           Some (if InsuranceVerificationService.hasPolicyNumber d
                 then "policy" else "driver")
        /\ exists r w',
            InsuranceVerificationService.performComprehensiveInsuranceVerification
              policyApis d w = (Normal r, w')
            /\ InsuranceVerificationService.verifications r =
               recordByTag promises
            /\ Obj.keys (InsuranceVerificationService.verifications r) =
               tagsOf promises
    | Throw m =>
        fst (InsuranceVerificationService.performComprehensiveInsuranceVerification
               policyApis d w) = Throw m
    end
    /\
    forall reason : string,
      Obj.keys
        (processResults InsuranceVerificationService.verificationTypes
           [@Rejected
              (Tagged InsuranceVerificationService.VerificationResult)
              reason])
      = ["policy"].
Proof.
  intros checkApis policyApis d w. split; [|split; [|split]].
  - intros R ty r m. split; reflexivity.
  - destruct (checkPromises_shape checkApis d) as [F T].
    split; [exact F|].
    destruct (background_run_eq checkApis d w) as (s & c & w' & E & _).
    eexists. eexists. split; [exact E|].
    cbv beta zeta iota delta [BackgroundCheckService.checks].
    rewrite (processResults_by_tag _ _ F). split; [reflexivity|].
    rewrite keys_recordByTag, T.
    destruct (BackgroundCheckService.enable_credit_check checkApis);
      reflexivity.
  - pose proof (insurance_run_eq policyApis d w) as H.
    pose proof (verificationPromises_shape policyApis d) as S.
    destruct (InsuranceVerificationService.verificationPromises policyApis d)
      as [promises|m].
    + destruct S as (_ & _ & F & T). split; [exact F|]. split.
      * rewrite T.
        destruct (InsuranceVerificationService.hasPolicyNumber d); reflexivity.
      * destruct H as (s & c & w' & E & _).
        eexists. eexists. split; [exact E|].
        cbv beta zeta iota delta [InsuranceVerificationService.verifications].
        rewrite (processResults_by_tag _ _ F). split; [reflexivity|].
        rewrite keys_recordByTag, T.
        destruct (InsuranceVerificationService.hasPolicyNumber d),
          (InsuranceVerificationService.hasVin d),
          (InsuranceVerificationService.hasBusinessName d); reflexivity.
    + destruct H as (w' & E & _). rewrite E. reflexivity.
  - intros reason. reflexivity.
Qed.

(** C8.  The steps the insurance fan-out schedules are fixed by the
    subject alone: [policy] exactly when a policy number is present,
    [vehicle] exactly when a VIN is present, [commercial] exactly when the
    business information is present with its business name, and [driver]
    always, in this order and whatever the providers are.  A subject with a
    policy number, a VIN and no business information schedules exactly
    [policy], [driver] and [vehicle].  On a subject built by
    [getDriverData], each of the three optional parts is present exactly
    when its guard holds. *)
Theorem insurance_schedule_is_determined :
  forall (policyApis : InsuranceVerificationService.Apis) (d : DriverData),
    match InsuranceVerificationService.verificationPromises policyApis d with
    | Normal promises =>
        length (tagsOf promises) = length promises
        /\ tagsOf promises =
           (if InsuranceVerificationService.hasPolicyNumber d
            then ["policy"] else []) ++
           ["driver"] ++
           (if InsuranceVerificationService.hasVin d
            then ["vehicle"] else []) ++
           (if InsuranceVerificationService.hasBusinessName d
            then ["commercial"] else [])
        /\ (In "policy" (tagsOf promises) <->
            InsuranceVerificationService.hasPolicyNumber d = true)
        /\ In "driver" (tagsOf promises)
        /\ (In "vehicle" (tagsOf promises) <->
            InsuranceVerificationService.hasVin d = true)
        /\ (In "commercial" (tagsOf promises) <->
            InsuranceVerificationService.hasBusinessName d = true)
    | Throw _ => personalInfo d = None \/ driverInfo d = None
    end
    /\
    (forall p i,
        personalInfo d = Some p -> driverInfo d = Some i ->
        InsuranceVerificationService.hasPolicyNumber d = true ->
        InsuranceVerificationService.hasVin d = true ->
        businessInfo d = None ->
        exists promises,
          InsuranceVerificationService.verificationPromises policyApis d
          = Normal promises
          /\ tagsOf promises = ["policy"; "driver"; "vehicle"])
    /\
    (forall driver w w',
        IntegrationService.getDriverData driver w = (Normal d, w') ->
        (InsuranceVerificationService.hasPolicyNumber d = true <->
         insuranceInfo d <> None)
        /\ (InsuranceVerificationService.hasVin d = true <->
            vehicleInfo d <> None)
        /\ (InsuranceVerificationService.hasBusinessName d = true <->
            businessInfo d <> None)).
Proof.
  intros policyApis d.
  pose proof (verificationPromises_shape policyApis d) as S.
  split; [|split].
  - destruct (InsuranceVerificationService.verificationPromises policyApis d)
      as [promises|m]; [|exact S].
    destruct S as (_ & _ & F & T).
    split; [now apply tagsOf_length|]. split; [exact T|].
    rewrite T.
    destruct (InsuranceVerificationService.hasPolicyNumber d),
      (InsuranceVerificationService.hasVin d),
      (InsuranceVerificationService.hasBusinessName d); simpl;
      intuition (try discriminate; try congruence).
  - intros p i Hp Hi Hpol Hvin Hbus.
    destruct (InsuranceVerificationService.verificationPromises policyApis d)
      as [promises|m].
    + exists promises. split; [reflexivity|].
      destruct S as (_ & _ & _ & T). rewrite T, Hpol, Hvin.
      unfold InsuranceVerificationService.hasBusinessName. rewrite Hbus.
      reflexivity.
    + destruct S; congruence.
  - intros driver w w' E.
    unfold IntegrationService.getDriverData, bind, ret, throw,
      IntegrationService.statement, IntegrationService.get_world in E.
    destruct (db_fault w); [discriminate|]. simpl in E.
    destruct (List.filter _ (joined_rows w)) as [|row rest];
      [discriminate|].
    injection E as Ed _. subst d.
    unfold InsuranceVerificationService.hasPolicyNumber,
      InsuranceVerificationService.hasVin,
      InsuranceVerificationService.hasBusinessName. simpl.
    destruct (truthy (insurance_policy_number row)) eqn:E1,
      (truthy (row_vin row)) eqn:E2,
      (truthy (business_name row)) eqn:E3; simpl;
      rewrite ?E1, ?E2, ?E3;
      intuition (try discriminate; try congruence).
Qed.

Lemma insurance_schedule_witness :
  exists promises,
    InsuranceVerificationService.verificationPromises
      Sample.insuranceApis Sample.driver = Normal promises
    /\ tagsOf promises = ["policy"; "driver"; "vehicle"].
Proof.
  apply (proj1 (proj2 (insurance_schedule_is_determined
                         Sample.insuranceApis Sample.driver))
           Sample.person (mkDriverInfo (Some "D1234567") (Some "CA")));
    reflexivity.
Defined.

(** C2, where the code departs from it.  With a conviction on record and
    four driving violations, both checks completed, the background check
    raises the two flags but ends with risk level medium: the later
    assignment for the violations overwrites the level high set for the
    criminal history. *)
Theorem criminal_history_downgraded_to_medium :
  BackgroundCheckService.reportsCriminalHistory
    (mkOutcome Completed
       (Some (BackgroundCheckService.mkCheckResult (Some "c-1")
                (Some (BackgroundCheckService.mkCheckSummary
                         (Some true) None None))))
       None None) = true
  /\ BackgroundCheckService.riskLevel
       (BackgroundCheckService.generateSummary Sample.riskyChecks)
     = BackgroundCheckService.Medium
  /\ BackgroundCheckService.flags
       (BackgroundCheckService.generateSummary Sample.riskyChecks)
     = ["Criminal history detected"; "Multiple driving violations"]
  /\ exists r w',
       BackgroundCheckService.performComprehensiveBackgroundCheck
         Sample.backgroundApis Sample.driver Sample.world = (Normal r, w')
       /\ BackgroundCheckService.checks r = Sample.riskyChecks
       /\ BackgroundCheckService.riskLevel
            (BackgroundCheckService.run_summary r)
          = BackgroundCheckService.Medium.
Proof.
  split; [reflexivity|]. split; [reflexivity|]. split; [reflexivity|].
  eexists. eexists. split; [vm_compute; reflexivity|]. split; reflexivity.
Qed.

(** ** The insurance summary *)

Ltac fold_flag :=
  let vs := fresh "vs" in
  let IH := fresh "IH" in
  let s0 := fresh "s0" in
  intros vs; induction vs as [|[ty v] vs IH]; intros s0; simpl;
  [now rewrite orb_false_r|];
  rewrite IH; unfold hit; simpl;
  destruct (is_completed (status v)); simpl; [|reflexivity];
  destruct (String.eqb ty "policy"); simpl; [|reflexivity];
  match goal with
  | |- context [if ?b then true else _] => destruct b
  end; simpl; now rewrite ?orb_true_r.

Lemma fold_active :
  forall vs s0,
    InsuranceVerificationService.hasActiveInsurance
      (fold_left InsuranceVerificationService.inspect vs s0) =
    InsuranceVerificationService.hasActiveInsurance s0
    || existsb (hit (InsuranceVerificationService.policyStatusIs "active")) vs.
Proof. fold_flag. Qed.

Lemma fold_expired :
  forall vs s0,
    InsuranceVerificationService.hasExpiredInsurance
      (fold_left InsuranceVerificationService.inspect vs s0) =
    InsuranceVerificationService.hasExpiredInsurance s0
    || existsb (hit (InsuranceVerificationService.policyStatusIs "expired")) vs.
Proof. fold_flag. Qed.

Lemma fold_insufficient :
  forall vs s0,
    InsuranceVerificationService.hasInsufficientCoverage
      (fold_left InsuranceVerificationService.inspect vs s0) =
    InsuranceVerificationService.hasInsufficientCoverage s0
    || existsb (hit InsuranceVerificationService.liabilityUnderFloor) vs.
Proof. fold_flag. Qed.

Lemma hit_found p vs :
  existsb (hit p) vs = true <-> policyFound p vs.
Proof.
  unfold policyFound. rewrite existsb_exists. split.
  - intros ([ty v] & Hin & H). unfold hit in H; simpl in H.
    apply andb_true_iff in H as [Hc H].
    apply andb_true_iff in H as [Ht Hp].
    apply String.eqb_eq in Ht. subst ty.
    exists v. repeat split; auto. now destruct (status v).
  - intros (v & Hin & Hc & Hp). exists ("policy", v). split; [exact Hin|].
    unfold hit; simpl. now rewrite Hc, Hp.
Qed.

Lemma unique_entry {V} (o : Obj.t V) k (v1 v2 : V) :
  List.NoDup (Obj.keys o) -> In (k, v1) o -> In (k, v2) o -> v1 = v2.
Proof.
  unfold Obj.keys. induction o as [|[k' v'] rest IH]; simpl; [tauto|].
  intros N [H1|H1] [H2|H2]; inversion N as [|? ? Hnotin Hrest]; subst.
  - congruence.
  - inversion H1; subst. exfalso. apply Hnotin.
    change k with (fst (k, v2)). now apply in_map.
  - inversion H2; subst. exfalso. apply Hnotin.
    change k with (fst (k, v1)). now apply in_map.
  - now apply IH.
Qed.

Lemma active_not_expired v :
  InsuranceVerificationService.policyStatusIs "active" v = true ->
  InsuranceVerificationService.policyStatusIs "expired" v = true -> False.
Proof.
  unfold InsuranceVerificationService.policyStatusIs.
  destruct (result v) as [r|]; [|discriminate].
  destruct (InsuranceVerificationService.policyDetails r) as [pd|];
    [|discriminate].
  destruct (InsuranceVerificationService.policyStatus pd) as [s|];
    [|discriminate].
  intros A X. apply String.eqb_eq in A, X. subst s. discriminate.
Qed.

Lemma set_distinct {V} (k : string) (v : V) (o : Obj.t V) :
  List.NoDup (Obj.keys o) -> List.NoDup (Obj.keys (Obj.set k v o)).
Proof.
  intros N. rewrite keys_set.
  destruct (existsb (String.eqb k) (Obj.keys o)) eqn:E; [exact N|].
  apply List.NoDup_app; [exact N|repeat constructor; simpl; tauto|].
  intros a Ha [Hk|[]]. subst a.
  assert (existsb (String.eqb k) (Obj.keys o) = true) as C
    by (apply existsb_exists; exists k; split;
        [exact Ha|apply String.eqb_refl]).
  congruence.
Qed.

Lemma processFrom_distinct {R} types (settled : list (Settled (Tagged R))) :
  forall i acc,
    List.NoDup (Obj.keys acc) ->
    List.NoDup (Obj.keys (processFrom types i settled acc)).
Proof.
  induction settled as [|s rest IH]; intros i acc N; simpl; [exact N|].
  apply IH. unfold recordSettled.
  destruct s as [v|m]; [destruct (truthy (tagged_error v))|];
    now apply set_distinct.
Qed.

(** The verifications a run records have distinct keys. *)
Lemma verifications_distinct apis d w r w' :
  InsuranceVerificationService.performComprehensiveInsuranceVerification
    apis d w = (Normal r, w') ->
  List.NoDup (Obj.keys (InsuranceVerificationService.verifications r)).
Proof.
  intros E. pose proof (insurance_run_eq apis d w) as H.
  destruct (InsuranceVerificationService.verificationPromises apis d).
  - destruct H as (s & c & w1 & E1 & _). rewrite E1 in E.
    injection E as E _. subst r. simpl.
    apply processFrom_distinct. constructor.
  - destruct H as (w1 & E1 & _). rewrite E1 in E. discriminate.
Qed.

Lemma summary_classified vs :
  InsuranceVerificationService.coverageStatus
    (InsuranceVerificationService.generateVerificationSummary vs) =
  fst (InsuranceVerificationService.classify
         (InsuranceVerificationService.scan vs))
  /\ InsuranceVerificationService.flags
       (InsuranceVerificationService.generateVerificationSummary vs) =
     snd (InsuranceVerificationService.classify
            (InsuranceVerificationService.scan vs)).
Proof.
  unfold InsuranceVerificationService.generateVerificationSummary.
  destruct (InsuranceVerificationService.classify _); split; reflexivity.
Qed.

(** The classification in terms of the three tests of the code. *)
Lemma classified_by_flags :
  forall vs : Obj.t (Outcome InsuranceVerificationService.VerificationResult),
    List.NoDup (Obj.keys vs) ->
    let s := InsuranceVerificationService.generateVerificationSummary vs in
    let active :=
      policyFound (InsuranceVerificationService.policyStatusIs "active") vs in
    let expired :=
      policyFound (InsuranceVerificationService.policyStatusIs "expired") vs in
    let under :=
      policyFound InsuranceVerificationService.liabilityUnderFloor vs in
    (InsuranceVerificationService.coverageStatus s
     = InsuranceVerificationService.Adequate
     <-> active /\ ~ expired /\ ~ under)
    /\ (InsuranceVerificationService.coverageStatus s
        = InsuranceVerificationService.Insufficient
        <-> active /\ under)
    /\ (active /\ under ->
        In "Insufficient liability coverage"
           (InsuranceVerificationService.flags s))
    /\ (InsuranceVerificationService.coverageStatus s
        = InsuranceVerificationService.Expired
        <-> expired)
    /\ (InsuranceVerificationService.coverageStatus s
        = InsuranceVerificationService.Unknown
        <-> ~ active /\ ~ expired).
Proof.
  intros vs N s active expired under.
  destruct (summary_classified vs) as [Ec Ef].
  subst s. rewrite Ec, Ef. clear Ec Ef.
  assert (active -> expired -> False) as Excl.
  { intros (v1 & I1 & _ & A) (v2 & I2 & _ & X).
    rewrite (unique_entry vs "policy" v1 v2 N I1 I2) in A.
    exact (active_not_expired v2 A X). }
  pose proof (hit_found (InsuranceVerificationService.policyStatusIs "active")
                        vs) as Ha.
  pose proof (hit_found (InsuranceVerificationService.policyStatusIs "expired")
                        vs) as Hx.
  pose proof (hit_found InsuranceVerificationService.liabilityUnderFloor vs)
    as Hu.
  fold active in Ha. fold expired in Hx. fold under in Hu.
  unfold InsuranceVerificationService.classify,
    InsuranceVerificationService.scan, Obj.entries.
  rewrite fold_active, fold_expired, fold_insufficient. simpl.
  destruct (existsb (hit (InsuranceVerificationService.policyStatusIs "active"))
                    vs);
    destruct (existsb
                (hit (InsuranceVerificationService.policyStatusIs "expired"))
                vs);
    destruct (existsb (hit InsuranceVerificationService.liabilityUnderFloor)
                      vs);
    simpl;
    repeat split; intros;
    repeat match goal with
           | H : _ /\ _ |- _ => destruct H
           end;
    try discriminate; try tauto; try (exfalso; intuition congruence);
    try (left; reflexivity).
Qed.

(** What the tests of the code find, in the words of the specification. *)
Lemma found_status s vs :
  policyFound (InsuranceVerificationService.policyStatusIs s) vs
  <-> policyIs (withStatus s) vs.
Proof.
  unfold policyFound, policyIs, withStatus,
    InsuranceVerificationService.policyStatusIs.
  split.
  - intros (v & Hin & Hc & H).
    destruct (result v) as [r|] eqn:Hr; [|discriminate].
    destruct (InsuranceVerificationService.policyDetails r) as [pd|] eqn:Hp;
      [|discriminate].
    destruct (InsuranceVerificationService.policyStatus pd) as [s'|] eqn:Hs;
      [|discriminate].
    apply String.eqb_eq in H. subst s'.
    exists v, r. repeat split; auto. exists pd. auto.
  - intros (v & r & Hin & Hc & Hr & pd & Hp & Hs).
    exists v. repeat split; auto.
    rewrite Hr, Hp, Hs. apply String.eqb_refl.
Qed.

Lemma found_under vs :
  policyFound InsuranceVerificationService.liabilityUnderFloor vs
  <-> policyIs underTheFloor vs \/ policyIs countsAsUnderTheFloor vs.
Proof.
  unfold policyFound, policyIs, underTheFloor, countsAsUnderTheFloor,
    InsuranceVerificationService.liabilityUnderFloor,
    InsuranceVerificationService.lessThanFloor.
  split.
  - intros (v & Hin & Hc & H).
    destruct (result v) as [r|] eqn:Hr; [|discriminate].
    destruct (InsuranceVerificationService.coverage r) as [c|] eqn:Hcov;
      [|discriminate].
    destruct (InsuranceVerificationService.liability c)
      as [| |amount|[n|]] eqn:Hl; cbn in H; try discriminate.
    + right. exists v, r. repeat split; auto. exists c. auto.
    + left. exists v, r. repeat split; auto. exists c, amount.
      repeat split; auto. now apply Z.ltb_lt.
    + right. exists v, r. repeat split; auto. exists c.
      split; [exact Hcov|]. right. exists n. split; [exact Hl|].
      now apply Z.ltb_lt.
  - intros [(v & r & Hin & Hc & Hr & c & amount & Hcov & Hl & Hlt)
           |(v & r & Hin & Hc & Hr & c & Hcov
             & [Hl|(n & Hl & Hlt)])];
      exists v; repeat split; auto; rewrite Hr, Hcov, Hl; cbn;
      try reflexivity; now apply Z.ltb_lt.
Qed.

(** C3.  On verifications keyed by distinct names, with a policy the
    result of a completed verification of type [policy]: the coverage is
    adequate exactly when the policy is active, not expired, and its
    liability is neither an amount under 50000 nor a value that counts as
    one, as [null] does; insufficient exactly when the policy is active
    and its liability is an amount under 50000 or counts as one, and then
    the flag "Insufficient liability coverage" is raised; expired exactly
    when the policy is expired; unknown exactly when it is neither active
    nor expired.  A missing liability does not count as under the
    floor. *)
Theorem coverage_status_classification :
  forall vs : Obj.t (Outcome InsuranceVerificationService.VerificationResult),
    List.NoDup (Obj.keys vs) ->
    let s := InsuranceVerificationService.generateVerificationSummary vs in
    let active := policyIs (withStatus "active") vs in
    let expired := policyIs (withStatus "expired") vs in
    let under := policyIs underTheFloor vs in
    let unstated := policyIs countsAsUnderTheFloor vs in
    (InsuranceVerificationService.coverageStatus s
     = InsuranceVerificationService.Adequate
     <-> active /\ ~ expired /\ ~ under /\ ~ unstated)
    /\ (InsuranceVerificationService.coverageStatus s
        = InsuranceVerificationService.Insufficient
        <-> active /\ (under \/ unstated))
    /\ (active /\ (under \/ unstated) ->
        In "Insufficient liability coverage"
           (InsuranceVerificationService.flags s))
    /\ (InsuranceVerificationService.coverageStatus s
        = InsuranceVerificationService.Expired
        <-> expired)
    /\ (InsuranceVerificationService.coverageStatus s
        = InsuranceVerificationService.Unknown
        <-> ~ active /\ ~ expired).
Proof.
  intros vs N s active expired under unstated.
  destruct (classified_by_flags vs N) as (A & I & F & X & U).
  cbv zeta in A, I, F, X, U.
  pose proof (found_status "active" vs) as Ea.
  pose proof (found_status "expired" vs) as Ex.
  pose proof (found_under vs) as Eu.
  subst s active expired under unstated.
  repeat split; tauto.
Qed.

Lemma coverage_status_classification_witness :
  List.NoDup (Obj.keys Sample.underinsuredVerifications)
  /\ InsuranceVerificationService.coverageStatus
       (InsuranceVerificationService.generateVerificationSummary
          Sample.underinsuredVerifications)
     = InsuranceVerificationService.Insufficient
  /\ In "Insufficient liability coverage"
        (InsuranceVerificationService.flags
           (InsuranceVerificationService.generateVerificationSummary
              Sample.underinsuredVerifications)).
Proof.
  assert (List.NoDup (Obj.keys Sample.underinsuredVerifications)) as N.
  { repeat constructor; simpl; intuition discriminate. }
  assert (policyIs (withStatus "active") Sample.underinsuredVerifications)
    as A.
  { eexists. eexists. split; [left; reflexivity|].
    split; [reflexivity|]. split; [reflexivity|].
    eexists. split; reflexivity. }
  assert (policyIs underTheFloor Sample.underinsuredVerifications) as U.
  { eexists. eexists. split; [left; reflexivity|].
    split; [reflexivity|]. split; [reflexivity|].
    eexists. eexists. split; [reflexivity|]. split; [reflexivity|lia]. }
  pose proof (coverage_status_classification
                Sample.underinsuredVerifications N) as (_ & I & F & _).
  split; [exact N|]. split; [apply I|apply F]; split; auto.
Defined.

(** A policy that is active and not expired, with no amount under the
    floor, and yet not adequate: its liability is [null], which the
    comparison with 50000 takes for 0. *)
Lemma null_liability_is_insufficient :
  List.NoDup (Obj.keys Sample.unstatedVerifications)
  /\ policyIs (withStatus "active") Sample.unstatedVerifications
  /\ ~ policyIs (withStatus "expired") Sample.unstatedVerifications
  /\ ~ policyIs underTheFloor Sample.unstatedVerifications
  /\ InsuranceVerificationService.coverageStatus
       (InsuranceVerificationService.generateVerificationSummary
          Sample.unstatedVerifications)
     = InsuranceVerificationService.Insufficient.
Proof.
  split; [repeat constructor; simpl; intuition discriminate|].
  split.
  { eexists. eexists. split; [left; reflexivity|].
    split; [reflexivity|]. split; [reflexivity|].
    eexists. split; reflexivity. }
  split.
  { intros (v & r & [Hin|[]] & _ & Hr & pd & Hp & Hs).
    injection Hin as <-. injection Hr as <-. injection Hp as <-.
    discriminate Hs. }
  split.
  { intros (v & r & [Hin|[]] & _ & Hr & c & amount & Hc & Hl & _).
    injection Hin as <-. injection Hr as <-. injection Hc as <-.
    discriminate Hl. }
  reflexivity.
Qed.

(** ** The retry *)

Lemma statement_world table columns used w :
  snd (IntegrationService.statement table columns used w) = w.
Proof.
  unfold IntegrationService.statement.
  destruct (db_fault w); [reflexivity|].
  destruct (List.filter _ used); reflexivity.
Qed.

Lemma getOnboardingStatus_world env driver w :
  snd (IntegrationService.getOnboardingStatus env driver w) = w.
Proof.
  unfold IntegrationService.getOnboardingStatus, bind,
    IntegrationService.get_world.
  pose proof (statement_world "onboarding_records"
                (IntegrationService.record_columns
                   (IntegrationService.schema env))
                ["driver_id"; "created_at"] w) as H.
  destruct (IntegrationService.statement _ _ _ w) as [[u|e] w1];
    simpl in H; subst w1; [|reflexivity].
  destruct (IntegrationService.first_row _); reflexivity.
Qed.

Lemma getDriverData_world driver w :
  snd (IntegrationService.getDriverData driver w) = w.
Proof.
  unfold IntegrationService.getDriverData, bind,
    IntegrationService.get_world.
  pose proof (statement_world "users" [] [] w) as H.
  destruct (IntegrationService.statement _ _ _ w) as [[u|e] w1];
    simpl in H; subst w1; [|reflexivity].
  destruct (List.filter _ (joined_rows w)); reflexivity.
Qed.

Lemma dispatch_unknown env x d w :
  ~ In x retryableSteps ->
  IntegrationService.retryDispatch env x d w =
  (Throw ("Unknown step: " +:+ x), w).
Proof.
  intros H. unfold IntegrationService.retryDispatch.
  repeat match goal with
         | |- context [if String.eqb x ?b then _ else _] =>
             let E := fresh "E" in
             destruct (String.eqb_spec x b) as [E|E];
             [exfalso; apply H; rewrite E; simpl; tauto|]
         end.
  reflexivity.
Qed.

(** The retry, once the two lookups are made. *)
Lemma retry_eq env driver x w :
  IntegrationService.retryOnboardingStep env driver x w =
  match fst (IntegrationService.getOnboardingStatus env driver w) with
  | Throw e => (Throw e, w)
  | Normal _ =>
      match fst (IntegrationService.getDriverData driver w) with
      | Throw e => (Throw e, w)
      | Normal d =>
          (do stepResult <- IntegrationService.retryDispatch env x d;
           do_ IntegrationService.updateOnboardingStepStatus env driver x
                 "completed" (Some stepResult);
           do t <- now;
           ret (IntegrationService.mkRetryResult x "retried" stepResult t)) w
      end
  end.
Proof.
  unfold IntegrationService.retryOnboardingStep.
  unfold bind at 1.
  pose proof (getOnboardingStatus_world env driver w) as H1.
  destruct (IntegrationService.getOnboardingStatus env driver w)
    as [[s|e] w1]; simpl in H1; subst w1; simpl; [|reflexivity].
  unfold bind at 1.
  pose proof (getDriverData_world driver w) as H2.
  destruct (IntegrationService.getDriverData driver w)
    as [[d|e] w1]; simpl in H2; subst w1; simpl; reflexivity.
Qed.

(** C6.  A retry with a step name outside the four retryable ones throws
    and leaves the whole world as it was: no adapter is entered and no
    table is written.  When the two lookups that come first succeed, the
    error is the unknown-step error. *)
Theorem unknown_step_rejected :
  forall (env : IntegrationService.Env) (driver x : string) (w : World),
    ~ In x retryableSteps ->
    (exists m,
        IntegrationService.retryOnboardingStep env driver x w = (Throw m, w))
    /\
    (forall s d,
        fst (IntegrationService.getOnboardingStatus env driver w) = Normal s ->
        fst (IntegrationService.getDriverData driver w) = Normal d ->
        IntegrationService.retryOnboardingStep env driver x w =
        (Throw ("Unknown step: " +:+ x), w)).
Proof.
  intros env driver x w H. rewrite retry_eq. split.
  - destruct (fst (IntegrationService.getOnboardingStatus env driver w));
      [|eauto].
    destruct (fst (IntegrationService.getDriverData driver w)); [|eauto].
    unfold bind at 1. rewrite dispatch_unknown by assumption. eauto.
  - intros s d E1 E2. rewrite E1, E2.
    unfold bind at 1. rewrite dispatch_unknown by assumption. reflexivity.
Qed.

Lemma unknown_step_rejected_witness :
  IntegrationService.retryOnboardingStep Sample.env "driver-1"
    "databaseUpdate" Sample.world =
  (Throw "Unknown step: databaseUpdate", Sample.world).
Proof.
  assert (~ In "databaseUpdate" retryableSteps) as H
    by (simpl; intuition discriminate).
  eapply (proj2 (unknown_step_rejected Sample.env "driver-1"
                   "databaseUpdate" Sample.world H));
    vm_compute; reflexivity.
Defined.

(** C4, as the code has it.  When the adapter of a retryable step throws,
    the retry throws the same error to its caller, and no table has been
    written; a retry that returns has status retried. *)
Theorem failed_adapter_is_rethrown :
  forall (env : IntegrationService.Env) (driver x : string) (w : World),
    In x retryableSteps ->
    (forall s d m w1,
        fst (IntegrationService.getOnboardingStatus env driver w) = Normal s ->
        fst (IntegrationService.getDriverData driver w) = Normal d ->
        IntegrationService.retryDispatch env x d w = (Throw m, w1) ->
        IntegrationService.retryOnboardingStep env driver x w = (Throw m, w1)
        /\ sameTables w w1)
    /\
    (forall r w',
        IntegrationService.retryOnboardingStep env driver x w = (Normal r, w')
        -> IntegrationService.retry_status r = "retried").
Proof.
  intros env driver x w _. split.
  - intros s d m w1 E1 E2 E3. rewrite retry_eq, E1, E2.
    unfold bind at 1. rewrite E3. split; [reflexivity|].
    pose proof (dispatch_tables env x d w) as T. now rewrite E3 in T.
  - intros r w'. rewrite retry_eq.
    destruct (fst (IntegrationService.getOnboardingStatus env driver w));
      [|discriminate].
    destruct (fst (IntegrationService.getDriverData driver w));
      [|discriminate].
    unfold bind, ret, now.
    destruct (IntegrationService.retryDispatch env x a0 w) as [[sr|e] w1];
      [|discriminate].
    destruct (IntegrationService.updateOnboardingStepStatus _ _ _ _ _ w1)
      as [[u|e] w2]; [|discriminate].
    intros E. injection E as E _. subst r. reflexivity.
Qed.

Lemma failed_adapter_is_rethrown_witness :
  exists w1,
    IntegrationService.retryOnboardingStep Sample.env "driver-1" "payment"
      Sample.world
    = (Throw Sample.notConfigured,
       w1)
    /\ sameTables Sample.world w1.
Proof.
  assert (In "payment" retryableSteps) as H by (simpl; tauto).
  eexists.
  eapply (proj1 (failed_adapter_is_rethrown Sample.env "driver-1"
                   "payment" Sample.world H));
    vm_compute; reflexivity.
Defined.

(** C4, as stated, fails: with Stripe not configured the payment adapter
    throws, and the retry of the payment step throws that error instead of
    returning an outcome. *)
Lemma failed_payment_retry_throws :
  match fst (IntegrationService.getDriverData "driver-1" Sample.world) with
  | Normal d =>
      fst (IntegrationService.processOnboardingPayment Sample.env d
             Sample.world)
      = Throw Sample.notConfigured
  | Throw _ => False
  end
  /\ fst (IntegrationService.retryOnboardingStep Sample.env "driver-1"
            "payment" Sample.world)
     = Throw Sample.notConfigured
  /\ forall r w',
       IntegrationService.retryOnboardingStep Sample.env "driver-1"
         "payment" Sample.world <> (Normal r, w').
Proof.
  split; [vm_compute; reflexivity|].
  assert (fst (IntegrationService.retryOnboardingStep Sample.env "driver-1"
                 "payment" Sample.world)
          = Throw Sample.notConfigured)
    as E by (vm_compute; reflexivity).
  split; [exact E|].
  intros r w' H. rewrite H in E. discriminate.
Qed.

(** ** What a retry writes *)

Lemma fold_insert_frame (assignments : list (string * Cell)) :
  forall (row : Row) (c : string),
    ~ In c (map fst assignments) ->
    fold_left (fun r a => <[fst a := snd a]> r) assignments row !! c
    = row !! c.
Proof.
  induction assignments as [|[k v] rest IH]; intros row c H; simpl;
    [reflexivity|].
  rewrite IH by (intros Hin; apply H; now right).
  apply lookup_insert_ne. intros E. apply H. now left.
Qed.

Lemma update_where_frame column value assignments (rows : list Row) :
  List.Forall2 (agreeOutside (map fst assignments)) rows
    (IntegrationService.update_where column value assignments rows).
Proof.
  unfold IntegrationService.update_where.
  induction rows as [|row rows IH]; simpl; constructor; [|exact IH].
  intros c H. destruct (IntegrationService.matches column value row);
    [|reflexivity].
  now apply fold_insert_frame.
Qed.

Lemma agree_refl written (rows : list Row) :
  List.Forall2 (agreeOutside written) rows rows.
Proof.
  induction rows; constructor; auto. intros c _. reflexivity.
Qed.

Lemma updateStep_frame env driver x newStatus stepResult w :
  List.Forall2
    (agreeOutside [IntegrationService.stepColumn x;
                   IntegrationService.resultColumn x; "updated_at"])
    (onboarding_records w)
    (onboarding_records
       (snd (IntegrationService.updateOnboardingStepStatus env driver x
               newStatus stepResult w))).
Proof.
  unfold IntegrationService.updateOnboardingStepStatus, bind,
    IntegrationService.get_world, IntegrationService.set_tables.
  pose proof (statement_world "onboarding_records"
                (IntegrationService.record_columns
                   (IntegrationService.schema env))
                [IntegrationService.stepColumn x;
                 IntegrationService.resultColumn x; "updated_at";
                 "driver_id"] w) as H.
  destruct (IntegrationService.statement _ _ _ w) as [[u|e] w1];
    simpl in H; subst w1; simpl; [|apply agree_refl].
  apply (update_where_frame "driver_id" driver
           [(IntegrationService.stepColumn x, Text newStatus);
            (IntegrationService.resultColumn x, _);
            ("updated_at", Timestamp (clock w))]).
Qed.

Lemma retry_frame env driver x w :
  List.Forall2
    (agreeOutside [IntegrationService.stepColumn x;
                   IntegrationService.resultColumn x; "updated_at"])
    (onboarding_records w)
    (onboarding_records
       (snd (IntegrationService.retryOnboardingStep env driver x w))).
Proof.
  rewrite retry_eq.
  destruct (fst (IntegrationService.getOnboardingStatus env driver w));
    [|apply agree_refl].
  destruct (fst (IntegrationService.getDriverData driver w)) as [d|];
    [|apply agree_refl].
  unfold bind at 1.
  pose proof (dispatch_tables env x d w) as (_ & T & _).
  destruct (IntegrationService.retryDispatch env x d w) as [[r|e] w1];
    simpl in T; [|simpl; rewrite T; apply agree_refl].
  unfold bind at 1.
  pose proof (updateStep_frame env driver x "completed" (Some r) w1) as F.
  rewrite T in F.
  destruct (IntegrationService.updateOnboardingStepStatus _ _ _ _ _ w1)
    as [[u|e] w2]; simpl in F; simpl; exact F.
Qed.

(** The columns a retry of [x] writes hold no stored outcome of another
    step, nor the two timestamps of the run. *)
Lemma written_columns_apart x y c :
  In x retryableSteps -> In y onboardingSteps -> y <> x ->
  In c (storedColumns y ++ ["started_at"; "completed_at"]) ->
  ~ In c [IntegrationService.stepColumn x;
          IntegrationService.resultColumn x; "updated_at"].
Proof.
  intros Hx Hy Hne Hc Hin.
  simpl in Hx, Hy.
  repeat match goal with
         | H : _ \/ _ |- _ => destruct H
         | H : False |- _ => destruct H
         end; subst x y; try congruence;
    vm_compute in Hc, Hin;
    repeat match goal with
           | H : _ \/ _ |- _ => destruct H
           | H : False |- _ => destruct H
           end; subst c; discriminate.
Qed.

Lemma timestamps_apart x c :
  In x retryableSteps ->
  In c ["started_at"; "completed_at"] ->
  ~ In c [IntegrationService.stepColumn x;
          IntegrationService.resultColumn x; "updated_at"].
Proof.
  intros Hx Hc Hin.
  simpl in Hx.
  repeat match goal with
         | H : _ \/ _ |- _ => destruct H
         | H : False |- _ => destruct H
         end; subst x;
    vm_compute in Hc, Hin;
    repeat match goal with
           | H : _ \/ _ |- _ => destruct H
           | H : False |- _ => destruct H
           end; subst c; discriminate.
Qed.

(** C7.  A retry of a retryable step [x] leaves the rows of
    [onboarding_records] in place, none removed and none added, and in
    each row changes nothing but the columns [x_status], [x_result] and
    [updated_at]: every column that stores the outcome of another step is
    as before, and so are [started_at] and [completed_at]. *)
Theorem retry_writes_only_its_step :
  forall (env : IntegrationService.Env) (driver x : string) (w : World),
    In x retryableSteps ->
    let w' := snd (IntegrationService.retryOnboardingStep env driver x w) in
    length (onboarding_records w') = length (onboarding_records w)
    /\ List.Forall2
         (agreeOutside [IntegrationService.stepColumn x;
                        IntegrationService.resultColumn x; "updated_at"])
         (onboarding_records w) (onboarding_records w')
    /\ List.Forall2
         (fun row row' : Row =>
            (forall y c,
                In y onboardingSteps -> y <> x -> In c (storedColumns y) ->
                row' !! c = row !! c)
            /\ row' !! "started_at" = row !! "started_at"
            /\ row' !! "completed_at" = row !! "completed_at")
         (onboarding_records w) (onboarding_records w').
Proof.
  intros env driver x w Hx w'.
  pose proof (retry_frame env driver x w) as F. fold w' in F.
  split; [symmetry; eapply Forall2_length; exact F|].
  split; [exact F|].
  eapply Forall2_impl; [exact F|].
  intros row row' A. split; [|split].
  - intros y c Hy Hne Hc. apply A.
    apply (written_columns_apart x y c Hx Hy Hne).
    apply in_or_app. now left.
  - apply A. apply timestamps_apart; simpl; tauto.
  - apply A. apply timestamps_apart; simpl; tauto.
Qed.

(** The retry of the document storage for the sample driver writes its two
    columns and the update time into the stored row; the payment status,
    the start and the completion of the run stay as they were. *)
Lemma retry_writes_only_its_step_witness :
  In "documentStorage" retryableSteps
  /\ match onboarding_records
             (snd (IntegrationService.retryOnboardingStep Sample.env
                     "driver-1" "documentStorage" Sample.world)) with
     | [row'] =>
         (row' !! "documentstorage_status", row' !! "payment_status",
          row' !! "started_at", row' !! "completed_at")
     | _ => (None, None, None, None)
     end
     = (Some (Text "completed"), Some (Text "failed"),
        Some (Timestamp 3), Some (Timestamp 9))
  /\ List.Forall2
       (agreeOutside [IntegrationService.stepColumn "documentStorage";
                      IntegrationService.resultColumn "documentStorage";
                      "updated_at"])
       (onboarding_records Sample.world)
       (onboarding_records
          (snd (IntegrationService.retryOnboardingStep Sample.env
                  "driver-1" "documentStorage" Sample.world))).
Proof.
  assert (In "documentStorage" retryableSteps) as H by (simpl; tauto).
  split; [exact H|]. split.
  - vm_compute. reflexivity.
  - exact (proj1 (proj2 (retry_writes_only_its_step Sample.env "driver-1"
                           "documentStorage" Sample.world H))).
Defined.

(** ** The record stored by the complete onboarding *)

Lemma get_absent {V} (k : string) (o : Obj.t V) :
  ~ In k (Obj.keys o) -> Obj.get k o = None.
Proof.
  unfold Obj.keys. induction o as [|[k' v] rest IH]; simpl; intros H;
    [reflexivity|].
  destruct (String.eqb_spec k' k) as [E|E]; [exfalso; apply H; now left|].
  apply IH. intros Hin. apply H. now right.
Qed.

Lemma statement_cases table columns used w :
  IntegrationService.statement table columns used w = (Normal tt, w)
  \/ exists e,
      IntegrationService.statement table columns used w = (Throw e, w).
Proof.
  unfold IntegrationService.statement.
  destruct (db_fault w); [right; eauto|].
  destruct (List.filter _ used); [left|right; eauto]; reflexivity.
Qed.

Lemma databaseStep_effect env d started steps4 w4 :
  Obj.get "databaseUpdate" steps4 = None ->
  match databaseStep env d started steps4 w4 with
  | (Normal _, w5) =>
      exists row : Row,
        onboarding_records w5 = onboarding_records w4 ++ [row]
        /\ row !! "overall_status" = Some (Text "pending")
        /\ row !! "database_status" = Some (Text "pending")
        /\ row !! "completed_at" = Some Null
  | (Throw _, w5) => onboarding_records w5 = onboarding_records w4
  end.
Proof.
  intros Hget.
  unfold databaseStep, IntegrationService.updateOnboardingStatus,
    IntegrationService.transaction, bind, ret,
    IntegrationService.get_world, IntegrationService.set_tables,
    IntegrationService.status_or_pending.
  cbv beta iota zeta delta
    [IntegrationService.steps IntegrationService.overallStatus
     IntegrationService.run_completedAt IntegrationService.startedAt
     IntegrationService.summary IntegrationService.recommendations].
  rewrite Hget.
  destruct (db_fault w4); [reflexivity|].
  match goal with
  | |- context [IntegrationService.statement ?t ?c ?u w4] =>
      destruct (statement_cases t c u w4) as [E|[e E]]; rewrite E; clear E;
      cbv beta iota; [|reflexivity]
  end.
  match goal with
  | |- context [IntegrationService.statement ?t ?c ?u ?w] =>
      destruct (statement_cases t c u w) as [E|[e E]]; rewrite E; clear E;
      cbv beta iota; [|reflexivity]
  end.
  eexists. split; [reflexivity|].
  repeat split; simplify_map_eq; reflexivity.
Qed.

Lemma in_strings (x : string) (l : list string) :
  In x l <-> existsb (String.eqb x) l = true.
Proof.
  rewrite existsb_exists. split.
  - intros H. exists x. split; [exact H|apply String.eqb_refl].
  - intros (y & H & E). apply String.eqb_eq in E. now subst y.
Qed.

(** A statement is accepted exactly when the connection works and the
    table has every column the statement names. *)
Lemma statement_accepts table columns used w :
  (exists w', IntegrationService.statement table columns used w
              = (Normal tt, w'))
  <-> db_fault w = None /\ forall c, In c used -> In c columns.
Proof.
  unfold IntegrationService.statement.
  destruct (db_fault w) as [m|].
  - split; [intros (w' & H); discriminate|intros [H _]; discriminate].
  - destruct (List.filter _ used) as [|c rest] eqn:F.
    + split; [|eauto]. intros _. split; [reflexivity|].
      intros c Hc. apply in_strings.
      destruct (existsb (String.eqb c) columns) eqn:E; [reflexivity|].
      assert (In c (List.filter
                      (fun c => negb (IntegrationService.has_column
                                        columns c)) used)) as H.
      { apply filter_In. split; [exact Hc|].
        unfold IntegrationService.has_column. now rewrite E. }
      rewrite F in H. destruct H.
    + split; [intros (w' & H); discriminate|]. intros [_ H]. exfalso.
      assert (In c (List.filter
                      (fun c => negb (IntegrationService.has_column
                                        columns c)) used)) as Hin
        by (rewrite F; now left).
      apply filter_In in Hin as [Hin Hc].
      apply H, in_strings in Hin.
      unfold IntegrationService.has_column in Hc. now rewrite Hin in Hc.
Qed.

(** The database step returns exactly when the store accepts it. *)
Lemma databaseStep_accepts env d started steps4 w4 :
  (exists r, fst (databaseStep env d started steps4 w4) = Normal r)
  <-> storeAccepts env w4.
Proof.
  unfold storeAccepts.
  pose proof (statement_accepts "driver_profiles"
                (IntegrationService.profile_columns
                   (IntegrationService.schema env))
                profileColumnsNamed w4) as S1.
  unfold databaseStep, IntegrationService.updateOnboardingStatus,
    IntegrationService.transaction, bind, ret,
    IntegrationService.get_world, IntegrationService.set_tables.
  destruct (db_fault w4) as [m|] eqn:Fault.
  { split; [intros (r & H); discriminate|intros [H _]; discriminate]. }
  change ["onboarding_status"; "onboarding_completed_at"; "updated_at";
          "user_id"] with profileColumnsNamed.
  match goal with
  | |- context [IntegrationService.statement ?t ?c ?u w4] =>
      destruct (statement_cases t c u w4) as [E|[e E]]
  end.
  2:{ rewrite E. cbv beta iota.
      split; [intros (r & H); discriminate|]. intros (_ & H & _).
      destruct (proj2 S1 (conj eq_refl H)) as (w' & H').
      rewrite H' in E. discriminate. }
  rewrite E. cbv beta iota.
  assert (forall c, In c profileColumnsNamed ->
                    In c (IntegrationService.profile_columns
                            (IntegrationService.schema env))) as P.
  { apply S1. eauto. }
  match goal with
  | |- context [IntegrationService.statement ?t ?c ?u ?w0] =>
      pose proof (statement_accepts t c u w0) as S2;
      destruct (statement_cases t c u w0) as [E2|[e E2]]; rewrite E2;
      cbv beta iota
  end.
  - split; [|cbn; eauto]. intros _. split; [reflexivity|].
    split; [exact P|]. apply S2. eauto.
  - split; [intros (r & H); discriminate|].
    intros (_ & _ & H). exfalso.
    destruct (proj2 S2 (conj Fault H)) as (w' & H').
    rewrite H' in E2. discriminate.
Qed.

(** C9.  The complete onboarding always returns, with an overall status
    that is not pending.  Its database step completes exactly when the
    store accepts the update: the connection works and the two tables
    have the columns the statements name.  It has then added one row to
    [onboarding_records], and that row holds the status pending both for
    the run and for the database step and no completion time, so its
    overall status is not the one returned.  When the step fails, no row
    is added. *)
Theorem stored_record_is_pending :
  forall (env : IntegrationService.Env) (d : DriverData) (w : World),
  exists r w' step,
    IntegrationService.performCompleteOnboarding env d w = (Normal r, w')
    /\ IntegrationService.overallStatus r <> Pending
    /\ Obj.get "databaseUpdate" (IntegrationService.steps r) = Some step
    /\ (status step = Completed <-> storeAccepts env w)
    /\ (status step = Completed ->
        exists row : Row,
          onboarding_records w' = onboarding_records w ++ [row]
          /\ row !! "overall_status" = Some (Text "pending")
          /\ row !! "database_status" = Some (Text "pending")
          /\ row !! "completed_at" = Some Null
          /\ row !! "overall_status" <>
             Some (Text (status_name
                           (IntegrationService.overallStatus r))))
    /\ (status step <> Completed ->
        status step = Failed
        /\ onboarding_records w' = onboarding_records w).
Proof.
  intros env d w.
  destruct (onboarding_run_store env d w)
    as (started & steps4 & w4 & w' & (_ & F) & (_ & T & _) & K & R & E
        & _).
  eexists. exists w'. eexists. split; [exact E|]. simpl.
  split; [apply derive_not_pending|].
  rewrite get_set_same. split; [reflexivity|].
  assert (Obj.get "databaseUpdate" steps4 = None) as G.
  { apply get_absent. rewrite K. simpl. intuition discriminate. }
  pose proof (databaseStep_effect env d started steps4 w4 G) as D.
  pose proof (databaseStep_accepts env d started steps4 w4) as A.
  assert (storeAccepts env w4 <-> storeAccepts env w) as Same
    by (unfold storeAccepts; rewrite F; tauto).
  rewrite R.
  destruct (databaseStep env d started steps4 w4) as [[r5|e5] w5]; simpl.
  - split; [split; [intros _; apply Same, A; eauto|reflexivity]|].
    split; [|congruence]. intros _.
    destruct D as (row & D1 & D2 & D3 & D4).
    exists row. rewrite D1, T. repeat split; auto.
    rewrite D2. intros C. injection C as C.
    match type of C with
    | _ = status_name ?s => pose proof (derive_not_pending
        (Obj.set "databaseUpdate"
           (recorded (Normal r5) (clock w5)) steps4)) as NP;
        destruct s eqn:S; try discriminate
    end.
    apply NP. exact S.
  - split.
    + split; [discriminate|]. intros H. apply Same, A in H.
      destruct H as (r & H). discriminate.
    + split; [discriminate|]. intros _.
      split; [reflexivity|]. now rewrite D, T.
Qed.

Lemma stored_record_is_pending_witness :
  storeAccepts Sample.env Sample.world
  /\ exists r w' row,
       IntegrationService.performCompleteOnboarding Sample.env
         Sample.driver Sample.world = (Normal r, w')
       /\ onboarding_records w' = onboarding_records Sample.world ++ [row]
       /\ row !! "overall_status" = Some (Text "pending").
Proof.
  assert (storeAccepts Sample.env Sample.world) as A.
  { split; [reflexivity|]. split; intros c Hc; apply in_strings;
      cbn in Hc;
      repeat match goal with
             | H : _ \/ _ |- _ => destruct H
             | H : False |- _ => destruct H
             end; subst c; reflexivity. }
  split; [exact A|].
  destruct (stored_record_is_pending Sample.env Sample.driver Sample.world)
    as (r & w' & step & E & _ & _ & S & Row & _).
  destruct (Row (proj2 S A)) as (row & R1 & R2 & _).
  exists r, w', row. auto.
Defined.

(** * Further properties of the code *)

(** ** Masking of identification numbers *)

Lemma digitsOf_allDigits s : allDigits (digitsOf s) = true.
Proof.
  induction s as [|c s IH]; simpl; [reflexivity|].
  destruct (isDigit c) eqn:E; simpl; [now rewrite E|exact IH].
Qed.

Lemma allDigits_digitsOf s : allDigits s = true -> digitsOf s = s.
Proof.
  induction s as [|c s IH]; simpl; [reflexivity|].
  intros H. apply andb_true_iff in H as [Hc Hs]. rewrite Hc. now rewrite IH.
Qed.

Lemma allDigits_substring s :
  allDigits s = true -> forall n m, allDigits (String.substring n m s) = true.
Proof.
  induction s as [|c s IH]; intros H n m.
  - destruct n, m; reflexivity.
  - simpl in H. apply andb_true_iff in H as [Hc Hs].
    destruct n; [destruct m|]; simpl; auto.
    rewrite Hc. simpl. auto.
Qed.

Lemma length_substring_le s :
  forall n m, String.length (String.substring n m s) <= m.
Proof.
  induction s as [|c s IH]; intros n m.
  - destruct n, m; simpl; lia.
  - destruct n; [destruct m|]; simpl; [lia| |apply IH].
    specialize (IH 0 m). lia.
Qed.

Lemma length_substring s :
  forall n m,
    n + m <= String.length s -> String.length (String.substring n m s) = m.
Proof.
  induction s as [|c s IH]; intros n m H; simpl in H.
  - destruct n, m; simpl; lia.
  - destruct n; [destruct m|]; simpl; [reflexivity| |apply IH; lia].
    rewrite IH; [reflexivity|lia].
Qed.

Lemma length_digitsOf_le s : String.length (digitsOf s) <= String.length s.
Proof.
  induction s as [|c s IH]; simpl; [lia|].
  destruct (isDigit c); simpl; lia.
Qed.

Lemma digits_of_lastFour s :
  digitsOf (lastFour (digitsOf s)) = lastFour (digitsOf s)
  /\ String.length (lastFour (digitsOf s)) <= 4.
Proof.
  split.
  - apply allDigits_digitsOf, allDigits_substring, digitsOf_allDigits.
  - apply length_substring_le.
Qed.

Lemma digitsOf_append a b : digitsOf (a +:+ b) = digitsOf a +:+ digitsOf b.
Proof.
  induction a as [|c a IH]; simpl; [reflexivity|].
  rewrite IH. now destruct (isDigit c).
Qed.

Lemma length_append a b :
  String.length (a +:+ b) = String.length a + String.length b.
Proof. induction a as [|c a IH]; simpl; [reflexivity|now rewrite IH]. Qed.

(** A mask made of [stars], which hold no digit, over a number with nine
    digits. *)
Lemma masked_nine (stars : string) s :
  digitsOf stars = "" -> String.length (digitsOf s) = 9 ->
  String.length (stars +:+ lastFour (digitsOf s)) = String.length stars + 4
  /\ digitsOf (stars +:+ lastFour (digitsOf s)) = lastFour (digitsOf s)
  /\ String.length (digitsOf (stars +:+ lastFour (digitsOf s))) = 4.
Proof.
  intros Hd H.
  assert (String.length (lastFour (digitsOf s)) = 4) as L
    by (apply length_substring; lia).
  destruct (digits_of_lastFour s) as [D _].
  rewrite length_append, digitsOf_append, Hd, D, L.
  change ("" +:+ lastFour (digitsOf s)) with (lastFour (digitsOf s)).
  rewrite L. auto.
Qed.

(** What the two masks share: the text [stars] holds no digit and is not
    empty. *)
Lemma masked_again (stars : string) cleaned :
  digitsOf stars = "" -> stars <> "" ->
  String.eqb (stars +:+ lastFour (digitsOf cleaned)) "" = false
  /\ Nat.eqb (String.length
                (digitsOf (stars +:+ lastFour (digitsOf cleaned)))) 9 = false.
Proof.
  intros Hd Hne. split.
  - destruct stars; [congruence|reflexivity].
  - destruct (digits_of_lastFour cleaned) as [E L].
    rewrite digitsOf_append, Hd, E.
    change ("" +:+ lastFour (digitsOf cleaned))
      with (lastFour (digitsOf cleaned)).
    apply Nat.eqb_neq. lia.
Qed.

(** X1.  Masking a social security number twice is masking it once.  A
    number with nine digits, however it is punctuated, is shown as eleven
    characters of which only the last four digits of the number are
    digits; a text with another number of digits is returned unmasked. *)
Theorem maskSSN_shows_last_four :
  (forall ssn,
      BackgroundCheckService.maskSSN (BackgroundCheckService.maskSSN ssn)
      = BackgroundCheckService.maskSSN ssn)
  /\ (forall s,
         String.length (digitsOf s) = 9 ->
         exists m,
           BackgroundCheckService.maskSSN (Some s) = Some m
           /\ String.length m = 11
           /\ digitsOf m = lastFour (digitsOf s)
           /\ String.length (digitsOf m) = 4)
  /\ (forall s,
         s <> "" -> String.length (digitsOf s) <> 9 ->
         BackgroundCheckService.maskSSN (Some s) = Some s).
Proof.
  split; [|split].
  - intros [s|]; [|reflexivity]. unfold BackgroundCheckService.maskSSN.
    destruct (String.eqb s "") eqn:E; [reflexivity|].
    destruct (Nat.eqb (String.length (digitsOf s)) 9) eqn:N.
    + destruct (masked_again "***-**-" s) as [A B];
        [reflexivity|discriminate|].
      now rewrite A, B.
    + now rewrite E, N.
  - intros s H. unfold BackgroundCheckService.maskSSN.
    destruct (String.eqb_spec s "") as [E|E]; [subst s; discriminate|].
    rewrite H. eexists. split; [reflexivity|].
    exact (masked_nine "***-**-" s eq_refl H).
  - intros s Hne H. unfold BackgroundCheckService.maskSSN.
    destruct (String.eqb_spec s "") as [E|E]; [congruence|].
    apply Nat.eqb_neq in H. now rewrite H.
Qed.

Lemma maskSSN_shows_last_four_witness :
  BackgroundCheckService.maskSSN (Some "123 45 6789") = Some "***-**-6789"
  /\ BackgroundCheckService.maskSSN (Some "1234567890") = Some "1234567890".
Proof.
  split.
  - destruct (proj1 (proj2 maskSSN_shows_last_four) "123 45 6789")
      as (m & E & _); [reflexivity|].
    rewrite E. vm_compute in E. exact (eq_sym E).
  - apply (proj2 (proj2 maskSSN_shows_last_four)); [discriminate|].
    vm_compute. discriminate.
Defined.

(** X2.  The same for the employer identification number: masking is
    idempotent, a number with nine digits shows only its last four, and a
    text with another number of digits is returned unmasked. *)
Theorem maskEIN_shows_last_four :
  (forall ein,
      InsuranceVerificationService.maskEIN
        (InsuranceVerificationService.maskEIN ein)
      = InsuranceVerificationService.maskEIN ein)
  /\ (forall s,
         String.length (digitsOf s) = 9 ->
         exists m,
           InsuranceVerificationService.maskEIN (Some s) = Some m
           /\ String.length m = 11
           /\ digitsOf m = lastFour (digitsOf s)
           /\ String.length (digitsOf m) = 4)
  /\ (forall s,
         s <> "" -> String.length (digitsOf s) <> 9 ->
         InsuranceVerificationService.maskEIN (Some s) = Some s).
Proof.
  split; [|split].
  - intros [s|]; [|reflexivity]. unfold InsuranceVerificationService.maskEIN.
    destruct (String.eqb s "") eqn:E; [reflexivity|].
    destruct (Nat.eqb (String.length (digitsOf s)) 9) eqn:N.
    + destruct (masked_again "**-****" s) as [A B];
        [reflexivity|discriminate|].
      now rewrite A, B.
    + now rewrite E, N.
  - intros s H. unfold InsuranceVerificationService.maskEIN.
    destruct (String.eqb_spec s "") as [E|E]; [subst s; discriminate|].
    rewrite H. eexists. split; [reflexivity|].
    exact (masked_nine "**-****" s eq_refl H).
  - intros s Hne H. unfold InsuranceVerificationService.maskEIN.
    destruct (String.eqb_spec s "") as [E|E]; [congruence|].
    apply Nat.eqb_neq in H. now rewrite H.
Qed.

Lemma maskEIN_shows_last_four_witness :
  InsuranceVerificationService.maskEIN (Some "12-3456789")
  = Some "**-****6789"
  /\ InsuranceVerificationService.maskEIN (Some "12-345") = Some "12-345".
Proof.
  split.
  - destruct (proj1 (proj2 maskEIN_shows_last_four) "12-3456789")
      as (m & E & _); [reflexivity|].
    rewrite E. vm_compute in E. exact (eq_sym E).
  - apply (proj2 (proj2 maskEIN_shows_last_four)); [discriminate|].
    vm_compute. discriminate.
Defined.

(** ** Validation of the personal information *)

(** A text the SSN pattern accepts has nine digits, and its last four
    characters are the last four of them. *)
Lemma ssn_pattern_digits s :
  BackgroundCheckService.ssnRegexTest s = true ->
  String.length (digitsOf s) = 9 /\ lastFour (digitsOf s) = lastFour s.
Proof.
  unfold BackgroundCheckService.ssnRegexTest.
  intros H.
  repeat match type of H with
         | context [BackgroundCheckService.digitsThen _ ?t] =>
             is_var t; destruct t as [|? ?]; simpl in H;
             try discriminate
         | context [if isDigit ?c then _ else _] =>
             let E := fresh "E" in
             destruct (isDigit c) eqn:E; simpl in H; try discriminate
         | context [BackgroundCheckService.dashThen ?t] =>
             is_var t; destruct t as [|? ?]; simpl in H;
             try discriminate
         | context [if Ascii.eqb ?c ?d then _ else _] =>
             let E := fresh "E" in
             destruct (Ascii.eqb_spec c d) as [E|E];
             [subst c|]; simpl in H; try discriminate
         | context [match ?t with EmptyString => _ | String _ _ => _ end] =>
             is_var t; destruct t as [|? ?]; simpl in H;
             try discriminate
         end;
    simpl;
    repeat match goal with
           | E : isDigit _ = _ |- _ => rewrite E
           end;
    simpl; split; reflexivity.
Qed.

Lemma truthy_text (o : option string) :
  truthy o = true -> exists s, o = Some s /\ or_else o "" = s /\ s <> "".
Proof.
  destruct o as [s|]; simpl; [|discriminate].
  destruct (String.eqb_spec s "") as [E|E]; [discriminate|].
  intros _. exists s. auto.
Qed.

(** X3.  The validation of the personal information never answers false:
    it returns true or throws.  When it returns, the four required fields
    are present, the date of birth lies at least eighteen years of 365.25
    days back, and the social security number is one that [maskSSN] masks,
    showing its last four characters only. *)
Theorem validated_ssn_is_masked :
  forall (parse : string -> option Z) (today : Z) (info : PersonalInfo)
         (b : bool),
    BackgroundCheckService.validatePersonalInfo parse today info = Normal b ->
    b = true
    /\ truthy (firstName info) = true
    /\ truthy (lastName info) = true
    /\ (exists dob born,
           dateOfBirth info = Some dob /\ parse dob = Some born
           /\ (born + BackgroundCheckService.eighteenYears <= today)%Z)
    /\ (exists s,
           ssn info = Some s
           /\ BackgroundCheckService.maskSSN (ssn info)
              = Some ("***-**-" +:+ lastFour s)).
Proof.
  intros parse today info b.
  unfold BackgroundCheckService.validatePersonalInfo,
    BackgroundCheckService.missingFields.
  simpl.
  destruct (truthy (firstName info)) eqn:F1; simpl;
    destruct (truthy (lastName info)) eqn:F2; simpl;
    destruct (truthy (dateOfBirth info)) eqn:F3; simpl;
    destruct (truthy (ssn info)) eqn:F4; simpl;
    try discriminate.
  destruct (truthy_text _ F3) as (dob & Ed & Od & _).
  destruct (truthy_text _ F4) as (s & Es & Os & Ns).
  rewrite Od, Os.
  destruct (BackgroundCheckService.ssnRegexTest s) eqn:P; simpl;
    [|discriminate].
  destruct (parse dob) as [born|] eqn:B; [|discriminate].
  destruct (Z.ltb_spec (today - born) BackgroundCheckService.eighteenYears)
    as [L|L]; [discriminate|].
  intros H. injection H as H. subst b.
  split; [reflexivity|]. split; [reflexivity|]. split; [reflexivity|].
  split.
  - exists dob, born. repeat split; auto. lia.
  - exists s. split; [exact Es|].
    destruct (ssn_pattern_digits s P) as [N L4].
    rewrite Es. unfold BackgroundCheckService.maskSSN.
    destruct (String.eqb_spec s "") as [E|E]; [congruence|].
    rewrite N, L4. reflexivity.
Qed.

Lemma validated_ssn_is_masked_witness :
  BackgroundCheckService.maskSSN (ssn Sample.person) = Some "***-**-6789".
Proof.
  destruct (validated_ssn_is_masked
              (fun _ => Some 631152000000%Z) 1793577600000%Z
              Sample.person true eq_refl)
    as (_ & _ & _ & _ & s & Es & Em).
  rewrite Em. injection Es as <-. reflexivity.
Defined.

(** ** The summaries *)

Lemma analyse_step s entry :
  BackgroundCheckService.totalChecks (BackgroundCheckService.analyse s entry)
  = BackgroundCheckService.totalChecks s
  /\ BackgroundCheckService.completedChecks
       (BackgroundCheckService.analyse s entry)
     + BackgroundCheckService.failedChecks
         (BackgroundCheckService.analyse s entry)
     = S (BackgroundCheckService.completedChecks s
          + BackgroundCheckService.failedChecks s)
  /\ BackgroundCheckService.recommendations
       (BackgroundCheckService.analyse s entry)
     = BackgroundCheckService.recommendations s
  /\ ((BackgroundCheckService.riskLevel s = BackgroundCheckService.Low
       <-> BackgroundCheckService.flags s = []) ->
      (BackgroundCheckService.riskLevel
         (BackgroundCheckService.analyse s entry)
       = BackgroundCheckService.Low
       <-> BackgroundCheckService.flags
             (BackgroundCheckService.analyse s entry) = [])).
Proof.
  destruct entry as [ty check]. unfold BackgroundCheckService.analyse.
  destruct (is_completed (status check)); simpl;
    [|split; [reflexivity|split; [lia|split; [reflexivity|auto]]]].
  destruct (String.eqb ty "criminal"
            && BackgroundCheckService.reportsCriminalHistory check);
    destruct (String.eqb ty "driving"
              && BackgroundCheckService.manyViolations check);
    destruct (String.eqb ty "employment"
              && BackgroundCheckService.notVerified check);
    simpl;
    (split; [reflexivity|split; [lia|split; [reflexivity|]]]);
    auto;
    intros _; split; intros H; try discriminate H;
    apply app_eq_nil in H as [_ H]; discriminate H.
Qed.

Lemma analyse_fold entries :
  forall s0,
    let s := fold_left BackgroundCheckService.analyse entries s0 in
    BackgroundCheckService.totalChecks s
    = BackgroundCheckService.totalChecks s0
    /\ BackgroundCheckService.completedChecks s
       + BackgroundCheckService.failedChecks s
       = BackgroundCheckService.completedChecks s0
         + BackgroundCheckService.failedChecks s0 + length entries
    /\ BackgroundCheckService.recommendations s
       = BackgroundCheckService.recommendations s0
    /\ ((BackgroundCheckService.riskLevel s0 = BackgroundCheckService.Low
         <-> BackgroundCheckService.flags s0 = []) ->
        (BackgroundCheckService.riskLevel s = BackgroundCheckService.Low
         <-> BackgroundCheckService.flags s = [])).
Proof.
  induction entries as [|entry rest IH]; intros s0; simpl.
  - split; [reflexivity|split; [lia|split; [reflexivity|auto]]].
  - destruct (analyse_step s0 entry) as (A1 & A2 & A3 & A4).
    destruct (IH (BackgroundCheckService.analyse s0 entry))
      as (B1 & B2 & B3 & B4).
    split; [congruence|]. split; [lia|]. split; [congruence|].
    intros H. apply B4, A4, H.
Qed.

(** X4.  In the summary of any set of checks the completed and the failed
    checks add up to the total, the risk level is low exactly when no flag
    is raised, and the recommendation is the standard onboarding exactly
    when the risk level is low. *)
Theorem background_summary_is_consistent :
  forall checks : Obj.t (Outcome BackgroundCheckService.CheckResult),
    let s := BackgroundCheckService.generateSummary checks in
    BackgroundCheckService.totalChecks s = length checks
    /\ BackgroundCheckService.completedChecks s
       + BackgroundCheckService.failedChecks s
       = BackgroundCheckService.totalChecks s
    /\ (BackgroundCheckService.riskLevel s = BackgroundCheckService.Low
        <-> BackgroundCheckService.flags s = [])
    /\ (BackgroundCheckService.recommendations s
        = ["Standard onboarding process"]
        <-> BackgroundCheckService.riskLevel s = BackgroundCheckService.Low).
Proof.
  intros checks.
  pose proof (analyse_fold (Obj.entries checks)
                (BackgroundCheckService.mkSummary (length (Obj.keys checks))
                   0 0 BackgroundCheckService.Low [] [])) as A.
  unfold BackgroundCheckService.generateSummary,
    BackgroundCheckService.recommend.
  cbv zeta in *.
  set (f := fold_left BackgroundCheckService.analyse _ _) in *.
  destruct A as (A1 & A2 & A3 & A4). simpl in A1, A2, A3, A4. simpl.
  rewrite A1, A3.
  unfold Obj.keys, Obj.entries in *. rewrite ?length_map in *.
  split; [reflexivity|]. split; [exact A2|].
  split; [apply A4; tauto|].
  destruct (BackgroundCheckService.riskLevel f); simpl;
    split; intros; try discriminate; reflexivity.
Qed.

Lemma analyse_risk s ty check :
  BackgroundCheckService.riskLevel
    (BackgroundCheckService.analyse s (ty, check))
  = if is_completed (status check)
       && ((String.eqb ty "employment"
            && BackgroundCheckService.notVerified check)
           || (negb (String.eqb ty "employment"
                     && BackgroundCheckService.notVerified check)
               && String.eqb ty "driving"
               && BackgroundCheckService.manyViolations check))
    then BackgroundCheckService.Medium
    else if is_completed (status check)
            && String.eqb ty "criminal"
            && BackgroundCheckService.reportsCriminalHistory check
    then BackgroundCheckService.High
    else BackgroundCheckService.riskLevel s.
Proof.
  unfold BackgroundCheckService.analyse.
  destruct (is_completed (status check)); [|reflexivity].
  destruct (String.eqb ty "criminal"),
    (BackgroundCheckService.reportsCriminalHistory check),
    (String.eqb ty "driving"),
    (BackgroundCheckService.manyViolations check),
    (String.eqb ty "employment"),
    (BackgroundCheckService.notVerified check); reflexivity.
Qed.

(** X5.  The risk level of a background-check run, whatever the providers
    answer: it is medium as soon as the completed driving check shows more
    than three violations or the completed employment check is not
    verified, whether or not a criminal history was found; it is high only
    when a criminal history is the sole finding; it is low when there is
    no finding. *)
Theorem background_run_risk_level :
  forall (apis : BackgroundCheckService.Apis) (d : DriverData) (w : World),
  exists r w' criminal driving employment,
    BackgroundCheckService.performComprehensiveBackgroundCheck apis d w
    = (Normal r, w')
    /\ Obj.get "criminal" (BackgroundCheckService.checks r) = Some criminal
    /\ Obj.get "driving" (BackgroundCheckService.checks r) = Some driving
    /\ Obj.get "employment" (BackgroundCheckService.checks r)
       = Some employment
    /\ BackgroundCheckService.riskLevel
         (BackgroundCheckService.run_summary r)
       = if (is_completed (status driving)
             && BackgroundCheckService.manyViolations driving)
            || (is_completed (status employment)
                && BackgroundCheckService.notVerified employment)
         then BackgroundCheckService.Medium
         else if is_completed (status criminal)
                 && BackgroundCheckService.reportsCriminalHistory criminal
         then BackgroundCheckService.High
         else BackgroundCheckService.Low.
Proof.
  intros apis d w.
  destruct (background_run_eq apis d w) as (s & c & w' & E & _).
  cbv zeta in E.
  rewrite (processResults_by_tag _ _
             (proj1 (checkPromises_shape apis d))) in E.
  unfold BackgroundCheckService.checkPromises in E. rewrite !wrap_eq in E.
  unfold recordByTag in E.
  destruct (BackgroundCheckService.enable_credit_check apis);
    cbn [fold_left app type] in E;
    match type of E with
    | context [Obj.set "criminal" ?x Obj.empty] => set (o := x) in E
    end;
    match type of E with
    | context [Obj.set "driving" ?x _] => set (o0 := x) in E
    end;
    match type of E with
    | context [Obj.set "employment" ?x _] => set (o1 := x) in E
    end.
  - match type of E with
    | context [Obj.set "credit" ?x _] => set (o2 := x) in E
    end.
    eexists. exists w', o, o0, o1. split; [exact E|].
    split; [reflexivity|]. split; [reflexivity|]. split; [reflexivity|].
    cbn [BackgroundCheckService.run_summary].
    change (Obj.set "credit" o2
              (Obj.set "employment" o1
                 (Obj.set "driving" o0 (Obj.set "criminal" o Obj.empty))))
      with [("criminal", o); ("driving", o0); ("employment", o1);
            ("credit", o2)].
    unfold BackgroundCheckService.generateSummary,
      BackgroundCheckService.recommend.
    cbn [BackgroundCheckService.riskLevel Obj.entries fold_left].
    rewrite !analyse_risk.
    cbn [BackgroundCheckService.riskLevel String.eqb Ascii.eqb Bool.eqb
         andb orb negb].
    destruct (is_completed (status o)),
      (BackgroundCheckService.reportsCriminalHistory o),
      (is_completed (status o0)),
      (BackgroundCheckService.manyViolations o0),
      (is_completed (status o1)),
      (BackgroundCheckService.notVerified o1),
      (is_completed (status o2)); reflexivity.
  - eexists. exists w', o, o0, o1. split; [exact E|].
    split; [reflexivity|]. split; [reflexivity|]. split; [reflexivity|].
    cbn [BackgroundCheckService.run_summary].
    change (Obj.set "employment" o1
              (Obj.set "driving" o0 (Obj.set "criminal" o Obj.empty)))
      with [("criminal", o); ("driving", o0); ("employment", o1)].
    unfold BackgroundCheckService.generateSummary,
      BackgroundCheckService.recommend.
    cbn [BackgroundCheckService.riskLevel Obj.entries fold_left].
    rewrite !analyse_risk.
    cbn [BackgroundCheckService.riskLevel String.eqb Ascii.eqb Bool.eqb
         andb orb negb].
    destruct (is_completed (status o)),
      (BackgroundCheckService.reportsCriminalHistory o),
      (is_completed (status o0)),
      (BackgroundCheckService.manyViolations o0),
      (is_completed (status o1)),
      (BackgroundCheckService.notVerified o1); reflexivity.
Qed.

Lemma inspect_counts entries :
  forall s0,
    InsuranceVerificationService.scan_completed
      (fold_left InsuranceVerificationService.inspect entries s0)
    + InsuranceVerificationService.scan_failed
        (fold_left InsuranceVerificationService.inspect entries s0)
    = InsuranceVerificationService.scan_completed s0
      + InsuranceVerificationService.scan_failed s0 + length entries.
Proof.
  induction entries as [|[ty v] rest IH]; intros s0; simpl; [lia|].
  rewrite IH. destruct (is_completed (status v)); simpl; lia.
Qed.

Lemma summary_fields vs :
  let s := InsuranceVerificationService.generateVerificationSummary vs in
  InsuranceVerificationService.totalVerifications s = length vs
  /\ InsuranceVerificationService.completedVerifications s
     = InsuranceVerificationService.scan_completed
         (InsuranceVerificationService.scan vs)
  /\ InsuranceVerificationService.failedVerifications s
     = InsuranceVerificationService.scan_failed
         (InsuranceVerificationService.scan vs)
  /\ InsuranceVerificationService.recommendations s
     = InsuranceVerificationService.recommendationsFor
         (InsuranceVerificationService.coverageStatus s).
Proof.
  unfold InsuranceVerificationService.generateVerificationSummary.
  destruct (InsuranceVerificationService.classify _); simpl.
  unfold Obj.keys. rewrite length_map. auto.
Qed.

(** X6.  In the summary of any set of verifications the completed and the
    failed verifications add up to the total, and no flag is raised
    exactly when the coverage is adequate. *)
Theorem insurance_summary_is_consistent :
  forall vs : Obj.t (Outcome InsuranceVerificationService.VerificationResult),
    let s := InsuranceVerificationService.generateVerificationSummary vs in
    InsuranceVerificationService.totalVerifications s = length vs
    /\ InsuranceVerificationService.completedVerifications s
       + InsuranceVerificationService.failedVerifications s
       = InsuranceVerificationService.totalVerifications s
    /\ (InsuranceVerificationService.flags s = []
        <-> InsuranceVerificationService.coverageStatus s
            = InsuranceVerificationService.Adequate).
Proof.
  intros vs s. subst s.
  destruct (summary_fields vs) as (T & C & F & _).
  destruct (summary_classified vs) as (Sc & Sf).
  rewrite T, C, F, Sc, Sf.
  split; [reflexivity|]. split.
  - unfold InsuranceVerificationService.scan, Obj.entries.
    rewrite inspect_counts. simpl. lia.
  - unfold InsuranceVerificationService.classify.
    destruct (InsuranceVerificationService.hasActiveInsurance _),
      (InsuranceVerificationService.hasExpiredInsurance _),
      (InsuranceVerificationService.hasInsufficientCoverage _);
      simpl; split; intros; try discriminate; reflexivity.
Qed.

Lemma hit_needs_policy p vs :
  existsb (hit p)
    (List.filter (fun entry => String.eqb (fst entry) "policy") vs)
  = existsb (hit p) vs.
Proof.
  induction vs as [|[ty v] rest IH]; simpl; [reflexivity|].
  unfold hit at 2. simpl.
  destruct (String.eqb ty "policy") eqn:E; simpl.
  - unfold hit at 1. simpl. rewrite E, IH. reflexivity.
  - rewrite IH. now rewrite andb_false_r.
Qed.

Lemma classified_by_hits vs :
  InsuranceVerificationService.classify (InsuranceVerificationService.scan vs)
  = InsuranceVerificationService.classify
      (InsuranceVerificationService.mkScan 0 0
         (existsb (hit (InsuranceVerificationService.policyStatusIs "active"))
                  vs)
         (existsb (hit (InsuranceVerificationService.policyStatusIs "expired"))
                  vs)
         (existsb (hit InsuranceVerificationService.liabilityUnderFloor) vs)).
Proof.
  unfold InsuranceVerificationService.classify,
    InsuranceVerificationService.scan, Obj.entries.
  rewrite fold_active, fold_expired, fold_insufficient. reflexivity.
Qed.

(** X7.  The coverage status, the flags and the recommendations of the
    insurance summary depend on the [policy] entry alone: the results of
    the driver search, of the vehicle check and of the commercial check
    never change them. *)
Theorem coverage_depends_on_policy_only :
  forall vs : Obj.t (Outcome InsuranceVerificationService.VerificationResult),
    let policyOnly :=
      List.filter (fun entry => String.eqb (fst entry) "policy") vs in
    InsuranceVerificationService.coverageStatus
      (InsuranceVerificationService.generateVerificationSummary vs)
    = InsuranceVerificationService.coverageStatus
        (InsuranceVerificationService.generateVerificationSummary policyOnly)
    /\ InsuranceVerificationService.flags
         (InsuranceVerificationService.generateVerificationSummary vs)
       = InsuranceVerificationService.flags
           (InsuranceVerificationService.generateVerificationSummary
              policyOnly)
    /\ InsuranceVerificationService.recommendations
         (InsuranceVerificationService.generateVerificationSummary vs)
       = InsuranceVerificationService.recommendations
           (InsuranceVerificationService.generateVerificationSummary
              policyOnly).
Proof.
  intros vs policyOnly.
  destruct (summary_fields vs) as (_ & _ & _ & R1).
  destruct (summary_fields policyOnly) as (_ & _ & _ & R2).
  destruct (summary_classified vs) as (C1 & F1).
  destruct (summary_classified policyOnly) as (C2 & F2).
  cbv zeta in R1, R2. rewrite R1, R2, C1, C2, F1, F2.
  rewrite (classified_by_hits vs), (classified_by_hits policyOnly).
  subst policyOnly. rewrite !hit_needs_policy. auto.
Qed.

Lemma no_policy_no_hit p vs :
  ~ In "policy" (Obj.keys vs) -> existsb (hit p) vs = false.
Proof.
  unfold Obj.keys. induction vs as [|[ty v] rest IH]; simpl; intros H;
    [reflexivity|].
  rewrite IH by tauto. unfold hit. simpl.
  destruct (String.eqb_spec ty "policy") as [E|E]; [tauto|].
  now rewrite andb_false_r.
Qed.

(** X8.  For a subject without a policy number the insurance verification,
    when it returns, reports the coverage as unknown with the flag "Unable
    to verify insurance status", whatever the providers answer: what the
    driver search finds does not count. *)
Theorem no_policy_number_is_unknown :
  forall (apis : InsuranceVerificationService.Apis) (d : DriverData)
         (w : World),
    InsuranceVerificationService.hasPolicyNumber d = false ->
    match fst (InsuranceVerificationService.performComprehensiveInsuranceVerification
                 apis d w) with
    | Normal r =>
        InsuranceVerificationService.coverageStatus
          (InsuranceVerificationService.run_summary r)
        = InsuranceVerificationService.Unknown
        /\ InsuranceVerificationService.flags
             (InsuranceVerificationService.run_summary r)
           = ["Unable to verify insurance status"]
        /\ InsuranceVerificationService.recommendations
             (InsuranceVerificationService.run_summary r)
           = ["Manual verification required";
              "Provide additional documentation"]
    | Throw _ => personalInfo d = None \/ driverInfo d = None
    end.
Proof.
  intros apis d w Hno.
  pose proof (insurance_run_eq apis d w) as H.
  pose proof (verificationPromises_shape apis d) as S.
  destruct (InsuranceVerificationService.verificationPromises apis d)
    as [promises|m].
  - destruct H as (s & c & w' & E & _). rewrite E.
    cbv zeta. cbn [fst InsuranceVerificationService.run_summary].
    destruct S as (_ & _ & F & T).
    set (vs := processResults _ promises).
    assert (~ In "policy" (Obj.keys vs)) as N.
    { subst vs. rewrite (processResults_by_tag _ _ F), keys_recordByTag, T,
        Hno.
      destruct (InsuranceVerificationService.hasVin d),
        (InsuranceVerificationService.hasBusinessName d); simpl;
        intuition discriminate. }
    destruct (summary_fields vs) as (_ & _ & _ & R).
    destruct (summary_classified vs) as (C1 & F1).
    cbv zeta in R. rewrite R, C1, F1, classified_by_hits.
    rewrite !no_policy_no_hit by exact N.
    repeat split; reflexivity.
  - destruct H as (w' & E & _). rewrite E. exact S.
Qed.

Lemma no_policy_number_is_unknown_witness :
  match fst (InsuranceVerificationService.performComprehensiveInsuranceVerification
               Sample.insuranceApis Sample.uninsured Sample.world) with
  | Normal r =>
      InsuranceVerificationService.coverageStatus
        (InsuranceVerificationService.run_summary r)
      = InsuranceVerificationService.Unknown
  | Throw _ => False
  end.
Proof.
  pose proof (no_policy_number_is_unknown Sample.insuranceApis
                Sample.uninsured Sample.world eq_refl) as H.
  destruct (fst (InsuranceVerificationService.performComprehensiveInsuranceVerification
                   Sample.insuranceApis Sample.uninsured Sample.world))
    eqn:E.
  - exact (proj1 H).
  - vm_compute in E. discriminate E.
Defined.

(** ** The complete onboarding, step by step *)

Lemma trace_now w : trace (snd (now w)) = trace w.
Proof. reflexivity. Qed.

Lemma trace_map {A B} (m : M A) (f : A -> B) w :
  trace (snd ((do r <- m; ret (f r)) w)) = trace (snd (m w)).
Proof. unfold bind, ret. destruct (m w) as [[a|e] w1]; reflexivity. Qed.

Lemma background_trace apis d w :
  trace (snd (BackgroundCheckService.performComprehensiveBackgroundCheck
                apis d w))
  = trace w ++ ["backgroundCheck"].
Proof. reflexivity. Qed.

Lemma insurance_trace apis d w :
  trace (snd (InsuranceVerificationService.performComprehensiveInsuranceVerification
                apis d w))
  = trace w ++ ["insuranceVerification"].
Proof.
  unfold InsuranceVerificationService.performComprehensiveInsuranceVerification,
    bind, enter, now, ret, lift, throw; simpl.
  destruct (InsuranceVerificationService.verificationPromises apis d);
    reflexivity.
Qed.

Lemma payment_trace env d w :
  trace (snd (IntegrationService.processOnboardingPayment env d w))
  = trace w ++ ["payment"].
Proof.
  unfold IntegrationService.processOnboardingPayment, bind, enter, lift,
    ret, throw; simpl.
  destruct (IntegrationService.getCustomer _ _);
    [|destruct (IntegrationService.createCustomer _ _)]; simpl;
    try destruct (IntegrationService.createOnboardingPaymentIntent _ _ _);
    reflexivity.
Qed.

Lemma documents_trace env d w :
  trace (snd (IntegrationService.storeDriverDocuments env d w))
  = trace w ++ ["documentStorage"].
Proof. apply documents_frame. Qed.

Lemma updateOnboardingStatus_trace env driver r w :
  trace (snd (IntegrationService.updateOnboardingStatus env driver r w))
  = trace w.
Proof.
  unfold IntegrationService.updateOnboardingStatus,
    IntegrationService.transaction, bind, ret,
    IntegrationService.get_world, IntegrationService.set_tables.
  destruct (db_fault w); [reflexivity|].
  match goal with
  | |- context [IntegrationService.statement ?t ?c ?u w] =>
      destruct (statement_cases t c u w) as [E|[e E]]; rewrite E; clear E;
      cbv beta iota; [|reflexivity]
  end.
  match goal with
  | |- context [IntegrationService.statement ?t ?c ?u ?w0] =>
      destruct (statement_cases t c u w0) as [E|[e E]]; rewrite E; clear E;
      cbv beta iota; reflexivity
  end.
Qed.

(** The complete onboarding always returns; its five steps are recorded in
    order, each for the way its operation finished, and the four adapters
    have been entered once each, in order. *)
Lemma onboarding_outcomes env d w :
  exists c1 c2 c3 c4 c5 t1 t2 t3 t4 t5 finished w',
    let steps := fiveSteps c1 c2 c3 c4 c5 t1 t2 t3 t4 t5 in
    IntegrationService.performCompleteOnboarding env d w =
    (Normal
       (IntegrationService.mkOnboardingResult (id d) (clock w) steps
          (deriveOverallStatus steps)
          (Some (IntegrationService.generateOnboardingSummary steps))
          (IntegrationService.generateOnboardingRecommendations steps)
          (Some finished)),
     w')
    /\ trace w' =
       trace w ++ ["backgroundCheck"; "insuranceVerification"; "payment";
                   "documentStorage"].
Proof.
  unfold IntegrationService.performCompleteOnboarding.
  unfold bind at 1.
  change (now w) with (Normal (clock w), snd (now w)).
  cbv beta iota.
  set (w0 := snd (now w)).
  assert (trace w0 = trace w) as H0 by reflexivity.
  unfold bind at 1. rewrite attempt_eq.
  match goal with
  | |- context [snd (now (snd (?op w0)))] =>
      set (w1 := snd (now (snd (op w0))));
      assert (trace w1 = trace w ++ ["backgroundCheck"]) as H1
        by (subst w1; rewrite trace_now, trace_map, background_trace, H0;
            reflexivity)
  end.
  cbv beta iota.
  unfold bind at 1. rewrite attempt_eq.
  match goal with
  | |- context [snd (now (snd (?op w1)))] =>
      set (w2 := snd (now (snd (op w1))));
      assert (trace w2 =
              (trace w ++ ["backgroundCheck"]) ++ ["insuranceVerification"])
        as H2
        by (subst w2; rewrite trace_now, trace_map, insurance_trace, H1;
            reflexivity)
  end.
  cbv beta iota.
  unfold bind at 1. rewrite attempt_eq.
  match goal with
  | |- context [snd (now (snd (?op w2)))] =>
      set (w3 := snd (now (snd (op w2))));
      assert (trace w3 =
              ((trace w ++ ["backgroundCheck"]) ++ ["insuranceVerification"])
              ++ ["payment"]) as H3
        by (subst w3; rewrite trace_now, trace_map, payment_trace, H2;
            reflexivity)
  end.
  cbv beta iota.
  unfold bind at 1. rewrite attempt_eq.
  match goal with
  | |- context [snd (now (snd (?op w3)))] =>
      set (w4 := snd (now (snd (op w3))));
      assert (trace w4 =
              (((trace w ++ ["backgroundCheck"])
                ++ ["insuranceVerification"]) ++ ["payment"])
              ++ ["documentStorage"]) as H4
        by (subst w4; rewrite trace_now, trace_map, documents_trace, H3;
            reflexivity)
  end.
  cbv beta iota.
  unfold bind at 1. rewrite attempt_eq.
  match goal with
  | |- context [snd (now (snd (?op w4)))] =>
      set (w5 := snd (now (snd (op w4))));
      assert (trace w5 = trace w4) as H5
        by (subst w5; rewrite trace_now, trace_map;
            apply updateOnboardingStatus_trace)
  end.
  cbv beta iota.
  do 12 eexists.
  split; [reflexivity|].
  change (trace w5 =
          trace w ++ ["backgroundCheck"; "insuranceVerification"; "payment";
                      "documentStorage"]).
  rewrite H5, H4. rewrite <- !app_assoc. reflexivity.
Qed.

Lemma recorded_status c t :
  status (recorded c t) = Completed \/ status (recorded c t) = Failed.
Proof. destruct c; [left|right]; reflexivity. Qed.

(** X9.  A complete onboarding never stops at a failing step: whatever
    fails, it enters the four step adapters once each, in the order of the
    steps, and records exactly the five steps of the workflow, each as
    completed or as failed. *)
Theorem onboarding_runs_every_step :
  forall (env : IntegrationService.Env) (d : DriverData) (w : World),
  exists r w',
    IntegrationService.performCompleteOnboarding env d w = (Normal r, w')
    /\ Obj.keys (IntegrationService.steps r) = onboardingSteps
    /\ Forall (fun step => status step = Completed \/ status step = Failed)
              (Obj.values (IntegrationService.steps r))
    /\ trace w' = trace w ++ retryableSteps.
Proof.
  intros env d w.
  destruct (onboarding_outcomes env d w)
    as (c1 & c2 & c3 & c4 & c5 & t1 & t2 & t3 & t4 & t5 & f & w' & E & T).
  eexists. exists w'. split; [exact E|].
  split; [reflexivity|]. split; [|exact T].
  unfold fiveSteps, Obj.values, map, snd.
  repeat (apply List.Forall_cons; [apply recorded_status|]).
  apply List.Forall_nil.
Qed.

(** X10.  The summary of a complete onboarding always counts five steps,
    none of them pending, so the estimated completion is always
    "Immediate".  Its risk level is low exactly when the run is completed
    and high exactly when three or more steps failed. *)
Theorem onboarding_summary_of_a_run :
  forall (env : IntegrationService.Env) (d : DriverData) (w : World),
  exists r w' s,
    IntegrationService.performCompleteOnboarding env d w = (Normal r, w')
    /\ IntegrationService.summary r = Some s
    /\ IntegrationService.totalSteps s = 5
    /\ IntegrationService.pendingSteps s = 0
    /\ IntegrationService.completedSteps s
       + IntegrationService.failedSteps s = 5
    /\ IntegrationService.completedSteps s
       = completedCount (IntegrationService.steps r)
    /\ IntegrationService.estimatedCompletion s = "Immediate"
    /\ (IntegrationService.riskLevel s = BackgroundCheckService.Low
        <-> IntegrationService.overallStatus r = Completed)
    /\ (IntegrationService.riskLevel s = BackgroundCheckService.High
        <-> 3 <= IntegrationService.failedSteps s).
Proof.
  intros env d w.
  destruct (onboarding_outcomes env d w)
    as (c1 & c2 & c3 & c4 & c5 & t1 & t2 & t3 & t4 & t5 & f & w' & E & _).
  eexists. exists w'. eexists. split; [exact E|].
  split; [reflexivity|].
  destruct c1, c2, c3, c4, c5; cbn;
    repeat split; intros; try reflexivity; try discriminate; try lia.
Qed.

(** X11.  The recommendations of a complete onboarding: they are exactly
    the two success messages when the run is completed, and only then;
    the advice for a step is given exactly when that step failed, and a
    failed database update brings no advice of its own; the closing advice
    is "mostly complete" from three completed steps on and "requires
    significant attention" below. *)
Theorem onboarding_recommendations_of_a_run :
  forall (env : IntegrationService.Env) (d : DriverData) (w : World),
  exists r w',
    IntegrationService.performCompleteOnboarding env d w = (Normal r, w')
    /\ let recs := IntegrationService.recommendations r in
       let steps := IntegrationService.steps r in
       (IntegrationService.overallStatus r = Completed
        <-> recs = ["Onboarding completed successfully";
                    "Driver is ready for activation"])
       /\ (In "Review background check requirements" recs
           <-> IntegrationService.step_failed "backgroundCheck" steps = true)
       /\ (In "Verify insurance policy information" recs
           <-> IntegrationService.step_failed "insuranceVerification" steps
               = true)
       /\ (In "Verify payment method information" recs
           <-> IntegrationService.step_failed "payment" steps = true)
       /\ (In "Ensure all required documents are provided" recs
           <-> IntegrationService.step_failed "documentStorage" steps = true)
       /\ (In "Onboarding is mostly complete" recs
           <-> 3 <= completedCount steps < 5)
       /\ (In "Onboarding requires significant attention" recs
           <-> completedCount steps <= 2).
Proof.
  intros env d w.
  destruct (onboarding_outcomes env d w)
    as (c1 & c2 & c3 & c4 & c5 & t1 & t2 & t3 & t4 & t5 & f & w' & E & _).
  eexists. exists w'. split; [exact E|].
  cbv zeta. rewrite !in_strings.
  destruct c1, c2, c3, c4, c5; cbn;
    repeat split; intros; try reflexivity; try discriminate; lia.
Qed.

(** ** The stored records *)

(** X12.  [updateOnboardingStatus] is all or nothing.  When it throws,
    also after the update of the driver's profile has been made, both
    tables are as they were before the call; when it returns, exactly one
    record has been added, for that driver ([NULL] for a driver id that is
    [null]), with the identifier the call reports, and no profile row has
    been added or removed. *)
Theorem updateOnboardingStatus_all_or_nothing :
  forall (env : IntegrationService.Env) (driver : option string)
         (r : IntegrationService.OnboardingResult) (w : World),
    match IntegrationService.updateOnboardingStatus env driver r w with
    | (Throw _, w') =>
        driver_profiles w' = driver_profiles w
        /\ onboarding_records w' = onboarding_records w
    | (Normal stored, w') =>
        (exists row : Row,
            onboarding_records w' = onboarding_records w ++ [row]
            /\ row !! "driver_id"
               = Some (IntegrationService.text_cell driver)
            /\ IntegrationService.onboardingRecordId stored = row !! "id")
        /\ IntegrationService.updated stored = true
        /\ length (driver_profiles w') = length (driver_profiles w)
    end.
Proof.
  intros env driver r w.
  unfold IntegrationService.updateOnboardingStatus,
    IntegrationService.transaction, bind, ret,
    IntegrationService.get_world, IntegrationService.set_tables.
  destruct (db_fault w); [split; reflexivity|].
  match goal with
  | |- context [IntegrationService.statement ?t ?c ?u w] =>
      destruct (statement_cases t c u w) as [E|[e E]]; rewrite E; clear E;
      cbv beta iota; [|split; reflexivity]
  end.
  match goal with
  | |- context [IntegrationService.statement ?t ?c ?u ?w0] =>
      destruct (statement_cases t c u w0) as [E|[e E]]; rewrite E; clear E;
      cbv beta iota; [|split; reflexivity]
  end.
  split; [|split; [reflexivity|]].
  - eexists. split; [reflexivity|]. split; [|reflexivity].
    simplify_map_eq. reflexivity.
  - cbn [driver_profiles].
    unfold IntegrationService.update_where_param,
      IntegrationService.update_where.
    destruct driver; [apply length_map|reflexivity].
Qed.

Lemma get_set_other {V} (k k' : string) (v : V) (o : Obj.t V) :
  k <> k' -> Obj.get k (Obj.set k' v o) = Obj.get k o.
Proof.
  intros Hne. induction o as [|[k0 v0] rest IH]; simpl.
  - destruct (String.eqb_spec k' k); [congruence|reflexivity].
  - destruct (String.eqb_spec k0 k') as [E|E]; simpl.
    + subst k0. destruct (String.eqb_spec k' k); [congruence|reflexivity].
    + now rewrite IH.
Qed.

Lemma get_present {V} (k : string) (o : Obj.t V) :
  In k (Obj.keys o) -> exists v, Obj.get k o = Some v.
Proof.
  unfold Obj.keys. induction o as [|[k0 v0] rest IH]; simpl; [tauto|].
  intros [E|H].
  - subst k0. rewrite String.eqb_refl. eauto.
  - destruct (String.eqb k0 k); eauto.
Qed.

Lemma databaseStep_row env d started steps4 w4 :
  match databaseStep env d started steps4 w4 with
  | (Normal _, w5) =>
      exists row : Row,
        onboarding_records w5 = onboarding_records w4 ++ [row]
        /\ row !! "driver_id" = Some (IntegrationService.text_cell (id d))
        /\ row !! "started_at" = Some (Timestamp started)
        /\ Forall (fun name =>
                     row !! recordColumn name
                     = Some (IntegrationService.status_or_pending
                               name steps4))
                  retryableSteps
  | (Throw _, w5) => True
  end.
Proof.
  unfold databaseStep, IntegrationService.updateOnboardingStatus,
    IntegrationService.transaction, bind, ret,
    IntegrationService.get_world, IntegrationService.set_tables.
  cbv beta iota zeta delta
    [IntegrationService.steps IntegrationService.overallStatus
     IntegrationService.run_completedAt IntegrationService.startedAt
     IntegrationService.summary IntegrationService.recommendations].
  destruct (db_fault w4); [exact I|].
  match goal with
  | |- context [IntegrationService.statement ?t ?c ?u w4] =>
      destruct (statement_cases t c u w4) as [E|[e E]]; rewrite E; clear E;
      cbv beta iota; [|exact I]
  end.
  match goal with
  | |- context [IntegrationService.statement ?t ?c ?u ?w] =>
      destruct (statement_cases t c u w) as [E|[e E]]; rewrite E; clear E;
      cbv beta iota; [|exact I]
  end.
  eexists. split; [reflexivity|].
  split; [simplify_map_eq; reflexivity|].
  split; [simplify_map_eq; reflexivity|].
  unfold retryableSteps.
  repeat (apply List.Forall_cons;
          [change (recordColumn "backgroundCheck")
             with "background_check_status";
           change (recordColumn "insuranceVerification")
             with "insurance_status";
           change (recordColumn "payment") with "payment_status";
           change (recordColumn "documentStorage") with "document_status";
           simplify_map_eq; reflexivity|]).
  apply List.Forall_nil.
Qed.

(** X13.  The record a complete onboarding stores agrees with what it
    returns on the first four steps: when the database step completes, the
    added row carries the driver ([NULL] for a subject whose id is
    [null]), the start time of the run and, for each of the four steps,
    the status the returned result gives that step. *)
Theorem stored_steps_match_outcome :
  forall (env : IntegrationService.Env) (d : DriverData) (w : World),
  exists r w',
    IntegrationService.performCompleteOnboarding env d w = (Normal r, w')
    /\ ((IntegrationService.step_failed "databaseUpdate"
           (IntegrationService.steps r) = true
         /\ onboarding_records w' = onboarding_records w)
        \/ (IntegrationService.step_failed "databaseUpdate"
              (IntegrationService.steps r) = false
            /\ exists row : Row,
                onboarding_records w' = onboarding_records w ++ [row]
                /\ row !! "driver_id" = Some (IntegrationService.text_cell (id d))
                /\ row !! "started_at"
                   = Some (Timestamp (IntegrationService.startedAt r))
                /\ Forall
                     (fun name =>
                        exists step,
                          Obj.get name (IntegrationService.steps r)
                          = Some step
                          /\ row !! recordColumn name
                             = Some (Text (status_name (status step))))
                     retryableSteps)).
Proof.
  intros env d w.
  destruct (onboarding_run env d w)
    as (started & steps4 & w4 & w' & (_ & T & _) & K & R & E).
  eexists. exists w'. split; [exact E|].
  cbn [IntegrationService.steps IntegrationService.startedAt].
  unfold IntegrationService.step_failed. rewrite get_set_same.
  assert (Obj.get "databaseUpdate" steps4 = None) as G.
  { apply get_absent. rewrite K. simpl. intuition discriminate. }
  pose proof (databaseStep_effect env d started steps4 w4 G) as D0.
  pose proof (databaseStep_row env d started steps4 w4) as D.
  rewrite R.
  destruct (databaseStep env d started steps4 w4) as [[r5|e5] w5]; simpl.
  - right. split; [reflexivity|].
    destruct D as (row & D1 & D2 & D3 & D4).
    exists row. rewrite D1, T. repeat split; auto.
    rewrite List.Forall_forall in D4. apply List.Forall_forall.
    intros name Hin. specialize (D4 name Hin).
    assert (name <> "databaseUpdate") as Ne
      by (intros ->; simpl in Hin; intuition discriminate).
    assert (In name (Obj.keys steps4)) as Hk
      by (rewrite K; exact Hin).
    destruct (get_present name steps4 Hk) as (step & Gs).
    exists step. rewrite get_set_other by exact Ne. split; [exact Gs|].
    unfold IntegrationService.status_or_pending in D4.
    now rewrite Gs in D4.
  - left. split; [reflexivity|]. now rewrite D0, T.
Qed.

Lemma before_irreflexive (a : Row) : IntegrationService.before a a = false.
Proof.
  unfold IntegrationService.before.
  destruct (a !! "created_at") as [[| | |]|]; try reflexivity.
  apply Nat.ltb_irrefl.
Qed.

Lemma before_transitive (a b c : Row) :
  IntegrationService.before a b = true ->
  IntegrationService.before b c = true ->
  IntegrationService.before a c = true.
Proof.
  unfold IntegrationService.before.
  destruct (a !! "created_at") as [[| | |]|],
    (b !! "created_at") as [[| | |]|],
    (c !! "created_at") as [[| | |]|];
    intros H1 H2; try discriminate; try reflexivity.
  apply Nat.ltb_lt in H1, H2. apply Nat.ltb_lt. lia.
Qed.

Lemma before_negatively_transitive (a b c : Row) :
  IntegrationService.before a b = false ->
  IntegrationService.before b c = false ->
  IntegrationService.before a c = false.
Proof.
  unfold IntegrationService.before.
  destruct (a !! "created_at") as [[| | |]|],
    (b !! "created_at") as [[| | |]|],
    (c !! "created_at") as [[| | |]|];
    intros H1 H2; try discriminate; try reflexivity.
  apply Nat.ltb_ge in H1, H2. apply Nat.ltb_ge. lia.
Qed.

Lemma first_row_fold (rows : list Row) :
  forall best : Row,
  exists chosen,
    fold_left (fun best row =>
                 match best with
                 | None => Some row
                 | Some b =>
                     if IntegrationService.before row b
                     then Some row else Some b
                 end) rows (Some best) = Some chosen
    /\ (chosen = best \/ In chosen rows)
    /\ IntegrationService.before best chosen = false
    /\ forall row, In row rows ->
                   IntegrationService.before row chosen = false.
Proof.
  induction rows as [|row rest IH]; intros best; simpl.
  - exists best. repeat split; auto using before_irreflexive. tauto.
  - destruct (IntegrationService.before row best) eqn:B.
    + destruct (IH row) as (chosen & E & Hin & Hb & Hall).
      exists chosen. split; [exact E|].
      split; [destruct Hin as [->|Hin]; simpl; auto|]. split.
      * destruct (IntegrationService.before best chosen) eqn:C;
          [|reflexivity].
        rewrite (before_transitive row best chosen B C) in Hb. discriminate.
      * intros r [->|Hr]; auto.
    + destruct (IH best) as (chosen & E & Hin & Hb & Hall).
      exists chosen. split; [exact E|].
      split; [destruct Hin as [->|Hin]; simpl; auto|].
      split; [exact Hb|].
      intros r [<-|Hr]; auto.
      exact (before_negatively_transitive row best chosen B Hb).
Qed.

Lemma first_row_spec (rows : list Row) :
  match IntegrationService.first_row rows with
  | None => rows = []
  | Some chosen =>
      In chosen rows
      /\ forall row, In row rows ->
                     IntegrationService.before row chosen = false
  end.
Proof.
  unfold IntegrationService.first_row.
  destruct rows as [|row rest]; simpl; [reflexivity|].
  destruct (first_row_fold rest row) as (chosen & E & Hin & Hb & Hall).
  rewrite E. split; [destruct Hin as [->|Hin]; auto|].
  intros r [<-|Hr]; auto.
Qed.

(** X14.  When the lookup of the onboarding status succeeds, it answers
    [not_started] exactly when the driver has no record; otherwise the
    record it returns is one of that driver's, and no record of the driver
    comes before it in the order of the query, newest first. *)
Theorem status_is_latest_record_of_driver :
  forall (env : IntegrationService.Env) (driver : string) (w : World)
         (s : IntegrationService.StoredStatus),
    fst (IntegrationService.getOnboardingStatus env driver w) = Normal s ->
    match s with
    | IntegrationService.NotStarted who =>
        who = driver
        /\ Forall (fun row =>
                     IntegrationService.matches "driver_id" driver row
                     = false)
                  (onboarding_records w)
    | IntegrationService.Stored record =>
        In record (onboarding_records w)
        /\ record !! "driver_id" = Some (Text driver)
        /\ forall row,
             In row (onboarding_records w) ->
             row !! "driver_id" = Some (Text driver) ->
             IntegrationService.before row record = false
    end.
Proof.
  intros env driver w s.
  unfold IntegrationService.getOnboardingStatus, bind, ret,
    IntegrationService.get_world.
  match goal with
  | |- context [IntegrationService.statement ?t ?c ?u w] =>
      destruct (statement_cases t c u w) as [E|[e E]]; rewrite E; clear E;
      cbv beta iota; [|discriminate]
  end.
  pose proof (first_row_spec
                (List.filter (IntegrationService.matches "driver_id" driver)
                             (onboarding_records w))) as F.
  destruct (IntegrationService.first_row _) as [record|]; simpl;
    intros H; injection H as <-.
  - destruct F as [Hin Hall]. apply filter_In in Hin as [Hin Hm].
    assert (forall row : Row,
               IntegrationService.matches "driver_id" driver row = true
               <-> row !! "driver_id" = Some (Text driver)) as M.
    { intros row. unfold IntegrationService.matches.
      destruct (row !! "driver_id") as [[| t | |]|];
        split; intros H; try discriminate.
      - apply String.eqb_eq in H. now subst t.
      - injection H as ->. apply String.eqb_refl. }
    split; [exact Hin|]. split; [now apply M|].
    intros row Hrow Hd. apply Hall. apply filter_In.
    split; [exact Hrow|now apply M].
  - split; [reflexivity|].
    apply List.Forall_forall. intros row Hrow.
    destruct (IntegrationService.matches "driver_id" driver row) eqn:Hm;
      [|reflexivity].
    assert (In row (List.filter
                      (IntegrationService.matches "driver_id" driver)
                      (onboarding_records w))) as Hf
      by (apply filter_In; auto).
    rewrite F in Hf. destruct Hf.
Qed.

Lemma status_is_latest_record_of_driver_witness :
  match fst (IntegrationService.getOnboardingStatus Sample.env "driver-1"
               Sample.world) with
  | Normal (IntegrationService.Stored record) =>
      record !! "driver_id" = Some (Text "driver-1")
  | _ => False
  end.
Proof.
  destruct (fst (IntegrationService.getOnboardingStatus Sample.env
                   "driver-1" Sample.world)) as [[who|record]|e] eqn:E.
  - vm_compute in E. discriminate E.
  - exact (proj1 (proj2 (status_is_latest_record_of_driver Sample.env
                           "driver-1" Sample.world _ E))).
  - vm_compute in E. discriminate E.
Defined.

(** ** The retry of a step, when it succeeds *)

Lemma retry_columns_distinct x :
  In x retryableSteps ->
  IntegrationService.stepColumn x <> IntegrationService.resultColumn x
  /\ IntegrationService.stepColumn x <> "updated_at"
  /\ IntegrationService.resultColumn x <> "updated_at".
Proof.
  intros Hx. simpl in Hx.
  repeat match goal with
         | H : _ \/ _ |- _ => destruct H
         | H : False |- _ => destruct H
         end; subst x; vm_compute; repeat split; discriminate.
Qed.

Lemma update_where_rows column value assignments (rows : list Row) :
  List.Forall2
    (fun row row' =>
       if IntegrationService.matches column value row
       then row' = fold_left (fun r a => <[fst a := snd a]> r)
                             assignments row
       else row' = row)
    rows (IntegrationService.update_where column value assignments rows).
Proof.
  unfold IntegrationService.update_where.
  induction rows as [|row rows IH]; simpl; constructor; [|exact IH].
  destruct (IntegrationService.matches column value row); reflexivity.
Qed.

Lemma Forall2_weaken {A B} (P Q : A -> B -> Prop) l l' :
  (forall a b, P a b -> Q a b) ->
  List.Forall2 P l l' -> List.Forall2 Q l l'.
Proof. intros H F. induction F; constructor; auto. Qed.

(** X15.  A retry that returns was asked for one of the four retryable
    steps and reports [retried].  It leaves the driver profiles alone, adds
    and removes no record, sets [x_status] to [completed] and [x_result] to
    the encoded result in every record of the driver, and leaves the
    records of the other drivers as they were.  For a driver without a
    record it therefore writes nothing, and still returns. *)
Theorem successful_retry_marks_step_completed :
  forall (env : IntegrationService.Env) (driver x : string) (w w' : World)
         (r : IntegrationService.RetryResult),
    IntegrationService.retryOnboardingStep env driver x w = (Normal r, w') ->
    In x retryableSteps
    /\ IntegrationService.retry_stepName r = x
    /\ IntegrationService.retry_status r = "retried"
    /\ driver_profiles w' = driver_profiles w
    /\ List.Forall2
         (fun row row' : Row =>
            if IntegrationService.matches "driver_id" driver row
            then row' !! IntegrationService.stepColumn x
                 = Some (Text "completed")
                 /\ row' !! IntegrationService.resultColumn x
                    = Some (Text (IntegrationService.json_of_result
                                    (IntegrationService.json env)
                                    (IntegrationService.retry_result r)))
            else row' = row)
         (onboarding_records w) (onboarding_records w').
Proof.
  intros env driver x w w' r H. rewrite retry_eq in H.
  destruct (fst (IntegrationService.getOnboardingStatus env driver w));
    [|discriminate].
  destruct (fst (IntegrationService.getDriverData driver w)) as [d|];
    [|discriminate].
  assert (In x retryableSteps) as Hx.
  { destruct (in_dec string_dec x retryableSteps) as [Hin|Hin];
      [exact Hin|].
    unfold bind at 1 in H. rewrite (dispatch_unknown env x d w Hin) in H.
    discriminate. }
  unfold bind at 1 in H.
  pose proof (dispatch_tables env x d w) as (T1 & T2 & T3).
  destruct (IntegrationService.retryDispatch env x d w) as [[sr|e] w1];
    simpl in T1, T2, T3; [|discriminate].
  unfold IntegrationService.updateOnboardingStepStatus, bind,
    IntegrationService.get_world, IntegrationService.set_tables, now, ret
    in H.
  match type of H with
  | context [IntegrationService.statement ?t ?c ?u w1] =>
      destruct (statement_cases t c u w1) as [E|[e E]]; rewrite E in H;
      clear E; cbv beta iota in H; [|discriminate]
  end.
  simpl in H. injection H as <- <-. simpl.
  split; [exact Hx|]. split; [reflexivity|]. split; [reflexivity|].
  split; [exact T1|]. rewrite T2.
  eapply Forall2_weaken; [|apply update_where_rows].
  intros row row'. cbv beta.
  destruct (IntegrationService.matches "driver_id" driver row);
    [|auto].
  intros ->. simpl.
  destruct (retry_columns_distinct x Hx) as (N1 & N2 & N3).
  split.
  - rewrite lookup_insert_ne by congruence.
    rewrite lookup_insert_ne by congruence.
    apply lookup_insert_eq.
  - rewrite lookup_insert_ne by congruence.
    apply lookup_insert_eq.
Qed.

Lemma successful_retry_marks_step_completed_witness :
  match IntegrationService.retryOnboardingStep Sample.env "driver-1"
          "documentStorage" Sample.world with
  | (Normal r, w') =>
      In "documentStorage" retryableSteps
      /\ IntegrationService.retry_status r = "retried"
      /\ driver_profiles w' = driver_profiles Sample.world
  | (Throw _, _) => False
  end.
Proof.
  destruct (IntegrationService.retryOnboardingStep Sample.env "driver-1"
              "documentStorage" Sample.world) as [[r|e] w'] eqn:E.
  - destruct (successful_retry_marks_step_completed _ _ _ _ _ _ E)
      as (H1 & _ & H3 & H4 & _).
    repeat split; assumption.
  - vm_compute in E. discriminate E.
Defined.

(** ** The subject read from the database *)

Lemma or_else_truthy (o : option string) (d : string) :
  d <> "" -> or_else o d <> "".
Proof.
  intros Hd. unfold or_else, truthy.
  destruct o as [s|]; [|exact Hd].
  destruct (String.eqb_spec s ""); auto.
Qed.

Lemma loaded_subject driver w d w' :
  IntegrationService.getDriverData driver w = (Normal d, w') ->
  w' = w
  /\ (exists row,
         In row (joined_rows w) /\ users_id row = driver
         /\ id d = row_id row)
  /\ personalInfo d <> None
  /\ driverInfo d <> None
  /\ employmentInfo d = None
  /\ IntegrationService.uploads d = [].
Proof.
  unfold IntegrationService.getDriverData, bind, ret, throw,
    IntegrationService.get_world.
  destruct (statement_cases "users" [] [] w) as [E|[e E]]; rewrite E;
    clear E; cbv beta iota; [|discriminate].
  destruct (List.filter _ (joined_rows w)) as [|row rest] eqn:F;
    [discriminate|].
  intros H. injection H as <- <-.
  assert (In row (List.filter
                    (fun row => String.eqb (users_id row) driver)
                    (joined_rows w))) as Hin by (rewrite F; now left).
  apply filter_In in Hin as [Hin Hid]. apply String.eqb_eq in Hid.
  split; [reflexivity|]. split; [exists row; auto|].
  repeat split; discriminate.
Qed.

Lemma lookup_cases driver w :
  (exists d, IntegrationService.getDriverData driver w = (Normal d, w))
  \/ (exists e, IntegrationService.getDriverData driver w = (Throw e, w)).
Proof.
  pose proof (getDriverData_world driver w) as H.
  destruct (IntegrationService.getDriverData driver w) as [[d|e] w1];
    simpl in H; subst w1; eauto.
Qed.




(** ** The complete onboarding, step by step *)

(** The operations of the first four steps. *)
Lemma onboarding_operations env d w :
  exists c1 c2 c3 c4 c5 t1 t2 t3 t4 t5 finished w' w1 w2 w3,
    let steps := fiveSteps c1 c2 c3 c4 c5 t1 t2 t3 t4 t5 in
    IntegrationService.performCompleteOnboarding env d w =
    (Normal
       (IntegrationService.mkOnboardingResult (id d) (clock w) steps
          (deriveOverallStatus steps)
          (Some (IntegrationService.generateOnboardingSummary steps))
          (IntegrationService.generateOnboardingRecommendations steps)
          (Some finished)),
     w')
    /\ c1 = fst ((do r <- BackgroundCheckService.performComprehensiveBackgroundCheck
                           (IntegrationService.backgroundCheckApis env) d;
                  ret (IntegrationService.BackgroundCheck r)) (snd (now w)))
    /\ c2 = fst ((do r <- InsuranceVerificationService.performComprehensiveInsuranceVerification
                           (IntegrationService.insuranceApis env) d;
                  ret (IntegrationService.InsuranceVerification r)) w1)
    /\ c3 = fst ((do r <- IntegrationService.processOnboardingPayment env d;
                  ret (IntegrationService.Payment r)) w2)
    /\ c4 = fst ((do r <- IntegrationService.storeDriverDocuments env d;
                  ret (IntegrationService.DocumentStorage r)) w3).
Proof.
  unfold IntegrationService.performCompleteOnboarding.
  unfold bind at 1.
  change (now w) with (Normal (clock w), snd (now w)).
  cbv beta iota.
  set (w0 := snd (now w)).
  unfold bind at 1. rewrite attempt_eq.
  match goal with
  | |- context [snd (now (snd (?op w0)))] =>
      set (w1 := snd (now (snd (op w0))))
  end.
  cbv beta iota.
  unfold bind at 1. rewrite attempt_eq.
  match goal with
  | |- context [snd (now (snd (?op w1)))] =>
      set (w2 := snd (now (snd (op w1))))
  end.
  cbv beta iota.
  unfold bind at 1. rewrite attempt_eq.
  match goal with
  | |- context [snd (now (snd (?op w2)))] =>
      set (w3 := snd (now (snd (op w2))))
  end.
  cbv beta iota.
  unfold bind at 1. rewrite attempt_eq.
  match goal with
  | |- context [snd (now (snd (?op w3)))] =>
      set (w4 := snd (now (snd (op w3))))
  end.
  cbv beta iota.
  unfold bind at 1. rewrite attempt_eq.
  match goal with
  | |- context [snd (now (snd (?op w4)))] =>
      set (w5 := snd (now (snd (op w4))))
  end.
  cbv beta iota.
  do 12 eexists. exists w1, w2, w3.
  split; [reflexivity|].
  repeat split.
Qed.

Lemma background_step_returns apis d w :
  exists r,
    fst ((do r <- BackgroundCheckService.performComprehensiveBackgroundCheck
                    apis d;
          ret (IntegrationService.BackgroundCheck r)) w) = Normal r.
Proof.
  unfold bind.
  destruct (background_run_eq apis d w) as (s & c & w' & E & _).
  rewrite E. eexists. reflexivity.
Qed.

Lemma completed_counts {R} (k : string) (o : Outcome R)
    (rest : Obj.t (Outcome R)) :
  status o = Completed -> 0 < completedCount ((k, o) :: rest).
Proof.
  intros H. unfold completedCount, Obj.values. simpl. rewrite H. simpl. lia.
Qed.


(** X17.  A complete onboarding is never failed.  The background-check
    service returns whatever its providers do, so the first step is always
    recorded as completed; hence at least one step is completed, the
    overall status is completed or partial, and the advice for a failed
    background check is never given. *)
Theorem onboarding_is_never_failed :
  forall (env : IntegrationService.Env) (d : DriverData) (w : World),
  exists r w',
    IntegrationService.performCompleteOnboarding env d w = (Normal r, w')
    /\ IntegrationService.step_failed "backgroundCheck"
         (IntegrationService.steps r) = false
    /\ 1 <= completedCount (IntegrationService.steps r)
    /\ (IntegrationService.overallStatus r = Completed
        \/ IntegrationService.overallStatus r = Partial)
    /\ ~ In "Review background check requirements"
            (IntegrationService.recommendations r).
Proof.
  intros env d w.
  destruct (onboarding_operations env d w)
    as (c1 & c2 & c3 & c4 & c5 & t1 & t2 & t3 & t4 & t5 & f & w' & w1 & w2
        & w3 & E & E1 & _).
  destruct (background_step_returns
              (IntegrationService.backgroundCheckApis env) d (snd (now w)))
    as (r1 & R1).
  rewrite R1 in E1. subst c1.
  eexists. exists w'. split; [exact E|].
  rewrite in_strings.
  destruct c2, c3, c4, c5; cbn; repeat split; auto; try lia;
    intros; discriminate.
Qed.



Lemma trace_after {A B} (m : M A) (k : A -> M B) w :
  (forall a w1, trace (snd (k a w1)) = trace w1) ->
  trace (snd ((do a <- m; k a) w)) = trace (snd (m w)).
Proof.
  intros H. unfold bind. destruct (m w) as [[a|e] w1]; cbn [snd]; auto.
Qed.

Lemma dispatch_trace env x d w :
  In x retryableSteps ->
  trace (snd (IntegrationService.retryDispatch env x d w)) = trace w ++ [x].
Proof.
  intros Hx. simpl in Hx.
  repeat match goal with
         | H : _ \/ _ |- _ => destruct H
         | H : False |- _ => destruct H
         end; subst x; unfold IntegrationService.retryDispatch;
    cbn [String.eqb Ascii.eqb Bool.eqb]; cbv iota;
    rewrite trace_map;
    auto using background_trace, insurance_trace, payment_trace,
               documents_trace.
Qed.

Lemma updateStep_trace env driver x newStatus stepResult w :
  trace (snd (IntegrationService.updateOnboardingStepStatus env driver x
                newStatus stepResult w)) = trace w.
Proof.
  unfold IntegrationService.updateOnboardingStepStatus, bind,
    IntegrationService.get_world, IntegrationService.set_tables.
  match goal with
  | |- context [IntegrationService.statement ?t ?c ?u w] =>
      destruct (statement_cases t c u w) as [E|[e E]]; rewrite E; clear E;
      reflexivity
  end.
Qed.

(** X20.  A retry of a retryable step enters the adapter of that step
    exactly once, and no other adapter, as soon as its two lookups have
    succeeded, whether the adapter then returns or throws; when a lookup
    fails, no adapter is entered. *)
Theorem retry_runs_only_its_adapter :
  forall (env : IntegrationService.Env) (driver x : string) (w : World),
    In x retryableSteps ->
    trace (snd (IntegrationService.retryOnboardingStep env driver x w))
    = trace w ++
      match fst (IntegrationService.getOnboardingStatus env driver w),
            fst (IntegrationService.getDriverData driver w) with
      | Normal _, Normal _ => [x]
      | _, _ => []
      end.
Proof.
  intros env driver x w Hx. rewrite retry_eq.
  destruct (fst (IntegrationService.getOnboardingStatus env driver w));
    [|cbn [snd]; now rewrite app_nil_r].
  destruct (fst (IntegrationService.getDriverData driver w)) as [d|];
    [|cbn [snd]; now rewrite app_nil_r].
  rewrite trace_after; [now apply dispatch_trace|].
  intros r w1. rewrite trace_after; [apply updateStep_trace|].
  intros u w2. reflexivity.
Qed.

Lemma retry_runs_only_its_adapter_witness :
  In "documentStorage" retryableSteps
  /\ trace (snd (IntegrationService.retryOnboardingStep Sample.env
                   "driver-1" "documentStorage" Sample.world))
     = ["documentStorage"].
Proof.
  assert (In "documentStorage" retryableSteps) as H by (simpl; tauto).
  split; [exact H|].
  rewrite (retry_runs_only_its_adapter Sample.env "driver-1"
             "documentStorage" Sample.world H).
  vm_compute. reflexivity.
Defined.


(** ** Bulk operations *)











Lemma bulkDispatch_unknown env op d w :
  ~ In op retryableSteps ->
  IntegrationRoutes.bulkDispatch env op d w
  = (Normal IntegrationRoutes.UnknownOperation, w).
Proof.
  intros H. unfold IntegrationRoutes.bulkDispatch.
  repeat match goal with
         | |- context [if String.eqb op ?b then _ else _] =>
             let E := fresh "E" in
             destruct (String.eqb_spec op b) as [E|E];
             [exfalso; apply H; rewrite E; simpl; tauto|]
         end.
  reflexivity.
Qed.

(** X23.  In a bulk request an operation that is none of the four known
    ones is reported as completed, with the result
    [{ error: 'Unknown operation' }], and changes nothing; the retry
    refuses the same name with [Unknown step]. *)
Theorem bulk_unknown_operation_is_completed :
  forall (env : IntegrationService.Env) (d : DriverData) (op : string)
         (w : World),
    ~ In op retryableSteps ->
    IntegrationRoutes.runOperation env d op w
    = (IntegrationRoutes.mkOperationEntry op Completed
         (Some IntegrationRoutes.UnknownOperation) None,
       w)
    /\ exists w',
         IntegrationService.retryDispatch env op d w
         = (Throw ("Unknown step: " +:+ op), w').
Proof.
  intros env d op w H. unfold IntegrationRoutes.runOperation.
  rewrite (bulkDispatch_unknown env op d w H).
  split; [reflexivity|].
  exists w. now apply dispatch_unknown.
Qed.

Lemma bulk_unknown_operation_is_completed_witness :
  IntegrationRoutes.operation_status
    (fst (IntegrationRoutes.runOperation Sample.env Sample.driver
            "activate" Sample.world)) = Completed.
Proof.
  assert (~ In "activate" retryableSteps) as H
    by (simpl; intuition discriminate).
  rewrite (proj1 (bulk_unknown_operation_is_completed Sample.env
                    Sample.driver "activate" Sample.world H)).
  reflexivity.
Defined.

(** ** Health of the integrations *)

(** X24.  The health report always lists the four services, in order,
    each healthy or unavailable; the overall health is never unhealthy,
    and it is healthy exactly when Firebase is initialised, the Stripe key
    is set, and at least one background-check key and one insurance key
    are set; otherwise it is degraded.  The report writes nothing. *)
Theorem integration_health_is_never_unhealthy :
  forall (env : IntegrationService.Env) (keys : IntegrationService.Keys)
         (w : World),
  exists h w',
    IntegrationService.getIntegrationHealth env keys w = (Normal h, w')
    /\ IntegrationService.health_timestamp h = clock w
    /\ Obj.keys (IntegrationService.services h)
       = ["firebase"; "payment"; "backgroundCheck"; "insuranceVerification"]
    /\ Forall (fun s =>
                 IntegrationService.service_status s
                 = IntegrationService.Healthy
                 \/ IntegrationService.service_status s
                    = IntegrationService.Unavailable)
              (Obj.values (IntegrationService.services h))
    /\ (IntegrationService.overall h = IntegrationService.Healthy
        \/ IntegrationService.overall h = IntegrationService.Degraded)
    /\ (IntegrationService.overall h = IntegrationService.Healthy
        <-> IntegrationService.firebaseInitialized
              (IntegrationService.firebase env) = true
            /\ truthy (IntegrationService.STRIPE_SECRET_KEY keys) = true
            /\ existsb truthy
                 [IntegrationService.criminalKey keys;
                  IntegrationService.drivingKey keys;
                  IntegrationService.employmentKey keys;
                  IntegrationService.creditKey keys] = true
            /\ existsb truthy
                 [IntegrationService.progressiveKey keys;
                  IntegrationService.geicoKey keys;
                  IntegrationService.statefarmKey keys;
                  IntegrationService.allstateKey keys;
                  IntegrationService.veriskKey keys;
                  IntegrationService.lexisnexisKey keys] = true)
    /\ sameTables w w'.
Proof.
  intros env keys w.
  unfold IntegrationService.getIntegrationHealth, bind, now, ret.
  cbv beta iota zeta.
  eexists. eexists. split; [reflexivity|].
  cbn [IntegrationService.health_timestamp IntegrationService.services
       IntegrationService.overall].
  split; [reflexivity|].
  destruct (IntegrationService.firebaseInitialized
              (IntegrationService.firebase env)),
    (truthy (IntegrationService.STRIPE_SECRET_KEY keys)),
    (existsb truthy [IntegrationService.criminalKey keys;
                     IntegrationService.drivingKey keys;
                     IntegrationService.employmentKey keys;
                     IntegrationService.creditKey keys]),
    (existsb truthy [IntegrationService.progressiveKey keys;
                     IntegrationService.geicoKey keys;
                     IntegrationService.statefarmKey keys;
                     IntegrationService.allstateKey keys;
                     IntegrationService.veriskKey keys;
                     IntegrationService.lexisnexisKey keys]);
    cbn;
    (split; [reflexivity|]);
    (split; [repeat (apply List.Forall_cons; [cbn; tauto|]);
             apply List.Forall_nil|]);
    (split; [first [left; reflexivity|right; reflexivity]|]);
    (split; [|repeat split]);
    split; intros H; try discriminate H; try reflexivity;
    try (repeat split; reflexivity);
    destruct H as (H1 & H2 & H3 & H4); discriminate.
Qed.

(** ** Document storage *)





(** ** The status after a run *)

Lemma matches_driver (driver : string) (row : Row) :
  IntegrationService.matches "driver_id" driver row = true
  <-> row !! "driver_id" = Some (Text driver).
Proof.
  unfold IntegrationService.matches.
  destruct (row !! "driver_id") as [[| t | |]|];
    split; intros H; try discriminate.
  - apply String.eqb_eq in H. now subst t.
  - injection H as ->. apply String.eqb_refl.
Qed.

Lemma databaseStep_fault env d started steps4 w4 :
  db_fault (snd (databaseStep env d started steps4 w4)) = db_fault w4.
Proof.
  unfold databaseStep, IntegrationService.updateOnboardingStatus,
    IntegrationService.transaction, bind, ret,
    IntegrationService.get_world, IntegrationService.set_tables.
  destruct (db_fault w4) eqn:Fault; [cbn; exact Fault|].
  match goal with
  | |- context [IntegrationService.statement ?t ?c ?u w4] =>
      destruct (statement_cases t c u w4) as [E|[e E]]; rewrite E; clear E;
      cbv beta iota; [|cbn; exact Fault]
  end.
  match goal with
  | |- context [IntegrationService.statement ?t ?c ?u ?w] =>
      destruct (statement_cases t c u w) as [E|[e E]]; rewrite E; clear E;
      cbv beta iota; cbn; exact Fault
  end.
Qed.

(** The status of a driver depends on the state of the connection and on
    the records of that driver. *)
Lemma status_stable env driver w w' :
  db_fault w' = db_fault w ->
  List.filter (IntegrationService.matches "driver_id" driver)
              (onboarding_records w')
  = List.filter (IntegrationService.matches "driver_id" driver)
                (onboarding_records w) ->
  fst (IntegrationService.getOnboardingStatus env driver w')
  = fst (IntegrationService.getOnboardingStatus env driver w).
Proof.
  intros F R.
  unfold IntegrationService.getOnboardingStatus, bind, ret,
    IntegrationService.get_world, IntegrationService.statement.
  rewrite F. destruct (db_fault w); [reflexivity|].
  destruct (List.filter _ ["driver_id"; "created_at"]); [|reflexivity].
  cbv beta iota. rewrite R.
  destruct (IntegrationService.first_row _); reflexivity.
Qed.

(** X26.  The record a complete onboarding stores is found under the id
    of the subject, and under no other.  After a run whose database step
    did not fail, a status lookup for the id the subject carries never
    answers [not_started]: it returns a stored record of that id when
    [onboarding_records] has the column [created_at] the lookup orders
    by, and throws when it has not.  For every other driver id, and for
    every driver id when the subject carries none, the status is what it
    was before the run; so the run of a subject read from the database,
    whose id is [row.id] of the join, leaves the status of the driver
    asked for as it was whenever the two differ. *)
Theorem status_after_a_stored_run :
  forall (env : IntegrationService.Env) (d : DriverData) (w w' : World)
         (r : IntegrationService.OnboardingResult),
    IntegrationService.performCompleteOnboarding env d w = (Normal r, w') ->
    (forall driver,
        id d = Some driver ->
        IntegrationService.step_failed "databaseUpdate"
          (IntegrationService.steps r) = false ->
        (In "created_at"
            (IntegrationService.record_columns
               (IntegrationService.schema env)) ->
         exists record,
           fst (IntegrationService.getOnboardingStatus env driver w')
           = Normal (IntegrationService.Stored record)
           /\ In record (onboarding_records w')
           /\ record !! "driver_id" = Some (Text driver))
        /\ (~ In "created_at"
                (IntegrationService.record_columns
                   (IntegrationService.schema env)) ->
            exists e,
              fst (IntegrationService.getOnboardingStatus env driver w')
              = Throw e))
    /\ (forall driver,
          id d <> Some driver ->
          fst (IntegrationService.getOnboardingStatus env driver w')
          = fst (IntegrationService.getOnboardingStatus env driver w)).
Proof.
  intros env d w w' r E.
  destruct (onboarding_run_store env d w)
    as (started & steps4 & w4 & w'' & (_ & F) & (_ & T & _) & K & R & E'
        & F').
  rewrite E in E'. injection E' as -> ->.
  pose proof (databaseStep_row env d started steps4 w4) as D.
  assert (Obj.get "databaseUpdate" steps4 = None) as G.
  { apply get_absent. rewrite K. simpl. intuition discriminate. }
  pose proof (databaseStep_effect env d started steps4 w4 G) as D0.
  pose proof (databaseStep_fault env d started steps4 w4) as DF.
  pose proof (databaseStep_accepts env d started steps4 w4) as DA.
  split.
  - intros driver Hid Hdb.
    cbn [IntegrationService.steps] in Hdb.
    unfold IntegrationService.step_failed in Hdb.
    rewrite get_set_same in Hdb.
    cbv zeta in R, F'.
    destruct (databaseStep env d started steps4 w4) as [[r5|e5] w5];
      [|discriminate Hdb].
    destruct D as (row & D1 & D2 & _). cbn [snd] in R, F', DF.
    rewrite Hid in D2. cbn in D2.
    destruct (proj1 DA (ex_intro _ r5 eq_refl)) as (Fault & _ & Cols).
    assert (db_fault w'' = None) as Fault' by congruence.
    unfold IntegrationService.getOnboardingStatus, bind, ret,
      IntegrationService.get_world.
    match goal with
    | |- context [IntegrationService.statement ?t ?c ?u ?w0] =>
        pose proof (statement_accepts t c u w0) as SA;
        destruct (statement_cases t c u w0) as [S|[e S]]; rewrite S;
        cbv beta iota
    end.
    + split.
      * intros _.
        pose proof (first_row_spec
                      (List.filter
                         (IntegrationService.matches "driver_id" driver)
                         (onboarding_records w''))) as Fr.
        destruct (IntegrationService.first_row _) as [record|]; cbn [fst].
        -- destruct Fr as [Hin _]. apply filter_In in Hin as [Hin Hm].
           exists record. split; [reflexivity|]. split; [exact Hin|].
           now apply matches_driver.
        -- exfalso.
           assert (In row (List.filter
                             (IntegrationService.matches "driver_id" driver)
                             (onboarding_records w''))) as Hin.
           { apply filter_In. split.
             - rewrite R, D1. apply in_or_app. right. now left.
             - now apply matches_driver. }
           rewrite Fr in Hin. destruct Hin.
      * intros No. exfalso. apply No.
        apply (proj1 SA (ex_intro _ w'' S)). cbn. auto.
    + split; [|intros _; exists e; reflexivity].
      intros Created. exfalso.
      destruct (proj2 SA) as (w0 & S0).
      { split; [exact Fault'|]. intros c [<-|[<-|[]]]; [|exact Created].
        apply Cols. cbn. auto. }
      rewrite S0 in S. discriminate S.
  - intros driver Hid. apply status_stable.
    + rewrite F'. cbv zeta. rewrite DF. exact F.
    + rewrite R. cbv zeta.
      destruct (databaseStep env d started steps4 w4) as [[r5|e5] w5];
        cbn [snd]; [|now rewrite D0, T].
      destruct D as (row & D1 & D2 & _). rewrite D1, T, List.filter_app.
      cbn [List.filter].
      assert (IntegrationService.matches "driver_id" driver row = false)
        as ->.
      { unfold IntegrationService.matches. rewrite D2.
        destruct (id d) as [i|]; cbn; [|reflexivity].
        apply String.eqb_neq. congruence. }
      apply app_nil_r.
Qed.

Lemma status_after_a_stored_run_witness :
  match IntegrationService.performCompleteOnboarding Sample.env
          Sample.driver Sample.world with
  | (Normal r, w') =>
      match fst (IntegrationService.getOnboardingStatus Sample.env
                   "driver-1" w') with
      | Normal (IntegrationService.Stored record) =>
          record !! "driver_id" = Some (Text "driver-1")
      | _ => False
      end
  | _ => False
  end.
Proof.
  assert (match fst (IntegrationService.performCompleteOnboarding
                       Sample.env Sample.driver Sample.world) with
          | Normal r =>
              IntegrationService.step_failed "databaseUpdate"
                (IntegrationService.steps r)
          | Throw _ => true
          end = false) as Hdb by (vm_compute; reflexivity).
  assert (In "created_at"
             (IntegrationService.record_columns
                (IntegrationService.schema Sample.env))) as Created
    by (apply in_strings; reflexivity).
  destruct (IntegrationService.performCompleteOnboarding Sample.env
              Sample.driver Sample.world) as [[r|e] w'] eqn:E;
    cbn [fst] in Hdb; [|discriminate Hdb].
  destruct (proj1 (proj1 (status_after_a_stored_run Sample.env
                            Sample.driver Sample.world w' r E)
                     "driver-1" eq_refl Hdb) Created)
    as (record & -> & _ & H).
  exact H.
Defined.

(** ** The background check of a subject read from the database *)

Lemma analyse_employment_flag s ty check :
  In "Employment verification failed"
     (BackgroundCheckService.flags
        (BackgroundCheckService.analyse s (ty, check))) ->
  In "Employment verification failed" (BackgroundCheckService.flags s)
  \/ (ty = "employment" /\ is_completed (status check) = true).
Proof.
  unfold BackgroundCheckService.analyse.
  destruct (is_completed (status check)); [|auto].
  destruct (String.eqb_spec ty "employment") as [->|Hne]; [auto|].
  cbn [andb].
  destruct (String.eqb ty "criminal"
            && BackgroundCheckService.reportsCriminalHistory check),
    (String.eqb ty "driving" && BackgroundCheckService.manyViolations check);
    unfold BackgroundCheckService.flag;
    cbn [BackgroundCheckService.flags];
    rewrite ?in_app_iff; cbn [In]; intuition discriminate.
Qed.

Lemma fold_employment_flag entries :
  forall s0,
    In "Employment verification failed"
       (BackgroundCheckService.flags
          (fold_left BackgroundCheckService.analyse entries s0)) ->
    In "Employment verification failed" (BackgroundCheckService.flags s0)
    \/ exists check,
         In ("employment", check) entries
         /\ is_completed (status check) = true.
Proof.
  induction entries as [|[ty check] rest IH]; intros s0 H; cbn in H;
    [auto|].
  destruct (IH _ H) as [H1|(c & Hin & Hc)].
  - destruct (analyse_employment_flag s0 ty check H1) as [H2|[-> H2]];
      [auto|].
    right. exists check. split; [now left|exact H2].
  - right. exists c. split; [now right|exact Hc].
Qed.

Lemma failed_entry_not_completed {R} (steps : Obj.t (Outcome R)) k o :
  In (k, o) steps -> is_completed (status o) = false ->
  deriveOverallStatus steps <> Completed.
Proof.
  intros Hin Hs.
  assert (completedCount steps < totalCount steps) as Hlt.
  { unfold completedCount, totalCount, Obj.values, Obj.keys.
    induction steps as [|[k' o'] rest IH]; [destruct Hin|].
    cbn [map snd fst List.filter length].
    assert (length (List.filter
                      (fun step : Outcome R => is_completed (status step))
                      (map snd rest)) <= length (map fst rest)) as Hle.
    { rewrite length_map, <- (length_map snd rest). apply filter_length_le. }
    destruct Hin as [Heq|Hin].
    - injection Heq as -> ->. rewrite Hs. lia.
    - specialize (IH Hin).
      destruct (is_completed (status o')); cbn [length]; lia. }
  unfold deriveOverallStatus.
  destruct (Nat.eqb_spec (completedCount steps) (totalCount steps));
    [lia|].
  destruct (Nat.ltb 0 (completedCount steps)); discriminate.
Qed.

(** X27.  The subject read from the database has no employment
    information, and the employment adapter starts by destructuring its
    argument.  So the background check of such a subject always records
    the employment check as failed, with the message of the [TypeError]
    behind the prefix of the adapter, whatever the provider would
    answer; the run is never completed, and the flag of an unverified
    employment is never raised. *)
Theorem loaded_subject_fails_employment_check :
  forall (apis : BackgroundCheckService.Apis) (driver : string)
         (d : DriverData) (w0 w : World),
    fst (IntegrationService.getDriverData driver w0) = Normal d ->
    exists run w',
      BackgroundCheckService.performComprehensiveBackgroundCheck apis d w
      = (Normal run, w')
      /\ Obj.get "employment" (BackgroundCheckService.checks run)
         = Some (mkOutcome Failed None
                   (Some ("Employment verification failed: "
                          +:+ "Cannot destructure property 'firstName' of 'employmentInfo' as it is undefined."))
                   None)
      /\ BackgroundCheckService.overallStatus run <> Completed
      /\ ~ In "Employment verification failed"
              (BackgroundCheckService.flags
                 (BackgroundCheckService.run_summary run)).
Proof.
  intros apis driver d w0 w Hd.
  destruct (lookup_cases driver w0) as [[d' L]|[e' L]];
    rewrite L in Hd; [|discriminate]. injection Hd as ->.
  destruct (loaded_subject driver w0 d w0 L) as (_ & _ & _ & _ & Hemp & _).
  destruct (background_run_eq apis d w) as (s & c & w' & E & _).
  cbv zeta in E.
  rewrite (processResults_by_tag _ _
             (proj1 (checkPromises_shape apis d))) in E.
  unfold BackgroundCheckService.checkPromises in E.
  unfold BackgroundCheckService.performEmploymentVerification in E.
  rewrite Hemp in E.
  cbn [BackgroundCheckService.destructure rethrow_as async] in E.
  rewrite !wrap_eq in E.
  unfold recordByTag in E.
  set (o1 := mkOutcome (R := BackgroundCheckService.CheckResult) Failed None
               (Some ("Employment verification failed: "
                      +:+ "Cannot destructure property 'firstName' of 'employmentInfo' as it is undefined."))
               None).
  assert (exists o o0 rest,
             ~ In "employment" (map fst rest) /\
             BackgroundCheckService.performComprehensiveBackgroundCheck
               apis d w
             = (Normal
                  (let checks :=
                     [("criminal", o); ("driving", o0); ("employment", o1)]
                     ++ rest in
                   BackgroundCheckService.mkRun (id d) s checks
                     (deriveOverallStatus checks)
                     (BackgroundCheckService.generateSummary checks) c),
                w')) as (o & o0 & rest & Hrest & E').
  { destruct (BackgroundCheckService.enable_credit_check apis);
      cbn [fold_left app type] in E;
      match type of E with
      | context [Obj.set "criminal" ?x Obj.empty] => set (o := x) in E
      end;
      match type of E with
      | context [Obj.set "driving" ?x _] => set (o0 := x) in E
      end.
    - match type of E with
      | context [Obj.set "credit" ?x _] => set (o2 := x) in E
      end.
      exists o, o0, [("credit", o2)].
      split; [cbn; intuition discriminate|exact E].
    - exists o, o0, []. split; [cbn; tauto|exact E]. }
  clear E. cbv zeta in E'.
  eexists. exists w'. split; [exact E'|].
  cbn [BackgroundCheckService.checks BackgroundCheckService.overallStatus
       BackgroundCheckService.run_summary].
  split; [reflexivity|]. split.
  - apply (failed_entry_not_completed _ "employment" o1);
      [cbn; tauto|reflexivity].
  - unfold BackgroundCheckService.generateSummary,
      BackgroundCheckService.recommend.
    cbn [BackgroundCheckService.flags].
    intros H. apply fold_employment_flag in H as [[]|(check & Hin & Hc)].
    unfold Obj.entries in Hin. apply in_app_or in Hin as [Hin|Hin].
    + cbn [In] in Hin.
      destruct Hin as [Hin|[Hin|[Hin|[]]]]; try discriminate Hin.
      injection Hin as <-. discriminate Hc.
    + apply Hrest. apply (in_map fst) in Hin. exact Hin.
Qed.

Lemma loaded_subject_fails_employment_check_witness :
  exists run w',
    BackgroundCheckService.performComprehensiveBackgroundCheck
      Sample.backgroundApis
      (match fst (IntegrationService.getDriverData "driver-1" Sample.world)
       with Normal d => d | Throw _ => Sample.uninsured end)
      Sample.world
    = (Normal run, w')
    /\ BackgroundCheckService.overallStatus run <> Completed.
Proof.
  destruct (loaded_subject_fails_employment_check Sample.backgroundApis
              "driver-1"
              (match fst (IntegrationService.getDriverData "driver-1"
                            Sample.world)
               with Normal d => d | Throw _ => Sample.uninsured end)
              Sample.world Sample.world)
    as (run & w' & E & _ & H & _); [reflexivity|].
  exists run, w'. split; assumption.
Defined.

(** An adapter of the background check is fulfilled exactly when it is
    given its argument and its provider answers, and the message of a
    rejection, which starts with the prefix of the adapter, is not
    empty. *)
Ltac adapter_cases info api :=
  cbv zeta; unfold BackgroundCheckService.destructure;
  let i := fresh "i" in
  let E := fresh "E" in
  destruct info as [i|]; [destruct (api i) eqn:E|]; cbn;
  [ split; [split; eauto|];
    split; [split; [discriminate|]|discriminate];
    let H := fresh "H" in
    intros H; destruct (H i eq_refl) as (? & ?); congruence
  | split; [split; [discriminate|]|];
    [ intros (? & ? & Hi & Ha); injection Hi as <-; congruence
    | split; [split; [|reflexivity]|];
      [ intros _ ? Hi; injection Hi as <-; eauto
      | intros ? H; injection H as <-; discriminate ] ]
  | split; [split; [discriminate|]|];
    [ intros (? & ? & Hi & _); discriminate
    | split; [split; [|reflexivity]|];
      [ intros _ ? Hi; discriminate
      | intros ? H; injection H as <-; discriminate ] ] ].

(** The outcome recorded for a step promise is completed exactly when the
    promise of the adapter is fulfilled, as long as the message of a
    rejection is not empty. *)
Lemma outcome_completed {R} (ty : string) (p : Settled R) :
  (forall m, p = Rejected m -> m <> "") ->
  is_completed
    (status
       (outcomeOf
          (mkTagged ty
             match p with Fulfilled r => Some r | Rejected _ => None end
             match p with Fulfilled _ => None | Rejected m => Some m end)))
  = isFulfilled p.
Proof.
  intros H. destruct p as [r|m]; [reflexivity|].
  unfold outcomeOf. cbn.
  destruct (String.eqb_spec m ""); [|reflexivity].
  now destruct (H m eq_refl).
Qed.

Lemma criminal_cases apis info :
  let p := BackgroundCheckService.performCriminalBackgroundCheck apis info in
  (isFulfilled p = true
   <-> exists i a, info = Some i
                   /\ BackgroundCheckService.criminal_api apis i = Normal a)
  /\ (isFulfilled p = false
      <-> forall i, info = Some i ->
                    exists m, BackgroundCheckService.criminal_api apis i
                              = Throw m)
  /\ forall m, p = Rejected m -> m <> "".
Proof.
  unfold BackgroundCheckService.performCriminalBackgroundCheck.
  adapter_cases info (BackgroundCheckService.criminal_api apis).
Qed.

Lemma driving_cases apis info :
  let p := BackgroundCheckService.performDrivingRecordCheck apis info in
  (isFulfilled p = true
   <-> exists i a, info = Some i
                   /\ BackgroundCheckService.driving_api apis i = Normal a)
  /\ (isFulfilled p = false
      <-> forall i, info = Some i ->
                    exists m, BackgroundCheckService.driving_api apis i
                              = Throw m)
  /\ forall m, p = Rejected m -> m <> "".
Proof.
  unfold BackgroundCheckService.performDrivingRecordCheck.
  adapter_cases info (BackgroundCheckService.driving_api apis).
Qed.

Lemma employment_cases apis info :
  let p := BackgroundCheckService.performEmploymentVerification apis info in
  (isFulfilled p = true
   <-> exists i a, info = Some i
                   /\ BackgroundCheckService.employment_api apis i
                      = Normal a)
  /\ (isFulfilled p = false
      <-> forall i, info = Some i ->
                    exists m, BackgroundCheckService.employment_api apis i
                              = Throw m)
  /\ forall m, p = Rejected m -> m <> "".
Proof.
  unfold BackgroundCheckService.performEmploymentVerification.
  adapter_cases info (BackgroundCheckService.employment_api apis).
Qed.

Lemma credit_cases apis info :
  let p := BackgroundCheckService.performCreditCheck apis info in
  (isFulfilled p = true
   <-> exists i a, info = Some i
                   /\ BackgroundCheckService.credit_api apis i = Normal a)
  /\ (isFulfilled p = false
      <-> forall i, info = Some i ->
                    exists m, BackgroundCheckService.credit_api apis i
                              = Throw m)
  /\ forall m, p = Rejected m -> m <> "".
Proof.
  unfold BackgroundCheckService.performCreditCheck.
  adapter_cases info (BackgroundCheckService.credit_api apis).
Qed.

(** X28.  The background check records the criminal, the driving and the
    employment check, and the credit check exactly when it is enabled.  Its
    overall status is completed exactly when every adapter that was
    called was given its argument and had an answer from its provider,
    and failed exactly when every one of them lacked its argument or had
    its provider throw. *)
Theorem background_check_completes_with_its_providers :
  forall (apis : BackgroundCheckService.Apis) (d : DriverData) (w : World),
  exists run w',
    BackgroundCheckService.performComprehensiveBackgroundCheck apis d w
    = (Normal run, w')
    /\ Obj.keys (BackgroundCheckService.checks run)
       = ["criminal"; "driving"; "employment"]
         ++ (if BackgroundCheckService.enable_credit_check apis
             then ["credit"] else [])
    /\ (BackgroundCheckService.overallStatus run = Completed
        <-> (exists p a, personalInfo d = Some p
                         /\ BackgroundCheckService.criminal_api apis p
                            = Normal a)
            /\ (exists i a, driverInfo d = Some i
                            /\ BackgroundCheckService.driving_api apis i
                               = Normal a)
            /\ (exists i a, employmentInfo d = Some i
                            /\ BackgroundCheckService.employment_api apis i
                               = Normal a)
            /\ (BackgroundCheckService.enable_credit_check apis = true ->
                exists p a, personalInfo d = Some p
                            /\ BackgroundCheckService.credit_api apis p
                               = Normal a))
    /\ (BackgroundCheckService.overallStatus run = Failed
        <-> (forall p, personalInfo d = Some p ->
                       exists m, BackgroundCheckService.criminal_api apis p
                                 = Throw m)
            /\ (forall i, driverInfo d = Some i ->
                          exists m, BackgroundCheckService.driving_api apis i
                                    = Throw m)
            /\ (forall i, employmentInfo d = Some i ->
                          exists m,
                            BackgroundCheckService.employment_api apis i
                            = Throw m)
            /\ (BackgroundCheckService.enable_credit_check apis = true ->
                forall p, personalInfo d = Some p ->
                          exists m, BackgroundCheckService.credit_api apis p
                                    = Throw m)).
Proof.
  intros apis d w.
  destruct (background_run_eq apis d w) as (s & c & w' & E & _).
  cbv zeta in E.
  rewrite (processResults_by_tag _ _
             (proj1 (checkPromises_shape apis d))) in E.
  unfold BackgroundCheckService.checkPromises in E.
  rewrite !wrap_eq in E. unfold recordByTag in E.
  pose proof (criminal_cases apis (personalInfo d)) as (A1 & B1 & N1).
  pose proof (driving_cases apis (driverInfo d)) as (A2 & B2 & N2).
  pose proof (employment_cases apis (employmentInfo d)) as (A3 & B3 & N3).
  pose proof (credit_cases apis (personalInfo d)) as (A4 & B4 & N4).
  cbv zeta in A1, B1, N1, A2, B2, N2, A3, B3, N3, A4, B4, N4.
  set (p1 := BackgroundCheckService.performCriminalBackgroundCheck apis
               (personalInfo d)) in *.
  set (p2 := BackgroundCheckService.performDrivingRecordCheck apis
               (driverInfo d)) in *.
  set (p3 := BackgroundCheckService.performEmploymentVerification apis
               (employmentInfo d)) in *.
  set (p4 := BackgroundCheckService.performCreditCheck apis
               (personalInfo d)) in *.
  pose proof (outcome_completed "criminal" p1 N1) as O1.
  pose proof (outcome_completed "driving" p2 N2) as O2.
  pose proof (outcome_completed "employment" p3 N3) as O3.
  pose proof (outcome_completed "credit" p4 N4) as O4.
  destruct (BackgroundCheckService.enable_credit_check apis);
    cbn [fold_left app type] in E;
    match type of E with
    | context [Obj.set "criminal" ?x Obj.empty] => set (o1 := x) in *
    end;
    match type of E with
    | context [Obj.set "driving" ?x _] => set (o2 := x) in *
    end;
    match type of E with
    | context [Obj.set "employment" ?x _] => set (o3 := x) in *
    end.
  - match type of E with
    | context [Obj.set "credit" ?x _] => set (o4 := x) in *
    end.
    eexists. exists w'. split; [exact E|]. clear E.
    cbn [BackgroundCheckService.checks BackgroundCheckService.overallStatus].
    change (Obj.set "credit" o4
              (Obj.set "employment" o3
                 (Obj.set "driving" o2 (Obj.set "criminal" o1 Obj.empty))))
      with [("criminal", o1); ("driving", o2); ("employment", o3);
            ("credit", o4)].
    split; [reflexivity|].
    unfold deriveOverallStatus, completedCount, totalCount, Obj.values,
      Obj.keys.
    cbn [map fst snd List.filter length].
    rewrite <- A1, <- A2, <- A3, <- B1, <- B2, <- B3.
    assert ((true = true -> exists p a,
                personalInfo d = Some p
                /\ BackgroundCheckService.credit_api apis p = Normal a)
            <-> isFulfilled p4 = true) as -> by (rewrite A4; tauto).
    assert ((true = true -> forall p,
                personalInfo d = Some p ->
                exists m, BackgroundCheckService.credit_api apis p = Throw m)
            <-> isFulfilled p4 = false) as -> by (rewrite B4; tauto).
    rewrite <- O1, <- O2, <- O3, <- O4.
    destruct (is_completed (status o1)), (is_completed (status o2)),
      (is_completed (status o3)), (is_completed (status o4)); cbn;
      split; split; intros H; try discriminate H; try tauto;
      repeat split; try reflexivity;
      destruct H as (H1 & H2 & H3 & H4); discriminate.
  - eexists. exists w'. split; [exact E|]. clear E.
    cbn [BackgroundCheckService.checks BackgroundCheckService.overallStatus].
    change (Obj.set "employment" o3
              (Obj.set "driving" o2 (Obj.set "criminal" o1 Obj.empty)))
      with [("criminal", o1); ("driving", o2); ("employment", o3)].
    split; [reflexivity|].
    unfold deriveOverallStatus, completedCount, totalCount, Obj.values,
      Obj.keys.
    cbn [map fst snd List.filter length].
    rewrite <- A1, <- A2, <- A3, <- B1, <- B2, <- B3.
    rewrite <- O1, <- O2, <- O3.
    destruct (is_completed (status o1)), (is_completed (status o2)),
      (is_completed (status o3)); cbn;
      split; split; intros H; try discriminate H; try tauto;
      repeat split; try reflexivity; try (intros H'; discriminate H');
      destruct H as (H1 & H2 & H3 & H4); discriminate.
Qed.

(** ** The driver lookup *)


(** ** The payment *)

(** X30.  A payment that returns charges the plan of the subject, or
    [BASIC] when it has none, never an empty plan; its customer is the
    existing one when the lookup of the customer succeeded, and a newly
    created one only when that lookup threw; the payment intent is the
    one created for that customer and plan.  The payment adapter has been
    entered once and nothing is written to the tables. *)
Theorem payment_plan_and_customer :
  forall (env : IntegrationService.Env) (d : DriverData) (w w' : World)
         (r : IntegrationService.PaymentResult),
    IntegrationService.processOnboardingPayment env d w = (Normal r, w') ->
    let stripe := IntegrationService.stripe env in
    IntegrationService.plan r = or_else (subscriptionPlan d) "BASIC"
    /\ IntegrationService.plan r <> ""
    /\ (IntegrationService.getCustomer stripe (stripeCustomerId d)
        = Normal (IntegrationService.customerId r)
        \/ ((exists e,
                IntegrationService.getCustomer stripe (stripeCustomerId d)
                = Throw e)
            /\ IntegrationService.createCustomer stripe d
               = Normal (IntegrationService.customerId r)))
    /\ (exists intent,
           IntegrationService.createOnboardingPaymentIntent stripe
             (IntegrationService.customerId r) (IntegrationService.plan r)
           = Normal intent
           /\ IntegrationService.paymentIntentId r
              = IntegrationService.intentId intent
           /\ IntegrationService.paymentStatus r
              = IntegrationService.intentStatus intent)
    /\ trace w' = trace w ++ ["payment"]
    /\ sameTables w w'.
Proof.
  intros env d w w' r.
  unfold IntegrationService.processOnboardingPayment, bind, enter, lift,
    ret, throw. cbn [fst snd].
  destruct (IntegrationService.getCustomer _ _) as [c|e] eqn:G.
  - cbn.
    destruct (IntegrationService.createOnboardingPaymentIntent _ c _)
      as [intent|e] eqn:I; cbn; [|discriminate].
    intros H. injection H as <- <-. cbn.
    split; [reflexivity|]. split; [apply or_else_truthy; discriminate|].
    split; [now left|]. split; [eauto|]. repeat split.
  - destruct (IntegrationService.createCustomer _ _) as [c|e'] eqn:C; cbn;
      [|discriminate].
    destruct (IntegrationService.createOnboardingPaymentIntent _ c _)
      as [intent|e'] eqn:I; cbn; [|discriminate].
    intros H. injection H as <- <-. cbn.
    split; [reflexivity|]. split; [apply or_else_truthy; discriminate|].
    split; [right; split; [eauto|reflexivity]|]. split; [eauto|].
    repeat split.
Qed.

Lemma payment_plan_and_customer_witness :
  match IntegrationService.processOnboardingPayment Sample.paying
          Sample.driver Sample.world with
  | (Normal r, _) => IntegrationService.plan r = "BASIC"
  | (Throw _, _) => False
  end.
Proof.
  destruct (IntegrationService.processOnboardingPayment Sample.paying
              Sample.driver Sample.world) as [[r|e] w'] eqn:E.
  - exact (proj1 (payment_plan_and_customer _ _ _ _ _ E)).
  - vm_compute in E. discriminate E.
Defined.
